(** * Personalized video search: filter, ranking and preference learning

    A shallow embedding of [src/search_engine.py] (class
    [PersonalizedSearchEngine]), [src/user_preferences.py] (class
    [UserPreferenceEngine]), the search of [src/youtube_api.py] (class
    [YouTubeSearchClient]) and the search endpoint of [src/main.py],
    followed by the properties of the specification that concern them
    and by further properties of the code.

    Not embedded: the two reports of the preference engine
    ([get_search_history], [get_interaction_stats]), whose order among
    rows with equal keys is left to SQLite; the schema of the database;
    the two look-ups of the client that nothing calls
    ([get_video_details], [get_channel_info]); and the other routes of
    the application.

    Conventions of the embedding.
    - A Python [str] is a [string]; a character is read as the code point
      0..255 it denotes, and the string functions below follow CPython on
      that range ([str.lower], [str.isspace], [int]).
    - A Python [int] is a [Z]; [//] is [Z.div] (both round towards minus
      infinity).
    - A [dict] with a fixed set of recognised keys is a record of [option]
      fields: [None] is an absent key, [d.get(k, v)] is [get_default].
    - A method that may raise returns a [result]; methods of the two engine
      objects, and the endpoint, run in the monad [M] over the state of
      the process.
    - The interpreter's optional limit on the number of digits accepted by
      [int] and the finite range of [timedelta] are not modelled. *)

From Stdlib Require Import ZArith List String Ascii Bool Lia QArith.
From Stdlib Require Import Permutation Sorted.
Import ListNotations.

Local Open Scope string_scope.
Local Open Scope list_scope.
Local Open Scope Z_scope.

(* ================================================================= *)
(** ** Exceptions and results *)

Inductive Exception : Type :=
| ValueError (msg : string)
| KeyError (key : string)
| ApiError (msg : string)
| DatabaseError (msg : string).

Inductive result (A : Type) : Type :=
| Ok (a : A)
| Raise (e : Exception).

Arguments Ok {A} a.
Arguments Raise {A} e.

Definition get_default {A : Type} (o : option A) (d : A) : A :=
  match o with
  | Some a => a
  | None => d
  end.

(* ================================================================= *)
(** ** The built-ins of Python the two modules use *)

Module Py.

(** *** Pure code that may raise *)

Definition bind {A B : Type} (r : result A) (k : A -> result B) : result B :=
  match r with
  | Ok a => k a
  | Raise e => Raise e
  end.

(** [try: r  except Exception: h] for an expression without effects. *)
Definition try_except {A : Type} (r : result A) (h : Exception -> A) : A :=
  match r with
  | Ok a => a
  | Raise e => h e
  end.

(** *** Characters *)

Definition code (c : ascii) : N := N_of_ascii c.

Definition between (lo hi : N) (c : ascii) : bool :=
  (N.leb lo (code c) && N.leb (code c) hi)%bool.

Definition is_digit (c : ascii) : bool := between 48 57 c.

Definition digit_value (c : ascii) : Z := Z.of_N (code c) - 48.

(** [str.isspace] on one character. *)
Definition isspace (c : ascii) : bool :=
  (between 9 13 c || between 28 32 c
   || N.eqb (code c) 133 || N.eqb (code c) 160)%bool.

(** The blanks [int] skips around a numeral: the C blanks, and the two
    blanks above 127, which the conversion turns into a space first. *)
Definition is_int_space (c : ascii) : bool :=
  (between 9 13 c || N.eqb (code c) 32
   || N.eqb (code c) 133 || N.eqb (code c) 160)%bool.

(** The characters [str.lower] changes: A-Z and the accented capitals
    of the range, each moved up by 32. *)
Definition is_upper (c : ascii) : bool :=
  (between 65 90 c || between 192 214 c || between 216 222 c)%bool.

Definition lower_char (c : ascii) : ascii :=
  if is_upper c then ascii_of_N (code c + 32) else c.

(** *** Strings *)

Fixpoint lower (s : string) : string :=
  match s with
  | EmptyString => EmptyString
  | String c s' => String (lower_char c) (lower s')
  end.

Definition len (s : string) : Z := Z.of_nat (String.length s).

(** [bool(s)]: a string is true when it is not empty. *)
Definition truthy (s : string) : bool :=
  match s with
  | EmptyString => false
  | String _ _ => true
  end.

Definition startswith (s p : string) : bool := String.prefix p s.

(** [sub in s]. *)
Fixpoint contains (sub s : string) : bool :=
  (String.prefix sub s
   || match s with
      | EmptyString => false
      | String _ s' => contains sub s'
      end)%bool.

(** [s[n:]] for [n >= 0]. *)
Fixpoint drop (n : nat) (s : string) : string :=
  match n, s with
  | O, _ => s
  | S _, EmptyString => EmptyString
  | S n', String _ s' => drop n' s'
  end.

(** [s.split(sep, 1)] for a one-character separator, as the pair of the
    text before the first separator and the text after it; [None] when
    [sep] does not occur (the call then returns the one-element list
    [[s]], and unpacking it into two names raises). *)
Fixpoint split_once (sep : ascii) (s : string) : option (string * string) :=
  match s with
  | EmptyString => None
  | String c s' =>
      if Ascii.eqb c sep then Some (EmptyString, s')
      else match split_once sep s' with
           | Some (before, after) => Some (String c before, after)
           | None => None
           end
  end.

(** [s.split(sep)[0]] for a one-character separator. *)
Fixpoint before_first (sep : ascii) (s : string) : string :=
  match s with
  | EmptyString => EmptyString
  | String c s' =>
      if Ascii.eqb c sep then EmptyString else String c (before_first sep s')
  end.

Fixpoint lstrip_by (p : ascii -> bool) (s : string) : string :=
  match s with
  | EmptyString => EmptyString
  | String c s' => if p c then lstrip_by p s' else s
  end.

Fixpoint rstrip_by (p : ascii -> bool) (s : string) : string :=
  match s with
  | EmptyString => EmptyString
  | String c s' =>
      match rstrip_by p s' with
      | EmptyString => if p c then EmptyString else String c EmptyString
      | r => String c r
      end
  end.

Fixpoint char_in (c : ascii) (chars : string) : bool :=
  match chars with
  | EmptyString => false
  | String d chars' => (Ascii.eqb c d || char_in c chars')%bool
  end.

(** [s.strip(chars)]. *)
Definition strip (chars : string) (s : string) : string :=
  rstrip_by (fun c => char_in c chars) (lstrip_by (fun c => char_in c chars) s).

(** [s.split()]: the maximal runs of characters that are not blank;
    [cur] is the run being read. *)
Fixpoint split_from (cur : string) (s : string) : list string :=
  match s with
  | EmptyString => if truthy cur then [cur] else []
  | String c s' =>
      if isspace c
      then (if truthy cur then cur :: split_from EmptyString s'
            else split_from EmptyString s')
      else split_from (String.append cur (String c EmptyString)) s'
  end.

Definition split (s : string) : list string := split_from EmptyString s.

(** [s.replace(c, by)] for a one-character pattern. *)
Fixpoint replace (c : ascii) (by_ : string) (s : string) : string :=
  match s with
  | EmptyString => EmptyString
  | String d s' =>
      if Ascii.eqb d c then String.append by_ (replace c by_ s')
      else String d (replace c by_ s')
  end.

(** *** [int(s)] in base 10 *)

(** Digits, with single underscores allowed between two digits. *)
Fixpoint int_digits (s : string) (acc : Z) (after_digit : bool) : option Z :=
  match s with
  | EmptyString => if after_digit then Some acc else None
  | String c s' =>
      if is_digit c then int_digits s' (acc * 10 + digit_value c) true
      else if Ascii.eqb c "_"%char
           then (if after_digit then int_digits s' acc false else None)
           else None
  end.

Definition int_signed (s : string) : option Z :=
  match s with
  | String "+"%char s' => int_digits s' 0 false
  | String "-"%char s' => option_map Z.opp (int_digits s' 0 false)
  | _ => int_digits s 0 false
  end.

Definition int (s : string) : result Z :=
  match int_signed (rstrip_by is_int_space (lstrip_by is_int_space s)) with
  | Some n => Ok n
  | None => Raise (ValueError "invalid literal for int() with base 10")
  end.

(** *** Lists *)

(** [x in l] for a list of strings. *)
Definition mem (x : string) (l : list string) : bool :=
  existsb (String.eqb x) l.

(** [l[:n]]: a negative bound counts from the end. *)
Definition slice_to {A : Type} (l : list A) (n : Z) : list A :=
  if n <? 0
  then firstn (Z.to_nat (Z.of_nat (List.length l) + n)) l
  else firstn (Z.to_nat n) l.

(** [l[-n:]] for [n > 0]: the last [n] elements. *)
Definition last_n {A : Type} (n : nat) (l : list A) : list A :=
  skipn (List.length l - n) l.

End Py.

(* ================================================================= *)
(** ** Data model *)

(** A video as the source returns it: a [dict]; the keys the two engines
    never read ([thumbnail], [url], [comment_count]) are left out. *)
Record VideoRecord : Type := mkVideo {
  video_id : option string;
  title : option string;
  channel : option string;
  description : option string;
  published_at : option string;
  duration : option string;
  view_count : option Z;
  like_count : option Z;
  category_id : option string
}.

(** The preference mapping, with its ten recognised keys. *)
Record Preferences : Type := mkPrefs {
  preferred_channels : option (list string);
  preferred_categories : option (list string);
  min_duration : option Z;
  max_duration : option Z;
  preferred_languages : option (list string);
  exclude_channels : option (list string);
  min_views : option Z;
  max_age_days : option Z;
  preferred_keywords : option (list string);
  disliked_keywords : option (list string)
}.

(** [self.default_preferences] as [__init__] builds it. *)
Definition initial_default_preferences : Preferences :=
  {| preferred_channels := Some [];
     preferred_categories := Some [];
     min_duration := Some 0;
     max_duration := Some 7200;
     preferred_languages := Some ["en"];
     exclude_channels := Some [];
     min_views := Some 0;
     max_age_days := Some 365;
     preferred_keywords := Some [];
     disliked_keywords := Some [] |}.

(** No key at all: the rows of an empty [user_preferences] table. *)
Definition no_preferences : Preferences :=
  mkPrefs None None None None None None None None None None.

Definition or_else {A : Type} (o d : option A) : option A :=
  match o with
  | Some a => Some a
  | None => d
  end.

(** [d = base.copy(); d[k] = v for each (k, v) of over]: the keys of
    [over] win. *)
Definition overlay (over base : Preferences) : Preferences :=
  {| preferred_channels := or_else (preferred_channels over) (preferred_channels base);
     preferred_categories := or_else (preferred_categories over) (preferred_categories base);
     min_duration := or_else (min_duration over) (min_duration base);
     max_duration := or_else (max_duration over) (max_duration base);
     preferred_languages := or_else (preferred_languages over) (preferred_languages base);
     exclude_channels := or_else (exclude_channels over) (exclude_channels base);
     min_views := or_else (min_views over) (min_views base);
     max_age_days := or_else (max_age_days over) (max_age_days base);
     preferred_keywords := or_else (preferred_keywords over) (preferred_keywords base);
     disliked_keywords := or_else (disliked_keywords over) (disliked_keywords base) |}.

(** The three lists the learner appends to. *)
Inductive ListKey : Type :=
| K_preferred_channels
| K_preferred_categories
| K_preferred_keywords.

Definition key_name (k : ListKey) : string :=
  match k with
  | K_preferred_channels => "preferred_channels"
  | K_preferred_categories => "preferred_categories"
  | K_preferred_keywords => "preferred_keywords"
  end.

Definition get_list (k : ListKey) (p : Preferences) : option (list string) :=
  match k with
  | K_preferred_channels => preferred_channels p
  | K_preferred_categories => preferred_categories p
  | K_preferred_keywords => preferred_keywords p
  end.

Definition set_preferred_channels (l : list string) (p : Preferences) : Preferences :=
  mkPrefs (Some l) (preferred_categories p) (min_duration p) (max_duration p)
    (preferred_languages p) (exclude_channels p) (min_views p) (max_age_days p)
    (preferred_keywords p) (disliked_keywords p).

Definition set_preferred_categories (l : list string) (p : Preferences) : Preferences :=
  mkPrefs (preferred_channels p) (Some l) (min_duration p) (max_duration p)
    (preferred_languages p) (exclude_channels p) (min_views p) (max_age_days p)
    (preferred_keywords p) (disliked_keywords p).

Definition set_preferred_keywords (l : list string) (p : Preferences) : Preferences :=
  mkPrefs (preferred_channels p) (preferred_categories p) (min_duration p) (max_duration p)
    (preferred_languages p) (exclude_channels p) (min_views p) (max_age_days p)
    (Some l) (disliked_keywords p).

Definition set_min_duration (n : Z) (p : Preferences) : Preferences :=
  mkPrefs (preferred_channels p) (preferred_categories p) (Some n) (max_duration p)
    (preferred_languages p) (exclude_channels p) (min_views p) (max_age_days p)
    (preferred_keywords p) (disliked_keywords p).

Definition set_max_duration (n : Z) (p : Preferences) : Preferences :=
  mkPrefs (preferred_channels p) (preferred_categories p) (min_duration p) (Some n)
    (preferred_languages p) (exclude_channels p) (min_views p) (max_age_days p)
    (preferred_keywords p) (disliked_keywords p).

Definition set_list (k : ListKey) (l : list string) (p : Preferences) : Preferences :=
  match k with
  | K_preferred_channels => set_preferred_channels l p
  | K_preferred_categories => set_preferred_categories l p
  | K_preferred_keywords => set_preferred_keywords l p
  end.

(** A row of the table [user_interactions]. *)
Record Interaction : Type := mkInteraction {
  i_video_id : string;
  i_action : string;
  i_query : option string;
  i_channel : string;
  i_category : string;
  i_duration : Z;
  i_view_count : Z;
  i_created_at : Z
}.

(** A row of the table [search_history]. *)
Record SearchLogEntry : Type := mkSearchLogEntry {
  s_query : string;
  s_results_count : Z;
  s_clicked_video_id : option string;
  s_created_at : Z
}.

(* ================================================================= *)
(** ** Environment *)

(** Double-precision arithmetic is kept abstract: the operations the
    scoring function uses, and the comparison [<] the sort uses. *)
Record FloatOps : Type := mkFloatOps {
  float : Type;
  of_int : Z -> float;              (* int -> float conversion *)
  lit : Q -> float;                 (* a decimal literal such as 0.5 *)
  fadd : float -> float -> float;
  fmul : float -> float -> float;
  fdiv : float -> float -> float;
  log10 : Z -> float;               (* math.log10 of a positive int *)
  fltb : float -> float -> bool     (* x < y *)
}.

(** What the process does not control: the clock, the parsing of
    timestamps by [datetime.fromisoformat] ([None] when it raises; the
    instant denoted, in microseconds on the scale of the clock,
    otherwise), and the video source behind
    [youtube_client.search_videos(query, max_results, order)]. *)
Record Env : Type := mkEnv {
  flops : FloatOps;
  now : Z;
  fromisoformat : string -> option Z;
  search_videos : string -> Z -> string -> result (list VideoRecord)
}.

Definition microseconds_per_day : Z := 86400000000.

(* ================================================================= *)
(** ** State of the process and its monad *)

(** The attribute [default_preferences] of the preference engine, the
    three tables of its database, whether the database is failing (every
    [sqlite3] call of a method then raises [db_error]), and the requests
    sent to the video source so far. *)
Record State : Type := mkState {
  default_preferences : Preferences;
  user_preferences : Preferences;
  user_interactions : list Interaction;
  search_history : list SearchLogEntry;
  db_error : option Exception;
  requests : list (string * Z * string)
}.

Definition initial_state : State :=
  mkState initial_default_preferences no_preferences [] [] None [].

Definition M (A : Type) : Type := State -> result A * State.

Definition ret {A : Type} (a : A) : M A := fun st => (Ok a, st).

Definition raise {A : Type} (e : Exception) : M A := fun st => (Raise e, st).

Definition bind {A B : Type} (m : M A) (k : A -> M B) : M B :=
  fun st =>
    match m st with
    | (Ok a, st') => k a st'
    | (Raise e, st') => (Raise e, st')
    end.

(** [try: m  except Exception as e: h e]; what [m] did to the state
    before it raised stays done. *)
Definition try_except {A : Type} (m : M A) (h : Exception -> M A) : M A :=
  fun st =>
    match m st with
    | (Ok a, st') => (Ok a, st')
    | (Raise e, st') => h e st'
    end.

Definition lift {A : Type} (r : result A) : M A := fun st => (r, st).

Definition gets {A : Type} (f : State -> A) : M A := fun st => (Ok (f st), st).

Definition modify (f : State -> State) : M unit := fun st => (Ok tt, f st).

Notation "x <- m ;; k" := (bind m (fun x => k))
  (at level 61, m at next level, right associativity).
Notation "m ;;; k" := (bind m (fun _ => k))
  (at level 61, right associativity).

(** [for x in l: acc = body acc x]. *)
Fixpoint for_each {A B : Type} (l : list A) (acc : B) (body : B -> A -> M B) : M B :=
  match l with
  | [] => ret acc
  | x :: l' => acc' <- body acc x ;; for_each l' acc' body
  end.

Definition set_default_preferences (p : Preferences) (st : State) : State :=
  mkState p (user_preferences st) (user_interactions st) (search_history st)
    (db_error st) (requests st).

Definition set_user_preferences (p : Preferences) (st : State) : State :=
  mkState (default_preferences st) p (user_interactions st) (search_history st)
    (db_error st) (requests st).

Definition add_interaction (i : Interaction) (st : State) : State :=
  mkState (default_preferences st) (user_preferences st) (user_interactions st ++ [i])
    (search_history st) (db_error st) (requests st).

Definition add_search (s : SearchLogEntry) (st : State) : State :=
  mkState (default_preferences st) (user_preferences st) (user_interactions st)
    (search_history st ++ [s]) (db_error st) (requests st).

Definition add_request (r : string * Z * string) (st : State) : State :=
  mkState (default_preferences st) (user_preferences st) (user_interactions st)
    (search_history st) (db_error st) (requests st ++ [r]).

Definition set_db_error (e : option Exception) (st : State) : State :=
  mkState (default_preferences st) (user_preferences st) (user_interactions st)
    (search_history st) e (requests st).

(* ================================================================= *)
(** ** [user_preferences.py]: class [UserPreferenceEngine] *)

Module UserPreferenceEngine.

(** The body of the [try] block. *)
Definition _parse_duration_try (duration_str : string) : result Z :=
  if negb (Py.startswith duration_str "PT") then Ok 0
  else
    let duration_str := Py.drop 2 duration_str in
    let total_seconds := 0 in
    (* Parse hours *)
    Py.bind
      (if Py.contains "H" duration_str then
         match Py.split_once "H" duration_str with
         | Some (hours, rest) =>
             Py.bind (Py.int hours) (fun h =>
             Ok (total_seconds + h * 3600, rest))
         | None => Raise (ValueError "not enough values to unpack")
         end
       else Ok (total_seconds, duration_str))
      (fun '(total_seconds, duration_str) =>
    (* Parse minutes *)
    Py.bind
      (if Py.contains "M" duration_str then
         match Py.split_once "M" duration_str with
         | Some (minutes, rest) =>
             Py.bind (Py.int minutes) (fun m =>
             Ok (total_seconds + m * 60, rest))
         | None => Raise (ValueError "not enough values to unpack")
         end
       else Ok (total_seconds, duration_str))
      (fun '(total_seconds, duration_str) =>
    (* Parse seconds *)
    Py.bind
      (if Py.contains "S" duration_str then
         let seconds := Py.before_first "S" duration_str in
         Py.bind (Py.int seconds) (fun s =>
         Ok (total_seconds + s))
       else Ok total_seconds)
      (fun total_seconds => Ok total_seconds))).


Definition _parse_duration (duration_str : string) : Z :=
  Py.try_except (_parse_duration_try duration_str) (fun _ => 0).

(** [sqlite3.connect(self.db_path)] and the statements run on the
    connection: they raise when the database is failing. *)
Definition connect : M unit :=
  fun st =>
    match db_error st with
    | Some e => (Raise e, st)
    | None => (Ok tt, st)
    end.

Definition is_none {A : Type} (o : option A) : bool :=
  match o with
  | Some _ => false
  | None => true
  end.

(** [get_preferences] returns a shallow copy of [default_preferences]
    overwritten with the stored rows: a list whose key has no row is the
    very object [default_preferences] holds.  Next to the mapping, the
    model returns which of the three lists the learner mutates are
    shared in this way. *)
Definition get_preferences_shared : M (Preferences * (ListKey -> bool)) :=
  try_except
    (connect ;;;
     rows <- gets user_preferences ;;
     defaults <- gets default_preferences ;;
     ret (overlay rows defaults, fun k => is_none (get_list k rows)))
    (fun _ =>
       defaults <- gets default_preferences ;;
       ret (defaults, fun _ => true)).

Definition get_preferences : M Preferences :=
  pr <- get_preferences_shared ;; ret (fst pr).

(** [INSERT OR REPLACE] of every key of [preferences]; the exception is
    logged and raised again. *)
Definition update_preferences (preferences : Preferences) : M unit :=
  try_except
    (connect ;;;
     modify (fun st => set_user_preferences (overlay preferences (user_preferences st)) st))
    (fun e => raise e).

(** [preferences[k]]. *)
Definition getitem (k : ListKey) (preferences : Preferences) : M (list string) :=
  match get_list k preferences with
  | Some l => ret l
  | None => raise (KeyError (key_name k))
  end.

(** [preferences[k].append(x)]: the list is changed in place, so the
    list of [default_preferences] changes with it when it is the same
    object. *)
Definition append (shared : ListKey -> bool) (k : ListKey) (x : string)
    (preferences : Preferences) : M Preferences :=
  l <- getitem k preferences ;;
  (if shared k
   then modify (fun st =>
          set_default_preferences (set_list k (l ++ [x]) (default_preferences st)) st)
   else ret tt) ;;;
  ret (set_list k (l ++ [x]) preferences).

Definition common_words : list string :=
  ["this"; "that"; "with"; "have"; "will"; "from"; "they"; "know";
   "want"; "been"; "good"; "much"; "some"; "time"; "very"; "when";
   "come"; "here"; "just"; "like"; "long"; "make"; "many"; "over";
   "such"; "take"; "than"; "them"; "well"; "were"].

Definition _learn_from_interaction (video_data : VideoRecord) (action : string) : M unit :=
  try_except
    (pr <- get_preferences_shared ;;
     let '(preferences, shared) := pr in
     (* Learn from channel preferences *)
     let channel := get_default (channel video_data) "" in
     preferences <-
       (if (Py.truthy channel && Py.mem action ["clicked"; "liked"; "watched"])%bool then
          l <- getitem K_preferred_channels preferences ;;
          if negb (Py.mem channel l) then
            preferences <- append shared K_preferred_channels channel preferences ;;
            l <- getitem K_preferred_channels preferences ;;
            (* Limit to top 50 preferred channels *)
            if 50 <? Z.of_nat (List.length l)
            then ret (set_preferred_channels (Py.last_n 50 l) preferences)
            else ret preferences
          else ret preferences
        else ret preferences) ;;
     (* Learn from category preferences *)
     let category := get_default (category_id video_data) "" in
     preferences <-
       (if (Py.truthy category && Py.mem action ["clicked"; "liked"])%bool then
          l <- getitem K_preferred_categories preferences ;;
          if negb (Py.mem category l)
          then append shared K_preferred_categories category preferences
          else ret preferences
        else ret preferences) ;;
     (* Learn from video duration preferences *)
     let duration := _parse_duration (get_default (duration video_data) "PT0M0S") in
     let preferences :=
       if ((0 <? duration) && Py.mem action ["watched"; "liked"])%bool then
         let current_min := get_default (min_duration preferences) 0 in
         let current_max := get_default (max_duration preferences) 7200 in
         let preferences :=
           if duration <? current_min
           then set_min_duration (Z.max 0 (current_min - 60)) preferences
           else preferences in
         if current_max <? duration
         then set_max_duration (Z.min 14400 (current_max + 300)) preferences
         else preferences
       else preferences in
     (* Learn from title keywords *)
     let title := Py.lower (get_default (title video_data) "") in
     preferences <-
       (if (Py.truthy title && Py.mem action ["clicked"; "liked"])%bool then
          let words :=
            map (Py.strip ".,!?()[]")
                (filter (fun word => 3 <? Py.len word) (Py.split title)) in
          for_each words preferences (fun preferences word =>
            if Py.mem word common_words then ret preferences
            else
              l <- getitem K_preferred_keywords preferences ;;
              if (negb (Py.mem word l) && (Z.of_nat (List.length l) <? 100))%bool
              then append shared K_preferred_keywords word preferences
              else ret preferences)
        else ret preferences) ;;
     update_preferences preferences)
    (fun _ => ret tt).

Definition record_interaction (env : Env) (video_data : VideoRecord)
    (action : string) (query : option string) : M unit :=
  try_except
    (connect ;;;
     modify (add_interaction
               {| i_video_id := get_default (video_id video_data) "";
                  i_action := action;
                  i_query := query;
                  i_channel := get_default (channel video_data) "";
                  i_category := get_default (category_id video_data) "";
                  i_duration := _parse_duration (get_default (duration video_data) "PT0M0S");
                  i_view_count := get_default (view_count video_data) 0;
                  i_created_at := now env |}) ;;;
     (* Update preferences based on interaction *)
     if Py.mem action ["clicked"; "liked"; "watched"]
     then _learn_from_interaction video_data action
     else ret tt)
    (fun _ => ret tt).

Definition record_search (env : Env) (query : string) (results_count : Z) : M unit :=
  try_except
    (connect ;;;
     modify (add_search
               {| s_query := query;
                  s_results_count := results_count;
                  s_clicked_video_id := None;
                  s_created_at := now env |}))
    (fun _ => ret tt).

End UserPreferenceEngine.

(* ================================================================= *)
(** ** [search_engine.py]: class [PersonalizedSearchEngine] *)

Module PersonalizedSearchEngine.

(** The body of the [try] block. *)
Definition _parse_duration_try (duration_str : string) : result Z :=
  if negb (Py.startswith duration_str "PT") then Ok 0
  else
    let duration_str := Py.drop 2 duration_str in
    let total_seconds := 0 in
    (* Parse hours *)
    Py.bind
      (if Py.contains "H" duration_str then
         match Py.split_once "H" duration_str with
         | Some (hours, rest) =>
             Py.bind (Py.int hours) (fun h =>
             Ok (total_seconds + h * 3600, rest))
         | None => Raise (ValueError "not enough values to unpack")
         end
       else Ok (total_seconds, duration_str))
      (fun '(total_seconds, duration_str) =>
    (* Parse minutes *)
    Py.bind
      (if Py.contains "M" duration_str then
         match Py.split_once "M" duration_str with
         | Some (minutes, rest) =>
             Py.bind (Py.int minutes) (fun m =>
             Ok (total_seconds + m * 60, rest))
         | None => Raise (ValueError "not enough values to unpack")
         end
       else Ok (total_seconds, duration_str))
      (fun '(total_seconds, duration_str) =>
    (* Parse seconds *)
    Py.bind
      (if Py.contains "S" duration_str then
         let seconds := Py.before_first "S" duration_str in
         Py.bind (Py.int seconds) (fun s =>
         Ok (total_seconds + s))
       else Ok total_seconds)
      (fun total_seconds => Ok total_seconds))).


Definition _parse_duration (duration_str : string) : Z :=
  Py.try_except (_parse_duration_try duration_str) (fun _ => 0).

(** [timedelta(days=max_age_days)] and the difference of two instants
    are both counted in microseconds. *)
Definition _is_video_too_old (env : Env) (published_at : string) (max_age_days : Z) : bool :=
  Py.try_except
    (if negb (Py.truthy published_at) then Ok false
     else
       match fromisoformat env (Py.replace "Z" "+00:00" published_at) with
       | None => Raise (ValueError "Invalid isoformat string")
       | Some published_date =>
           let max_age := max_age_days * microseconds_per_day in
           Ok (max_age <? now env - published_date)
       end)
    (fun _ => false).

(** [age.days] is the number of whole days, rounded down. *)
Definition _get_video_age_days (env : Env) (published_at : string) : Z :=
  Py.try_except
    (if negb (Py.truthy published_at) then Ok (-1)
     else
       match fromisoformat env (Py.replace "Z" "+00:00" published_at) with
       | None => Raise (ValueError "Invalid isoformat string")
       | Some published_date =>
           let age := now env - published_date in
           Ok (age / microseconds_per_day)
       end)
    (fun _ => -1).

Definition _apply_preference_filters (env : Env) (videos : list VideoRecord)
    (preferences : Preferences) : list VideoRecord :=
  fold_left
    (fun filtered_videos video =>
       (* Skip if channel is in exclude list *)
       if Py.mem (get_default (channel video) "")
                 (get_default (exclude_channels preferences) [])
       then filtered_videos
       else
         (* Filter by duration *)
         let duration := _parse_duration (get_default (duration video) "PT0M0S") in
         let min_duration := get_default (min_duration preferences) 0 in
         let max_duration := get_default (max_duration preferences) 7200 in
         if ((duration <? min_duration) || (max_duration <? duration))%bool
         then filtered_videos
         else
           (* Filter by minimum views *)
           let min_views := get_default (min_views preferences) 0 in
           if get_default (view_count video) 0 <? min_views
           then filtered_videos
           else
             (* Filter by age *)
             let max_age_days := get_default (max_age_days preferences) 365 in
             if _is_video_too_old env (get_default (published_at video) "") max_age_days
             then filtered_videos
             else
               (* Filter by disliked keywords *)
               let disliked_keywords := get_default (disliked_keywords preferences) [] in
               let title_lower := Py.lower (get_default (title video) "") in
               let description_lower := Py.lower (get_default (description video) "") in
               if existsb
                    (fun keyword =>
                       (Py.contains (Py.lower keyword) title_lower
                        || Py.contains (Py.lower keyword) description_lower)%bool)
                    disliked_keywords
               then filtered_videos
               else filtered_videos ++ [video])
    videos [].

Definition _calculate_preference_score (env : Env) (video : VideoRecord)
    (preferences : Preferences) (query : string) : float (flops env) :=
  let F := flops env in
  let score := lit F 0 in
  (* Base relevance score *)
  let score := fadd F score (lit F 1) in
  (* Channel preference boost *)
  let preferred_channels := get_default (preferred_channels preferences) [] in
  let score :=
    if Py.mem (get_default (channel video) "") preferred_channels
    then fadd F score (lit F 2) else score in
  (* Category preference boost *)
  let preferred_categories := get_default (preferred_categories preferences) [] in
  let score :=
    if Py.mem (get_default (category_id video) "") preferred_categories
    then fadd F score (lit F (3 # 2)) else score in
  (* Keyword preference boost *)
  let preferred_keywords := get_default (preferred_keywords preferences) [] in
  let title_lower := Py.lower (get_default (title video) "") in
  let description_lower := Py.lower (get_default (description video) "") in
  let keyword_matches :=
    fold_left
      (fun keyword_matches keyword =>
         if (Py.contains (Py.lower keyword) title_lower
             || Py.contains (Py.lower keyword) description_lower)%bool
         then keyword_matches + 1 else keyword_matches)
      preferred_keywords 0 in
  let score := fadd F score (fmul F (of_int F keyword_matches) (lit F (1 # 2))) in
  (* Query relevance boost *)
  let query_words := Py.split (Py.lower query) in
  let query_matches :=
    fold_left
      (fun query_matches word =>
         if Py.contains word title_lower then query_matches + 1 else query_matches)
      query_words 0 in
  let score :=
    match query_words with
    | [] => score
    | _ :: _ =>
        let query_relevance :=
          fdiv F (of_int F query_matches) (of_int F (Z.of_nat (List.length query_words))) in
        fadd F score (fmul F query_relevance (lit F 2))
    end in
  (* View count normalization *)
  let view_count_ := get_default (view_count video) 0 in
  let score :=
    if 0 <? view_count_
    then fadd F score (fmul F (log10 F view_count_) (lit F (1 # 10)))
    else score in
  (* Like ratio boost *)
  let like_count_ := get_default (like_count video) 0 in
  let score :=
    if ((0 <? like_count_) && (0 <? view_count_))%bool then
      let like_ratio := fdiv F (of_int F like_count_) (of_int F view_count_) in
      fadd F score (fmul F like_ratio (of_int F 100))
    else score in
  (* Recency boost for newer videos *)
  let days_old := _get_video_age_days env (get_default (published_at video) "") in
  let score :=
    if 0 <=? days_old then
      let x := fdiv F (of_int F (30 - days_old)) (of_int F 30) in
      let recency_boost :=
        fmul F (if fltb F (of_int F 0) x then x else of_int F 0) (lit F (1 # 2)) in
      fadd F score recency_boost
    else score in
  (* Duration preference alignment *)
  let duration := _parse_duration (get_default (duration video) "PT0M0S") in
  let preferred_min := get_default (min_duration preferences) 0 in
  let preferred_max := get_default (max_duration preferences) 7200 in
  if ((preferred_min <=? duration) && (duration <=? preferred_max))%bool
  then fadd F score (lit F (3 # 10))
  else score.

(** [scored.sort(key=lambda x: x[0], reverse=True)].  Python's sort is
    stable, also with [reverse=True], and compares keys with [<] only;
    it is modelled by the insertion sort with these two properties. *)
Fixpoint insert_descending (F : FloatOps) {A : Type} (x : float F * A)
    (l : list (float F * A)) : list (float F * A) :=
  match l with
  | [] => [x]
  | y :: l' =>
      if fltb F (fst x) (fst y) then y :: insert_descending F x l'
      else x :: l
  end.

Definition sort_descending (F : FloatOps) {A : Type} (l : list (float F * A))
  : list (float F * A) :=
  fold_right (insert_descending F) [] l.

Definition _rank_by_preferences (env : Env) (videos : list VideoRecord)
    (preferences : Preferences) (query : string) : list VideoRecord :=
  let scored_videos :=
    fold_left
      (fun scored_videos video =>
         let score := _calculate_preference_score env video preferences query in
         scored_videos ++ [(score, video)])
      videos [] in
  (* Sort by score (descending) *)
  let scored_videos := sort_descending (flops env) scored_videos in
  (* Return just the videos (without scores) *)
  map snd scored_videos.

(** [self.youtube_client.search_videos(...)], with the request noted. *)
Definition call_search_videos (env : Env) (query : string) (max_results : Z)
    (order : string) : M (list VideoRecord) :=
  modify (add_request (query, max_results, order)) ;;;
  lift (search_videos env query max_results order).

Definition search (env : Env) (query : string) (max_results : Z) : M (list VideoRecord) :=
  try_except
    ((* Get raw results from YouTube API *)
     raw_results <- call_search_videos env query (Z.min (max_results * 2) 50) "relevance" ;;
     (* Get user preferences *)
     preferences <- UserPreferenceEngine.get_preferences ;;
     (* Apply personalization filters *)
     let filtered_results := _apply_preference_filters env raw_results preferences in
     (* Rank results based on preferences *)
     let ranked_results := _rank_by_preferences env filtered_results preferences query in
     (* Limit to requested number of results *)
     let final_results := Py.slice_to ranked_results max_results in
     (* Record search in history *)
     UserPreferenceEngine.record_search env query (Z.of_nat (List.length final_results)) ;;;
     ret final_results)
    (fun e => raise e).

Definition search_by_channel (env : Env) (channel_name : string) (max_results : Z)
  : M (list VideoRecord) :=
  try_except
    (let query := String.append "channel:" channel_name in
     search env query max_results)
    (fun _ => ret []).

(** The loop that removes duplicates by [video_id]. *)
Definition remove_duplicates (all_results : list VideoRecord) : list VideoRecord :=
  snd
    (fold_left
       (fun '(seen_ids, unique_results) video =>
          let video_id := get_default (video_id video) "" in
          if negb (Py.mem video_id seen_ids)
          then (video_id :: seen_ids, unique_results ++ [video])
          else (seen_ids, unique_results))
       all_results ([], [])).

Definition trending_queries : list string :=
  ["trending today"; "popular videos"; "viral videos"; "latest trending"].

Definition get_trending_personalized (env : Env) (max_results : Z) : M (list VideoRecord) :=
  try_except
    (all_results <-
       for_each trending_queries [] (fun all_results query =>
         results <- search env query (max_results / Z.of_nat (List.length trending_queries)) ;;
         ret (all_results ++ results)) ;;
     (* Remove duplicates by video_id *)
     let unique_results := remove_duplicates all_results in
     ret (Py.slice_to unique_results max_results))
    (fun _ => ret []).

Definition get_recommendations (env : Env) (max_results : Z) : M (list VideoRecord) :=
  try_except
    (preferences <- UserPreferenceEngine.get_preferences ;;
     (* Build recommendation queries from preferences *)
     let queries := [] in
     let preferred_keywords := firstn 10 (get_default (preferred_keywords preferences) []) in
     let queries := queries ++ preferred_keywords in
     let preferred_channels := firstn 5 (get_default (preferred_channels preferences) []) in
     let queries := queries ++ map (fun channel => String.append "channel:" channel) preferred_channels in
     (* If no preferences, use generic recommendations *)
     let queries :=
       match queries with
       | [] => ["educational"; "entertainment"; "technology"; "music"]
       | _ :: _ => queries
       end in
     let results_per_query := Z.max 1 (max_results / Z.of_nat (List.length queries)) in
     all_results <-
       for_each queries [] (fun all_results query =>
         try_except
           (results <- search env query results_per_query ;;
            ret (all_results ++ results))
           (fun _ => ret all_results)) ;;
     (* Remove duplicates and limit results *)
     let unique_results := remove_duplicates all_results in
     ret (Py.slice_to unique_results max_results))
    (fun _ => ret []).

End PersonalizedSearchEngine.

(* ================================================================= *)
(** ** [youtube_api.py]: class [YouTubeSearchClient] *)

Module YouTubeSearchClient.

(** *** The responses of the YouTube Data API

    The JSON objects the API returns, with the keys the client reads; a
    key that may be absent is an [option] field.  The values have the
    types the API documents: text for the fields of a snippet and, in the
    statistics, for the counts. *)

Record Thumbnail : Type := mkThumbnail {
  url_ : option string
}.

Record Thumbnails : Type := mkThumbnails {
  medium : option Thumbnail
}.

Record Snippet : Type := mkSnippet {
  title_ : option string;
  channelTitle : option string;
  description_ : option string;
  publishedAt : option string;
  thumbnails : option Thumbnails
}.

Record ResourceId : Type := mkResourceId {
  videoId : option string
}.

(** An item of [search().list(...)]. *)
Record SearchResult : Type := mkSearchResult {
  id_ : option ResourceId;
  snippet : option Snippet
}.

Record Statistics : Type := mkStatistics {
  viewCount : option string;
  likeCount : option string;
  commentCount : option string
}.

Record ContentDetails : Type := mkContentDetails {
  duration_ : option string
}.

(** An item of [videos().list(...)]. *)
Record VideoItem : Type := mkVideoItem {
  item_id : option string;
  statistics : option Statistics;
  contentDetails : option ContentDetails
}.

(** A response: the list under the key [items], when there is one. *)
Definition Response (Item : Type) : Type := option (list Item).

(** What [execute()] raises: an [HttpError] or another exception, each
    with the text [str] gives of it. *)
Inductive Failure : Type :=
| HttpError (text : string)
| OtherError (text : string).

Inductive answer (A : Type) : Type :=
| Answer (a : A)
| Fails (f : Failure).

Arguments Answer {A} a.
Arguments Fails {A} f.

(** The two requests of the client:
    [search().list(q, part='id,snippet', type='video', maxResults, order)]
    and [videos().list(part='statistics,contentDetails', id)]. *)
Record Api : Type := mkApi {
  search_list : string -> Z -> string -> answer (Response SearchResult);
  videos_list : string -> answer (Response VideoItem)
}.

(** *** The videos the client builds

    The keys the engines read, and the three they never read. *)
Record VideoData : Type := mkVideoData {
  fields : VideoRecord;
  thumbnail : string;
  url : string;
  comment_count : option Z
}.

Definition set_view_count (n : Z) (video : VideoData) : VideoData :=
  let f := fields video in
  mkVideoData
    (mkVideo (video_id f) (title f) (channel f) (description f) (published_at f)
       (duration f) (Some n) (like_count f) (category_id f))
    (thumbnail video) (url video) (comment_count video).

Definition set_like_count (n : Z) (video : VideoData) : VideoData :=
  let f := fields video in
  mkVideoData
    (mkVideo (video_id f) (title f) (channel f) (description f) (published_at f)
       (duration f) (view_count f) (Some n) (category_id f))
    (thumbnail video) (url video) (comment_count video).

Definition set_comment_count (n : Z) (video : VideoData) : VideoData :=
  mkVideoData (fields video) (thumbnail video) (url video) (Some n).

Definition set_duration (d : string) (video : VideoData) : VideoData :=
  let f := fields video in
  mkVideoData
    (mkVideo (video_id f) (title f) (channel f) (description f) (published_at f)
       (Some d) (view_count f) (like_count f) (category_id f))
    (thumbnail video) (url video) (comment_count video).

(** *** What the body of [search_videos] may raise *)

Inductive Raised : Type :=
| FromApi (f : Failure)
| Missing (key : string).      (* KeyError(key) *)

(** [str(e)]; for a [KeyError] it is the key between quotes. *)
Definition str (r : Raised) : string :=
  match r with
  | FromApi (HttpError text) => text
  | FromApi (OtherError text) => text
  | Missing key => String.append "'" (String.append key "'")
  end.

Inductive attempt (A : Type) : Type :=
| Done (a : A)
| Stopped (r : Raised).

Arguments Done {A} a.
Arguments Stopped {A} r.

Definition and_then {A B : Type} (m : attempt A) (k : A -> attempt B) : attempt B :=
  match m with
  | Done a => k a
  | Stopped r => Stopped r
  end.

(** [d[key]]. *)
Definition getitem {A : Type} (key : string) (o : option A) : attempt A :=
  match o with
  | Some a => Done a
  | None => Stopped (Missing key)
  end.

(** [s[:n]] for [n >= 0]. *)
Fixpoint take (n : nat) (s : string) : string :=
  match n, s with
  | O, _ => EmptyString
  | S _, EmptyString => EmptyString
  | S n', String c s' => String c (take n' s')
  end.

(** One turn of the loop of [search_videos]: the identifier and the
    video built from a search result, the keys being read in the order of
    the source. *)
Definition video_data_of (search_result : SearchResult) : attempt (string * VideoData) :=
  and_then (getitem "id" (id_ search_result)) (fun resource =>
  and_then (getitem "videoId" (videoId resource)) (fun video_id =>
  and_then (getitem "snippet" (snippet search_result)) (fun snippet =>
  and_then (getitem "title" (title_ snippet)) (fun title =>
  and_then (getitem "channelTitle" (channelTitle snippet)) (fun channel =>
  and_then (getitem "description" (description_ snippet)) (fun description =>
  and_then (getitem "publishedAt" (publishedAt snippet)) (fun published_at =>
  and_then (getitem "thumbnails" (thumbnails snippet)) (fun thumbnails =>
  Done
    (video_id,
     {| fields :=
          mkVideo
            (Some video_id)
            (Some title)
            (Some channel)
            (Some (if 200 <? Py.len description
                   then String.append (take 200 description) "..."
                   else description))
            (Some published_at)
            None None None None;
        thumbnail :=
          get_default (url_ (get_default (medium thumbnails) (mkThumbnail None))) "";
        url := String.append "https://www.youtube.com/watch?v=" video_id;
        comment_count := None |}))))))))).

(** [int(stats.get(key, 0))]. *)
Definition count (o : option string) : result Z :=
  match o with
  | Some text => Py.int text
  | None => Ok 0
  end.

(** [stats_map], the latest entry first: the entry found for a key is
    the last one stored under it. *)
Definition lookup (video_id : string) (stats_map : list (string * VideoItem))
  : option VideoItem :=
  match find (fun entry => String.eqb (fst entry) video_id) stats_map with
  | Some entry => Some (snd entry)
  | None => None
  end.

(** The first loop of [_add_video_statistics]; [None] when an item has
    no [id]. *)
Definition build_stats_map (items : list VideoItem) : option (list (string * VideoItem)) :=
  fold_left
    (fun stats_map item =>
       match stats_map, item_id item with
       | Some stats_map, Some id => Some ((id, item) :: stats_map)
       | _, _ => None
       end)
    items (Some []).

(** The second loop: the videos are changed in place, one key after the
    other, until a conversion raises; the result is the list as the loop
    leaves it. *)
Fixpoint update_videos (stats_map : list (string * VideoItem)) (videos : list VideoData)
  : list VideoData :=
  match videos with
  | [] => []
  | video :: rest =>
      match video_id (fields video) with
      | None => video :: rest
      | Some video_id =>
          match lookup video_id stats_map with
          | None => video :: update_videos stats_map rest
          | Some item =>
              let stats := get_default (statistics item) (mkStatistics None None None) in
              let content_details :=
                get_default (contentDetails item) (mkContentDetails None) in
              match count (viewCount stats) with
              | Raise _ => video :: rest
              | Ok views =>
                  let video := set_view_count views video in
                  match count (likeCount stats) with
                  | Raise _ => video :: rest
                  | Ok likes =>
                      let video := set_like_count likes video in
                      match count (commentCount stats) with
                      | Raise _ => video :: rest
                      | Ok comments =>
                          let video := set_comment_count comments video in
                          let video :=
                            set_duration
                              (get_default (duration_ content_details) "PT0M0S") video in
                          video :: update_videos stats_map rest
                      end
                  end
              end
          end
      end
  end.

(** The method returns nothing and catches every exception: what it
    does is what it leaves in [videos]. *)
Definition _add_video_statistics (api : Api) (videos : list VideoData)
    (video_ids : list string) : list VideoData :=
  match videos_list api (String.concat "," video_ids) with
  | Fails _ => videos
  | Answer stats_response =>
      match build_stats_map (get_default stats_response []) with
      | None => videos
      | Some stats_map => update_videos stats_map videos
      end
  end.

Definition search_videos (api : Api) (query : string) (max_results : Z) (order : string)
  : result (list VideoData) :=
  let body :=
    and_then
      (match search_list api query max_results order with
       | Answer search_response => Done search_response
       | Fails f => Stopped (FromApi f)
       end)
      (fun search_response =>
    and_then
      (fold_left
         (fun state search_result =>
            and_then state (fun '(videos, video_ids) =>
            and_then (video_data_of search_result) (fun '(video_id, video_data) =>
            Done (videos ++ [video_data], video_ids ++ [video_id]))))
         (get_default search_response []) (Done ([], [])))
      (fun '(videos, video_ids) =>
    (* Get additional video statistics *)
    let videos :=
      match video_ids with
      | [] => videos
      | _ :: _ => _add_video_statistics api videos video_ids
      end in
    Done videos)) in
  match body with
  | Done videos => Ok videos
  | Stopped (FromApi (HttpError text)) =>
      Raise (ApiError (String.append "YouTube API error: " text))
  | Stopped r => Raise (ApiError (String.append "Search error: " (str r)))
  end.

End YouTubeSearchClient.

(* ================================================================= *)
(** ** [main.py]: the search endpoint *)

Module Main.

(** What the endpoint answers: the JSON object of a search with status
    200, or an error message with its status. *)
Inductive Response : Type :=
| SearchResults (query : string) (videos : list VideoRecord) (total : Z)
| Error (status : Z) (message : string).

(** [s.strip()]. *)
Definition strip (s : string) : string :=
  Py.rstrip_by Py.isspace (Py.lstrip_by Py.isspace s).

(** [api_search]; [q] is the parameter of the request, when given. *)
Definition api_search (env : Env) (q : option string) : M Response :=
  try_except
    (let query := strip (get_default q "") in
     if negb (Py.truthy query) then ret (Error 400 "Search query is required")
     else
       (* Perform personalized search *)
       results <- PersonalizedSearchEngine.search env query 25 ;;
       ret (SearchResults query results (Z.of_nat (List.length results))))
    (fun _ => ret (Error 500 "Internal server error")).

End Main.

(* ================================================================= *)
(** ** A concrete environment, used by the examples *)

Module Example.

(** Exact rational arithmetic in the place of doubles, with [log10]
    rounded down to an integer. *)
Definition Qltb (x y : Q) : bool := negb (Qle_bool y x).

Fixpoint ilog10 (fuel : nat) (n : Z) : Z :=
  match fuel with
  | O => 0
  | S fuel' => if n <? 10 then 0 else 1 + ilog10 fuel' (n / 10)
  end.

Definition rational_floats : FloatOps :=
  {| float := Q;
     of_int := inject_Z;
     lit := fun q => q;
     fadd := Qplus;
     fmul := Qmult;
     fdiv := Qdiv;
     log10 := fun n => inject_Z (ilog10 (Z.to_nat (Z.log2 n)) n);
     fltb := Qltb |}.

(** A clock stopped at the start of 2024-03-01 (UTC), counted from the
    start of 2024, and the three timestamps it knows. *)
Definition clock : Z := 60 * microseconds_per_day.

Definition timestamps (s : string) : option Z :=
  if String.eqb s "2024-01-01T00:00:00+00:00" then Some 0
  else if String.eqb s "2024-02-20T00:00:00+00:00" then Some (50 * microseconds_per_day)
  else if String.eqb s "2023-01-01T00:00:00+00:00" then Some (-365 * microseconds_per_day)
  else None.

Definition env_with (source : string -> Z -> string -> result (list VideoRecord)) : Env :=
  mkEnv rational_floats clock timestamps source.

Definition video (id title_ channel_ : string) : VideoRecord :=
  {| video_id := Some id;
     title := Some title_;
     channel := Some channel_;
     description := Some "";
     published_at := Some "2024-02-20T00:00:00Z";
     duration := Some "PT5M30S";
     view_count := Some 1000;
     like_count := Some 10;
     category_id := Some "27" |}.

(** A source that answers every query with the same two videos. *)
Definition two_videos : string -> Z -> string -> result (list VideoRecord) :=
  fun _ _ _ => Ok [video "a1" "Learning Rocq" "Alpha"; video "b2" "Cooking pasta" "Beta"].

(** A source that fails on the query [popular videos] and answers any
    other query with one video named after it. *)
Definition fails_on_popular : string -> Z -> string -> result (list VideoRecord) :=
  fun query _ _ =>
    if String.eqb query "popular videos" then Raise (ApiError "quota exceeded")
    else Ok [video query "Some title" "Alpha"].

(** A source that fails on every query. *)
Definition always_fails : string -> Z -> string -> result (list VideoRecord) :=
  fun _ _ _ => Raise (ApiError "quota exceeded").

(** A source that answers each query with two videos named after it. *)
Definition two_per_query : string -> Z -> string -> result (list VideoRecord) :=
  fun query _ _ =>
    Ok [video (String.append query "/1") "First" "Alpha";
        video (String.append query "/2") "Second" "Beta"].

(** The database is locked. *)
Definition locked : Exception := DatabaseError "database is locked".

End Example.

(* ################################################################# *)
(** * Properties *)

(* ================================================================= *)
(** ** Strings *)

Section StringFacts.

Local Notation "a +++ b" := (String.append a b) (at level 60, right associativity).

Lemma append_assoc (a b c : string) : (a +++ b) +++ c = a +++ (b +++ c).
Proof. induction a as [|x a IH]; simpl; [reflexivity | now rewrite IH]. Qed.

Lemma append_empty_r (a : string) : a +++ EmptyString = a.
Proof. induction a as [|x a IH]; simpl; [reflexivity | now rewrite IH]. Qed.

Lemma append_length (a b : string) :
  String.length (a +++ b) = (String.length a + String.length b)%nat.
Proof. induction a as [|x a IH]; simpl; [reflexivity | now rewrite IH]. Qed.

Lemma prefix_iff (p s : string) :
  String.prefix p s = true <-> exists t, s = p +++ t.
Proof.
  revert s; induction p as [|x p IH]; intros s.
  - split; [intros _; now exists s | intros _; now destruct s].
  - destruct s as [|y s]; simpl.
    + split; [discriminate | intros [t Ht]; discriminate].
    + destruct (ascii_dec x y) as [->|Hxy].
      * rewrite IH. split; intros [t Ht]; exists t.
        -- now rewrite Ht.
        -- now inversion Ht.
      * split; [discriminate | intros [t Ht]; inversion Ht; subst; now elim Hxy].
Qed.

(** [w] occurs in [s] as a run of consecutive characters. *)
Definition Substring (w s : string) : Prop :=
  exists before after, s = before +++ w +++ after.

Lemma contains_iff (w s : string) : Py.contains w s = true <-> Substring w s.
Proof.
  induction s as [|y s IH].
  - change (Py.contains w EmptyString)
      with (String.prefix w EmptyString || false)%bool.
    rewrite orb_false_r, prefix_iff. split.
    + intros [t Ht]. exists EmptyString, t. exact Ht.
    + intros [b [a Ha]]. destruct b; [now exists a | discriminate].
  - change (Py.contains w (String y s))
      with (String.prefix w (String y s) || Py.contains w s)%bool.
    rewrite orb_true_iff, prefix_iff, IH. split.
    + intros [[t Ht] | [b [a Ha]]].
      * exists EmptyString, t. exact Ht.
      * exists (String y b), a. simpl. now rewrite Ha.
    + intros [b [a Ha]]. destruct b as [|z b].
      * left. now exists a.
      * right. exists b, a. simpl in Ha. now inversion Ha.
Qed.



(** A one-character pattern. *)
Lemma contains_char_append (c : ascii) (a b : string) :
  Py.contains (String c EmptyString) (a +++ String c b) = true.
Proof.
  apply contains_iff. exists a, b. reflexivity.
Qed.

Lemma contains_char_iff (c : ascii) (s : string) :
  Py.contains (String c EmptyString) s = Py.char_in c s.
Proof.
  induction s as [|d s IH]; [reflexivity|].
  change (Py.contains (String c EmptyString) (String d s))
    with (String.prefix (String c EmptyString) (String d s)
          || Py.contains (String c EmptyString) s)%bool.
  rewrite IH. simpl.
  destruct (ascii_dec c d) as [->|Hcd].
  - rewrite Ascii.eqb_refl. now destruct s.
  - apply Ascii.eqb_neq in Hcd. now rewrite Hcd.
Qed.

Lemma split_once_append (c : ascii) (a b : string) :
  Py.char_in c a = false -> Py.split_once c (a +++ String c b) = Some (a, b).
Proof.
  induction a as [|d a IH]; simpl; intros H.
  - now rewrite Ascii.eqb_refl.
  - apply orb_false_iff in H as [Hcd Ha].
    rewrite Ascii.eqb_sym, Hcd, (IH Ha). reflexivity.
Qed.

Lemma before_first_append (c : ascii) (a b : string) :
  Py.char_in c a = false -> Py.before_first c (a +++ String c b) = a.
Proof.
  induction a as [|d a IH]; simpl; intros H.
  - now rewrite Ascii.eqb_refl.
  - apply orb_false_iff in H as [Hcd Ha].
    rewrite Ascii.eqb_sym, Hcd, (IH Ha). reflexivity.
Qed.

End StringFacts.

(* ================================================================= *)
(** ** The duration parser *)

Section DurationParser.

Local Notation "a +++ b" := (String.append a b) (at level 60, right associativity).
Local Abbreviation parse_duration := PersonalizedSearchEngine._parse_duration.
Local Abbreviation parse_duration_try := PersonalizedSearchEngine._parse_duration_try.

(** The method of the learner is the method of the search engine. *)
Lemma parse_duration_shared (s : string) :
  UserPreferenceEngine._parse_duration s = parse_duration s.
Proof. reflexivity. Qed.

Lemma parse_duration_no_prefix (s : string) :
  Py.startswith s "PT" = false -> parse_duration_try s = Ok 0.
Proof.
  intros H. unfold PersonalizedSearchEngine._parse_duration_try.
  now rewrite H.
Qed.

(** The three components, each closed by its marker, in the order hours,
    minutes, seconds; what follows the marker [S] is not read. *)
Lemma parse_duration_components (h m sec rest : string) :
  Py.char_in "H" h = false ->
  Py.char_in "M" m = false ->
  Py.char_in "S" sec = false ->
  parse_duration
    ("PT" +++ h +++ String "H" (m +++ String "M" (sec +++ String "S" rest))) =
  match Py.int h, Py.int m, Py.int sec with
  | Ok a, Ok b, Ok c => a * 3600 + b * 60 + c
  | _, _, _ => 0
  end.
Proof.
  intros Hh Hm Hs.
  unfold PersonalizedSearchEngine._parse_duration,
    PersonalizedSearchEngine._parse_duration_try.
  change ("PT" +++ h +++ String "H" (m +++ String "M" (sec +++ String "S" rest)))
    with (String "P" (String "T"
            (h +++ String "H" (m +++ String "M" (sec +++ String "S" rest))))).
  replace (Py.startswith (String "P" (String "T" _)) "PT") with true
    by (unfold Py.startswith; cbn; now destruct h).
  cbn [negb Py.drop].
  change "H" with (String "H" EmptyString) at 1.
  rewrite contains_char_append, (split_once_append _ _ _ Hh).
  destruct (Py.int h) as [a|e]; cbn [Py.bind Py.try_except];
    [|now destruct (Py.int m), (Py.int sec)].
  change "M" with (String "M" EmptyString) at 1.
  rewrite contains_char_append, (split_once_append _ _ _ Hm).
  destruct (Py.int m) as [b|e]; cbn [Py.bind Py.try_except];
    [|now destruct (Py.int sec)].
  change "S" with (String "S" EmptyString) at 1.
  rewrite contains_char_append, (before_first_append _ _ _ Hs).
  destruct (Py.int sec) as [c|e]; cbn [Py.bind Py.try_except]; lia.
Qed.

(** C2.  The duration parser is a total function to the integers: it
    gives the six values of the specification; a string without the
    prefix [PT] gives 0; whenever the body of the parser raises, the
    result is 0 and not the sum read so far; on the full form
    [PT<h>H<m>M<s>S] it gives [h*3600 + m*60 + s] when the three
    numerals convert and 0 otherwise.  The copy of the learner is the
    same function. *)
Theorem parse_duration_total_and_lenient (s : string) :
  (parse_duration "PT5M30S" = 330 /\ parse_duration "PT1H30M" = 5400 /\
   parse_duration "PT45S" = 45 /\ parse_duration "PT2H" = 7200 /\
   parse_duration "invalid" = 0 /\ parse_duration "" = 0) /\
  UserPreferenceEngine._parse_duration s = parse_duration s /\
  (Py.startswith s "PT" = false -> parse_duration s = 0) /\
  (forall e, parse_duration_try s = Raise e -> parse_duration s = 0) /\
  (forall n, parse_duration_try s = Ok n -> parse_duration s = n) /\
  (forall h m sec rest,
      Py.char_in "H" h = false ->
      Py.char_in "M" m = false ->
      Py.char_in "S" sec = false ->
      s = "PT" +++ h +++ String "H" (m +++ String "M" (sec +++ String "S" rest)) ->
      parse_duration s =
      match Py.int h, Py.int m, Py.int sec with
      | Ok a, Ok b, Ok c => a * 3600 + b * 60 + c
      | _, _, _ => 0
      end).
Proof.
  split; [repeat split; reflexivity|].
  split; [reflexivity|].
  split.
  { intros H. unfold PersonalizedSearchEngine._parse_duration.
    now rewrite (parse_duration_no_prefix s H). }
  split.
  { intros e H. unfold PersonalizedSearchEngine._parse_duration. now rewrite H. }
  split.
  { intros n H. unfold PersonalizedSearchEngine._parse_duration. now rewrite H. }
  intros h m sec rest Hh Hm Hs ->. now apply parse_duration_components.
Qed.

(** The theorem at three strings: one without the prefix, one whose
    minutes do not convert after its hours did, and a full form. *)
Lemma parse_duration_total_and_lenient_witness :
  parse_duration "video" = 0 /\
  parse_duration "PT1HxM" = 0 /\
  parse_duration "PT1H2M3S trailing" = 3723.
Proof.
  split; [|split].
  - apply (parse_duration_total_and_lenient "video"). reflexivity.
  - apply (proj1 (proj2 (proj2 (proj2 (parse_duration_total_and_lenient "PT1HxM"))))
             (ValueError "invalid literal for int() with base 10")).
    reflexivity.
  - apply (proj2 (proj2 (proj2 (proj2 (proj2
             (parse_duration_total_and_lenient "PT1H2M3S trailing")))))
             "1" "2" "3" " trailing");
      reflexivity.
Defined.

End DurationParser.

(* ================================================================= *)
(** ** The filter pipeline *)

(** *** The five exclusion predicates, as the specification words them *)

Module FilterSpec.

Local Notation "a +++ b" := (String.append a b) (at level 60, right associativity).




Section Predicates.

Variable env : Env.
Variable preferences : Preferences.
Variable video : VideoRecord.








End Predicates.

End FilterSpec.

Section FilterPipeline.

Import FilterSpec.
Local Notation "a +++ b" := (String.append a b) (at level 60, right associativity).

Lemma mem_iff (x : string) (l : list string) : Py.mem x l = true <-> In x l.
Proof.
  unfold Py.mem. rewrite existsb_exists. split.
  - intros [y [Hy Hxy]]. apply String.eqb_eq in Hxy. now subst.
  - intros H. exists x. split; [exact H | apply String.eqb_refl].
Qed.

Lemma mem_false_iff (x : string) (l : list string) : Py.mem x l = false <-> ~ In x l.
Proof.
  rewrite <- mem_iff. destruct (Py.mem x l); split; congruence.
Qed.


Lemma truthy_iff (s : string) : Py.truthy s = true <-> s <> "".
Proof. destruct s; simpl; split; congruence. Qed.




(** The test of one turn of the loop, in one piece. *)
Definition passes (env : Env) (preferences : Preferences) (video : VideoRecord) : bool :=
  negb
    (Py.mem (get_default (channel video) "") (get_default (exclude_channels preferences) [])
     || ((PersonalizedSearchEngine._parse_duration (get_default (duration video) "PT0M0S")
          <? get_default (min_duration preferences) 0)
         || (get_default (max_duration preferences) 7200
             <? PersonalizedSearchEngine._parse_duration
                  (get_default (duration video) "PT0M0S")))
     || (get_default (view_count video) 0 <? get_default (min_views preferences) 0)
     || PersonalizedSearchEngine._is_video_too_old env
          (get_default (published_at video) "")
          (get_default (max_age_days preferences) 365)
     || existsb
          (fun keyword =>
             (Py.contains (Py.lower keyword) (Py.lower (get_default (title video) ""))
              || Py.contains (Py.lower keyword)
                   (Py.lower (get_default (description video) "")))%bool)
          (get_default (disliked_keywords preferences) []))%bool.


Lemma apply_preference_filters_is_filter (env : Env) (videos : list VideoRecord)
    (preferences : Preferences) :
  PersonalizedSearchEngine._apply_preference_filters env videos preferences
  = filter (passes env preferences) videos.
Proof.
  unfold PersonalizedSearchEngine._apply_preference_filters.
  match goal with |- fold_left ?f _ _ = _ => set (step := f) end.
  assert (G : forall acc,
             fold_left step videos acc = acc ++ filter (passes env preferences) videos).
  { induction videos as [|v videos IH]; intros acc.
    - simpl. now rewrite app_nil_r.
    - cbn [fold_left filter]. rewrite IH.
      assert (E : step acc v = if passes env preferences v then acc ++ [v] else acc).
      { unfold step, passes.
        destruct (Py.mem _ _); [reflexivity|].
        destruct (_ <? _); [reflexivity|].
        destruct (_ <? _); [reflexivity|].
        destruct (_ <? _); [reflexivity|].
        destruct (PersonalizedSearchEngine._is_video_too_old _ _ _); [reflexivity|].
        destruct (existsb _ _); reflexivity. }
      rewrite E. destruct (passes env preferences v); [|reflexivity].
      now rewrite <- app_assoc. }
  apply (G []).
Qed.


(** Preferences that exclude channels, bound the duration, the views and
    the age, and dislike keywords. *)
Definition filtering_preferences (excluded : list string) (lo hi views age : Z)
    (disliked : list string) : Preferences :=
  {| preferred_channels := Some [];
     preferred_categories := Some [];
     min_duration := Some lo;
     max_duration := Some hi;
     preferred_languages := Some ["en"];
     exclude_channels := Some excluded;
     min_views := Some views;
     max_age_days := Some age;
     preferred_keywords := Some [];
     disliked_keywords := Some disliked |}.

(** The filter on one video for each reason to exclude, between two
    videos that pass, the second without a date. *)
Lemma filter_example :
  let env := Example.env_with Example.two_videos in
  let preferences :=
    filtering_preferences ["Spam"] 60 3600 100 365 ["clickbait"] in
  let pass := Example.video "1" "Learning Rocq" "Alpha" in
  let undated := mkVideo (Some "7") (Some "No date") (Some "Alpha") None None
                   (Some "PT10M") (Some 500) None None in
  PersonalizedSearchEngine._apply_preference_filters env
    [pass;
     Example.video "2" "Learning Rocq" "Spam";
     mkVideo (Some "3") (Some "Short") (Some "Alpha") None None
       (Some "PT45S") (Some 500) None None;
     mkVideo (Some "4") (Some "Unseen") (Some "Alpha") None None
       (Some "PT10M") (Some 99) None None;
     mkVideo (Some "5") (Some "Old") (Some "Alpha") None (Some "2023-01-01T00:00:00Z")
       (Some "PT10M") (Some 500) None None;
     mkVideo (Some "6") (Some "Pure ClickBait") (Some "Alpha") None None
       (Some "PT10M") (Some 500) None None;
     undated]
    preferences
  = [pass; undated].
Proof. reflexivity. Qed.

End FilterPipeline.

(* ================================================================= *)
(** ** Ranking *)

(** Two scores are tied when neither is less than the other: for two
    doubles that are numbers, when they are equal. *)
Definition tied (F : FloatOps) (x y : float F) : bool :=
  (negb (fltb F x y) && negb (fltb F y x))%bool.

(** [x] does not come after [y] in a descending order. *)
Definition not_below (F : FloatOps) (x y : float F) : Prop := fltb F x y = false.

Section Ranking.

Variable F : FloatOps.

(** The comparison of doubles that are numbers is a strict weak order. *)
Hypothesis fltb_asymmetric :
  forall x y, fltb F x y = true -> fltb F y x = false.
Hypothesis fltb_negatively_transitive :
  forall x y z, fltb F x z = true -> fltb F x y = true \/ fltb F y z = true.

Variable A : Type.

Local Abbreviation insert := (@PersonalizedSearchEngine.insert_descending F A).
Local Abbreviation sort := (@PersonalizedSearchEngine.sort_descending F A).
Local Abbreviation keyed_not_below :=
  (fun a b : float F * A => not_below F (fst a) (fst b)).

Lemma insert_permutation (x : float F * A) (l : list (float F * A)) :
  Permutation (insert x l) (x :: l).
Proof.
  induction l as [|y l IH]; simpl; [reflexivity|].
  destruct (fltb F (fst x) (fst y)); [|reflexivity].
  rewrite IH. apply perm_swap.
Qed.

Lemma sort_permutation (l : list (float F * A)) : Permutation (sort l) l.
Proof.
  induction l as [|x l IH]; simpl; [reflexivity|].
  rewrite insert_permutation. now constructor.
Qed.

Lemma not_below_transitive (x y z : float F) :
  not_below F x y -> not_below F y z -> not_below F x z.
Proof.
  unfold not_below. intros Hxy Hyz.
  destruct (fltb F x z) eqn:Hxz; [|reflexivity].
  destruct (fltb_negatively_transitive _ y _ Hxz); congruence.
Qed.

Lemma insert_sorted (x : float F * A) (l : list (float F * A)) :
  StronglySorted keyed_not_below l -> StronglySorted keyed_not_below (insert x l).
Proof.
  induction 1 as [|y l Hl IH Hy]; simpl.
  - repeat constructor.
  - destruct (fltb F (fst x) (fst y)) eqn:Hxy.
    + constructor; [exact IH|].
      rewrite insert_permutation. constructor; [|exact Hy].
      now apply fltb_asymmetric.
    + constructor; [now constructor|].
      constructor; [exact Hxy|].
      eapply Forall_impl; [|exact Hy].
      intros z Hz. now apply (not_below_transitive _ (fst y)).
Qed.

Lemma sort_sorted (l : list (float F * A)) : StronglySorted keyed_not_below (sort l).
Proof.
  induction l as [|x l IH]; simpl; [constructor | now apply insert_sorted].
Qed.

(** Two keys tied with the same score are not ordered. *)
Lemma tied_not_less (s x y : float F) :
  tied F x s = true -> tied F y s = true -> fltb F x y = false.
Proof.
  unfold tied. intros Hx Hy.
  apply andb_true_iff in Hx as [Hx _]. apply andb_true_iff in Hy as [_ Hy].
  apply negb_true_iff in Hx, Hy.
  destruct (fltb F x y) eqn:Hxy; [|reflexivity].
  destruct (fltb_negatively_transitive _ s _ Hxy); congruence.
Qed.

(** Inserting [x] leaves it in front of the elements it is tied with. *)
Lemma insert_stable (s : float F) (x : float F * A) (l : list (float F * A)) :
  filter (fun p => tied F (fst p) s) (insert x l)
  = filter (fun p => tied F (fst p) s) (x :: l).
Proof.
  induction l as [|y l IH]; [reflexivity|].
  cbn [PersonalizedSearchEngine.insert_descending].
  destruct (fltb F (fst x) (fst y)) eqn:Hxy; [|reflexivity].
  cbn [filter] in *. rewrite IH.
  destruct (tied F (fst x) s) eqn:Hx, (tied F (fst y) s) eqn:Hy; try reflexivity.
  rewrite (tied_not_less s _ _ Hx Hy) in Hxy. discriminate.
Qed.

Lemma sort_stable (s : float F) (l : list (float F * A)) :
  filter (fun p => tied F (fst p) s) (sort l) = filter (fun p => tied F (fst p) s) l.
Proof.
  induction l as [|x l IH]; [reflexivity|].
  cbn [PersonalizedSearchEngine.sort_descending fold_right].
  rewrite insert_stable. cbn [filter].
  fold (sort l). now rewrite IH.
Qed.

(** A list of pairs of a key and a value whose keys are computed from
    the values by [key]. *)
Variable key : A -> float F.

Definition keyed (l : list (float F * A)) : Prop :=
  Forall (fun p => fst p = key (snd p)) l.

Lemma keyed_map (l : list A) : keyed (map (fun a => (key a, a)) l).
Proof. induction l; constructor; auto. Qed.

Lemma keyed_filter_values (P : float F -> bool) (l : list (float F * A)) :
  keyed l ->
  filter (fun a => P (key a)) (map snd l) = map snd (filter (fun p => P (fst p)) l).
Proof.
  induction 1 as [|p l Hp Hl IH]; [reflexivity|].
  cbn [map filter]. rewrite IH, <- Hp. now destruct (P (fst p)).
Qed.

Lemma keyed_sorted_values (l : list (float F * A)) :
  keyed l ->
  StronglySorted keyed_not_below l ->
  StronglySorted (fun a b => not_below F (key a) (key b)) (map snd l).
Proof.
  intros Hk Hs. induction Hs as [|p l Hl IH Hp]; [constructor|].
  inversion Hk as [|? ? Hkp Hkl]; subst.
  cbn [map]. constructor; [now apply IH|].
  apply Forall_map. rewrite Forall_forall in *.
  intros q Hq. rewrite <- Hkp, <- (Hkl q Hq). now apply Hp.
Qed.

End Ranking.

Lemma append_loop_is_map {A B : Type} (f : A -> B) (l : list A) (acc : list B) :
  fold_left (fun acc x => acc ++ [f x]) l acc = acc ++ map f l.
Proof.
  revert acc; induction l as [|x l IH]; intros acc; simpl.
  - now rewrite app_nil_r.
  - now rewrite IH, <- app_assoc.
Qed.

(** C8.  When the comparison of scores is a strict weak order (doubles
    that are numbers), ranking is a stable sort by descending score: the
    result is a rearrangement of the input in which no video is followed
    by one of greater score, and, for every score, the videos tied with it
    come in the result in the order they have in the input. *)
Theorem rank_is_a_stable_descending_sort (env : Env) (videos : list VideoRecord)
    (preferences : Preferences) (query : string)
    (fltb_asymmetric :
       forall x y, fltb (flops env) x y = true -> fltb (flops env) y x = false)
    (fltb_negatively_transitive :
       forall x y z, fltb (flops env) x z = true ->
                     fltb (flops env) x y = true \/ fltb (flops env) y z = true) :
  let score v :=
    PersonalizedSearchEngine._calculate_preference_score env v preferences query in
  let ranked :=
    PersonalizedSearchEngine._rank_by_preferences env videos preferences query in
  Permutation ranked videos /\
  StronglySorted (fun a b => not_below (flops env) (score a) (score b)) ranked /\
  forall s,
    filter (fun v => tied (flops env) (score v) s) ranked
    = filter (fun v => tied (flops env) (score v) s) videos.
Proof.
  intros score ranked. subst ranked.
  unfold PersonalizedSearchEngine._rank_by_preferences.
  rewrite (append_loop_is_map (fun v => (score v, v))). cbn [app].
  set (scored := map (fun v => (score v, v)) videos).
  assert (Hvalues : map snd scored = videos).
  { unfold scored. rewrite map_map. cbn. apply map_id. }
  assert (Hkeyed : keyed (flops env) _ score
                     (PersonalizedSearchEngine.sort_descending (flops env) scored)).
  { unfold keyed. rewrite sort_permutation. apply keyed_map. }
  split; [|split].
  - transitivity (map snd scored); [|now rewrite Hvalues].
    apply Permutation_map, sort_permutation.
  - apply keyed_sorted_values; [exact Hkeyed|].
    now apply sort_sorted.
  - intros s.
    rewrite (keyed_filter_values _ _ score (fun x => tied (flops env) x s) _ Hkeyed).
    rewrite sort_stable by assumption.
    rewrite <- (keyed_filter_values _ _ score (fun x => tied (flops env) x s))
      by apply keyed_map.
    fold scored. now rewrite Hvalues.
Qed.

Lemma Qltb_lt (x y : Q) : Example.Qltb x y = true <-> (x < y)%Q.
Proof.
  unfold Example.Qltb. rewrite negb_true_iff, <- not_true_iff_false, Qle_bool_iff.
  split; [apply Qnot_le_lt | apply Qlt_not_le].
Qed.

Lemma Qltb_asymmetric (x y : Q) : Example.Qltb x y = true -> Example.Qltb y x = false.
Proof.
  rewrite Qltb_lt. intros H. apply not_true_iff_false. rewrite Qltb_lt.
  apply Qle_not_lt, Qlt_le_weak, H.
Qed.

Lemma Qltb_negatively_transitive (x y z : Q) :
  Example.Qltb x z = true -> Example.Qltb x y = true \/ Example.Qltb y z = true.
Proof.
  rewrite !Qltb_lt. intros H.
  destruct (Qlt_le_dec x y) as [Hxy|Hyx]; [now left | right].
  now apply (Qle_lt_trans _ x).
Qed.

(** The theorem in the example environment, on three videos of which the
    last two have the same score and the first a lesser one. *)
Lemma rank_is_a_stable_descending_sort_witness :
  let env := Example.env_with Example.two_videos in
  let a := Example.video "a" "Cooking pasta" "Alpha" in
  let b := Example.video "b" "Learning Rocq" "Beta" in
  let c := Example.video "c" "Learning Rocq" "Gamma" in
  PersonalizedSearchEngine._rank_by_preferences env [a; b; c]
    initial_default_preferences "rocq" = [b; c; a] /\
  Permutation
    (PersonalizedSearchEngine._rank_by_preferences env [a; b; c]
       initial_default_preferences "rocq")
    [a; b; c].
Proof.
  split; [reflexivity|].
  apply (rank_is_a_stable_descending_sort
           (Example.env_with Example.two_videos)
           [Example.video "a" "Cooking pasta" "Alpha";
            Example.video "b" "Learning Rocq" "Beta";
            Example.video "c" "Learning Rocq" "Gamma"]
           initial_default_preferences "rocq"
           Qltb_asymmetric Qltb_negatively_transitive).
Defined.

(* ================================================================= *)
(** ** The two engines as state transformers *)

(** What [get_preferences] returns: the stored rows over the defaults,
    or the defaults alone when the database fails. *)
Definition effective_preferences (st : State) : Preferences :=
  match db_error st with
  | Some _ => default_preferences st
  | None => overlay (user_preferences st) (default_preferences st)
  end.

Lemma get_preferences_shared_eq (st : State) :
  UserPreferenceEngine.get_preferences_shared st =
  (Ok (effective_preferences st,
       match db_error st with
       | Some _ => fun _ => true
       | None => fun k => UserPreferenceEngine.is_none (get_list k (user_preferences st))
       end), st).
Proof.
  unfold UserPreferenceEngine.get_preferences_shared, effective_preferences,
    try_except, bind, UserPreferenceEngine.connect, gets, ret.
  now destruct (db_error st).
Qed.

Lemma get_preferences_eq (st : State) :
  UserPreferenceEngine.get_preferences st = (Ok (effective_preferences st), st).
Proof.
  unfold UserPreferenceEngine.get_preferences, bind.
  now rewrite get_preferences_shared_eq.
Qed.

(** What a handler that returns a value makes of any block. *)
Lemma try_except_returns {A : Type} (m : M A) (a : A) (st : State) :
  exists r, fst (try_except m (fun _ => ret a) st) = Ok r.
Proof.
  unfold try_except, ret. destruct (m st) as [[r|e] st']; cbn; eauto.
Qed.

Lemma try_except_unit (m : M unit) (st : State) :
  fst (try_except m (fun _ => ret tt) st) = Ok tt.
Proof.
  unfold try_except. destruct (m st) as [[[]|e] st']; reflexivity.
Qed.

(** *** [search] *)

Definition request_of (query : string) (max_results : Z) : string * Z * string :=
  (query, Z.min (max_results * 2) 50, "relevance").

(** Filter, rank, truncate. *)
Definition personalize (env : Env) (preferences : Preferences) (query : string)
    (max_results : Z) (raw_results : list VideoRecord) : list VideoRecord :=
  Py.slice_to
    (PersonalizedSearchEngine._rank_by_preferences env
       (PersonalizedSearchEngine._apply_preference_filters env raw_results preferences)
       preferences query)
    max_results.

(** The state [record_search] leaves: the entry is lost when the
    database fails. *)
Definition log_search (env : Env) (query : string) (results_count : Z) (st : State) : State :=
  match db_error st with
  | Some _ => st
  | None =>
      add_search
        {| s_query := query;
           s_results_count := results_count;
           s_clicked_video_id := None;
           s_created_at := now env |} st
  end.

Lemma record_search_eq (env : Env) (query : string) (n : Z) (st : State) :
  UserPreferenceEngine.record_search env query n st = (Ok tt, log_search env query n st).
Proof.
  unfold UserPreferenceEngine.record_search, log_search, try_except, bind,
    UserPreferenceEngine.connect, modify, ret.
  now destruct (db_error st).
Qed.

Lemma search_eq (env : Env) (query : string) (max_results : Z) (st : State) :
  PersonalizedSearchEngine.search env query max_results st =
  match search_videos env query (Z.min (max_results * 2) 50) "relevance" with
  | Ok raw_results =>
      let results :=
        personalize env (effective_preferences st) query max_results raw_results in
      (Ok results,
       log_search env query (Z.of_nat (List.length results))
         (add_request (request_of query max_results) st))
  | Raise e => (Raise e, add_request (request_of query max_results) st)
  end.
Proof.
  unfold PersonalizedSearchEngine.search, PersonalizedSearchEngine.call_search_videos.
  unfold try_except at 1. unfold bind at 1. unfold bind at 1.
  unfold modify, lift, raise.
  destruct (search_videos env query (Z.min (max_results * 2) 50) "relevance")
    as [raw|e]; [|reflexivity].
  unfold bind at 1. rewrite get_preferences_eq.
  unfold bind at 1. rewrite record_search_eq.
  reflexivity.
Qed.

(** [search] changes neither the preferences nor the health of the
    database. *)
Definition same_store (st st' : State) : Prop :=
  default_preferences st' = default_preferences st /\
  user_preferences st' = user_preferences st /\
  db_error st' = db_error st.

Lemma same_store_effective (st st' : State) :
  same_store st st' -> effective_preferences st' = effective_preferences st.
Proof.
  intros (Hd & Hu & He). unfold effective_preferences. now rewrite Hd, Hu, He.
Qed.

Lemma search_same_store (env : Env) (query : string) (max_results : Z) (st : State) :
  same_store st (snd (PersonalizedSearchEngine.search env query max_results st)).
Proof.
  rewrite search_eq.
  destruct (search_videos env query _ _) as [raw|e]; cbn [snd].
  - unfold log_search. cbn [db_error add_request].
    destruct (db_error st); repeat split.
  - repeat split.
Qed.

(* ================================================================= *)
(** ** Failures of the collaborators *)

Lemma record_interaction_failing_store (env : Env) (video : VideoRecord)
    (action : string) (query : option string) (st : State) (e : Exception) :
  db_error st = Some e ->
  UserPreferenceEngine.record_interaction env video action query st = (Ok tt, st).
Proof.
  intros H.
  unfold UserPreferenceEngine.record_interaction, try_except, bind,
    UserPreferenceEngine.connect, ret.
  now rewrite H.
Qed.

(** C3, the claim as stated fails: with a database that raises on every
    call, a learn call returns normally and leaves the state as it was;
    the exception does not reach the caller. *)
Lemma learn_swallows_the_failure_of_the_store :
  let st := set_db_error (Some Example.locked) initial_state in
  db_error st = Some Example.locked /\
  UserPreferenceEngine.record_interaction (Example.env_with Example.two_videos)
    (Example.video "a1" "Learning Rocq" "Alpha") "liked" None st
  = (Ok tt, st).
Proof. split; reflexivity. Qed.

(** C3, as amended.  An exception of the video source goes through
    [search] unchanged.  A failure of the store never reaches the caller:
    inside [search] the preferences fall back to the defaults and the
    entry of the search log is dropped; [record_interaction] and the
    learner end normally whatever happens, and with a failing database
    [record_interaction] changes nothing. *)
Theorem collaborator_failures (env : Env) (query : string) (max_results : Z)
    (video : VideoRecord) (action : string) (interaction_query : option string)
    (st : State) :
  (forall e,
      search_videos env query (Z.min (max_results * 2) 50) "relevance" = Raise e ->
      fst (PersonalizedSearchEngine.search env query max_results st) = Raise e) /\
  (forall e raw_results,
      db_error st = Some e ->
      search_videos env query (Z.min (max_results * 2) 50) "relevance" = Ok raw_results ->
      fst (PersonalizedSearchEngine.search env query max_results st)
      = Ok (personalize env (default_preferences st) query max_results raw_results) /\
      search_history (snd (PersonalizedSearchEngine.search env query max_results st))
      = search_history st) /\
  fst (UserPreferenceEngine.record_interaction env video action interaction_query st)
  = Ok tt /\
  fst (UserPreferenceEngine._learn_from_interaction video action st) = Ok tt /\
  (forall e,
      db_error st = Some e ->
      snd (UserPreferenceEngine.record_interaction env video action interaction_query st)
      = st).
Proof.
  split; [|split; [|split; [|split]]].
  - intros e H. now rewrite search_eq, H.
  - intros e raw He H. rewrite search_eq, H. cbn [fst snd].
    unfold effective_preferences, log_search. cbn [db_error add_request].
    now rewrite He.
  - apply try_except_unit.
  - apply try_except_unit.
  - intros e H. now rewrite (record_interaction_failing_store _ _ _ _ _ e H).
Qed.

(** The theorem on a source that fails and on a database that fails. *)
Lemma collaborator_failures_witness :
  fst (PersonalizedSearchEngine.search (Example.env_with Example.fails_on_popular)
         "popular videos" 5 initial_state)
  = Raise (ApiError "quota exceeded") /\
  snd (UserPreferenceEngine.record_interaction (Example.env_with Example.two_videos)
         (Example.video "a1" "Learning Rocq" "Alpha") "liked" None
         (set_db_error (Some Example.locked) initial_state))
  = set_db_error (Some Example.locked) initial_state.
Proof.
  split.
  - apply (proj1 (collaborator_failures (Example.env_with Example.fails_on_popular)
                    "popular videos" 5 (Example.video "a1" "Learning Rocq" "Alpha")
                    "liked" None initial_state)).
    reflexivity.
  - apply (proj2 (proj2 (proj2 (proj2
             (collaborator_failures (Example.env_with Example.two_videos)
                "popular videos" 5 (Example.video "a1" "Learning Rocq" "Alpha")
                "liked" None (set_db_error (Some Example.locked) initial_state)))))
             Example.locked).
    reflexivity.
Defined.

(* ================================================================= *)
(** ** The operations built on [search] *)

(** What one query adds to an aggregate that skips the queries that
    fail. *)
Definition contribution (env : Env) (preferences : Preferences) (per_query : Z)
    (query : string) : list VideoRecord :=
  match search_videos env query (Z.min (per_query * 2) 50) "relevance" with
  | Ok raw_results => personalize env preferences query per_query raw_results
  | Raise _ => []
  end.

(** The queries of the recommendations: the first ten preferred keywords,
    then the first five preferred channels as channel queries; four fixed
    topics when there is neither. *)
Definition recommendation_queries (preferences : Preferences) : list string :=
  let queries :=
    firstn 10 (get_default (preferred_keywords preferences) [])
    ++ map (String.append "channel:")
         (firstn 5 (get_default (preferred_channels preferences) [])) in
  match queries with
  | [] => ["educational"; "entertainment"; "technology"; "music"]
  | _ :: _ => queries
  end.

Lemma recommendations_loop (env : Env) (per_query : Z) (queries : list string) :
  forall (acc : list VideoRecord) (st : State),
  exists st',
    for_each queries acc
      (fun all_results query =>
         try_except
           (results <- PersonalizedSearchEngine.search env query per_query ;;
            ret (all_results ++ results))
           (fun _ => ret all_results)) st
    = (Ok (acc ++ flat_map (contribution env (effective_preferences st) per_query) queries),
       st')
    /\ same_store st st'.
Proof.
  induction queries as [|q queries IH]; intros acc st.
  - exists st. cbn. rewrite app_nil_r. repeat split.
  - cbn [for_each flat_map]. unfold bind at 1, try_except at 1, bind at 1.
    pose proof (search_same_store env q per_query st) as Hsame.
    rewrite search_eq in *. unfold contribution at 1.
    destruct (search_videos env q _ _) as [raw|e]; cbn [snd] in Hsame; cbn zeta.
    + unfold ret at 1.
      match goal with |- context [for_each queries ?a _ ?s] =>
        destruct (IH a s) as (st' & -> & Hsame') end.
      exists st'. rewrite (same_store_effective _ _ Hsame), <- app_assoc.
      split; [reflexivity|].
      destruct Hsame as (? & ? & ?), Hsame' as (? & ? & ?).
      repeat split; congruence.
    + unfold ret at 1.
      match goal with |- context [for_each queries ?a _ ?s] =>
        destruct (IH a s) as (st' & -> & Hsame') end.
      exists st'. rewrite (same_store_effective _ _ Hsame).
      split; [reflexivity|].
      destruct Hsame as (? & ? & ?), Hsame' as (? & ? & ?).
      repeat split; congruence.
Qed.

Lemma no_contribution (env : Env) (preferences : Preferences) (per_query : Z)
    (queries : list string) :
  (forall q, In q queries ->
     exists e, search_videos env q (Z.min (per_query * 2) 50) "relevance" = Raise e) ->
  flat_map (contribution env preferences per_query) queries = [].
Proof.
  induction queries as [|q queries IH]; intros Hall; [reflexivity|].
  cbn [flat_map]. rewrite IH by (intros; apply Hall; now right).
  destruct (Hall q (or_introl eq_refl)) as [e He].
  unfold contribution. now rewrite He.
Qed.

Lemma slice_to_nil {A : Type} (n : Z) : Py.slice_to (@nil A) n = [].
Proof. unfold Py.slice_to. destruct (n <? 0); apply firstn_nil. Qed.

Lemma get_recommendations_eq (env : Env) (max_results : Z) (st : State) :
  let preferences := effective_preferences st in
  let queries := recommendation_queries preferences in
  let per_query := Z.max 1 (max_results / Z.of_nat (List.length queries)) in
  fst (PersonalizedSearchEngine.get_recommendations env max_results st)
  = Ok (Py.slice_to
          (PersonalizedSearchEngine.remove_duplicates
             (flat_map (contribution env preferences per_query) queries))
          max_results).
Proof.
  intros preferences queries per_query.
  unfold PersonalizedSearchEngine.get_recommendations.
  unfold try_except at 1, bind at 1. rewrite get_preferences_eq.
  fold preferences. cbn [app].
  match goal with |- context [for_each ?qs [] _] => change qs with queries end.
  fold per_query. unfold bind at 1.
  destruct (recommendations_loop env per_query queries [] st) as (st' & -> & _).
  reflexivity.
Qed.

(** The loop of [get_trending_personalized] stops at the first query on
    which the source raises. *)
Lemma trending_loop_raises (env : Env) (per_query : Z) (q : string) (e : Exception)
    (queries : list string) :
  In q queries ->
  search_videos env q (Z.min (per_query * 2) 50) "relevance" = Raise e ->
  forall (acc : list VideoRecord) (st : State),
  exists e' st',
    for_each queries acc
      (fun all_results query =>
         results <- PersonalizedSearchEngine.search env query per_query ;;
         ret (all_results ++ results)) st
    = (Raise e', st').
Proof.
  intros Hin Hq. induction queries as [|x queries IH]; intros acc st; [easy|].
  cbn [for_each]. unfold bind at 1, bind at 1. rewrite search_eq.
  destruct (search_videos env x _ _) as [raw|e'] eqn:Hx; [|eauto].
  cbn zeta. unfold ret at 1.
  destruct Hin as [->|Hin]; [congruence|].
  apply (IH Hin).
Qed.

Lemma trending_count :
  Z.of_nat (List.length PersonalizedSearchEngine.trending_queries) = 4.
Proof. reflexivity. Qed.

(** The trending operation does not survive a failing query: as soon as
    the source fails on one of its four queries it returns the empty
    list. *)
Lemma trending_stops_at_a_failing_query (env : Env) (max_results : Z) (st : State)
    (q : string) (e : Exception) :
  In q PersonalizedSearchEngine.trending_queries ->
  search_videos env q (Z.min (max_results / 4 * 2) 50) "relevance" = Raise e ->
  fst (PersonalizedSearchEngine.get_trending_personalized env max_results st) = Ok [].
Proof.
  intros Hin Hq.
  unfold PersonalizedSearchEngine.get_trending_personalized.
  rewrite trending_count.
  unfold try_except, bind at 1.
  destruct (trending_loop_raises env (max_results / 4) q e _ Hin Hq [] st)
    as (e' & st' & ->).
  reflexivity.
Qed.

(** C4.  The claim asks both aggregates to go on after a query that
    fails.  The recommendations do; the trending operation does not: here
    the source fails on the second of the four trending queries only,
    each of the other three searches gives a video, and the trending
    operation returns the empty list instead of these three videos. *)
Lemma trending_gives_up_at_the_first_failing_query :
  let env := Example.env_with Example.fails_on_popular in
  fst (PersonalizedSearchEngine.search env "trending today" (8 / 4) initial_state)
  = Ok [Example.video "trending today" "Some title" "Alpha"] /\
  fst (PersonalizedSearchEngine.search env "popular videos" (8 / 4) initial_state)
  = Raise (ApiError "quota exceeded") /\
  fst (PersonalizedSearchEngine.search env "viral videos" (8 / 4) initial_state)
  = Ok [Example.video "viral videos" "Some title" "Alpha"] /\
  fst (PersonalizedSearchEngine.search env "latest trending" (8 / 4) initial_state)
  = Ok [Example.video "latest trending" "Some title" "Alpha"] /\
  fst (PersonalizedSearchEngine.get_trending_personalized env 8 initial_state) = Ok [].
Proof. repeat split; reflexivity. Qed.

(** The part of the behaviour the two aggregates share with the
    specification.  The recommendations skip the queries on which the
    source fails and go on with the others: their result is the merge,
    without duplicates and truncated, of what the queries that succeed
    give.  Neither the recommendations nor the trending operation raises:
    each returns a list, and the empty list when every one of its queries
    fails. *)
Theorem aggregates_and_failing_queries (env : Env) (max_results : Z) (st : State) :
  let preferences := effective_preferences st in
  let queries := recommendation_queries preferences in
  let per_query := Z.max 1 (max_results / Z.of_nat (List.length queries)) in
  fst (PersonalizedSearchEngine.get_recommendations env max_results st)
  = Ok (Py.slice_to
          (PersonalizedSearchEngine.remove_duplicates
             (flat_map (contribution env preferences per_query) queries))
          max_results) /\
  ((forall q, In q queries ->
      exists e, search_videos env q (Z.min (per_query * 2) 50) "relevance" = Raise e) ->
   fst (PersonalizedSearchEngine.get_recommendations env max_results st) = Ok []) /\
  (exists results,
      fst (PersonalizedSearchEngine.get_trending_personalized env max_results st)
      = Ok results) /\
  ((forall q, In q PersonalizedSearchEngine.trending_queries ->
      exists e,
        search_videos env q (Z.min (max_results / 4 * 2) 50) "relevance" = Raise e) ->
   fst (PersonalizedSearchEngine.get_trending_personalized env max_results st) = Ok []).
Proof.
  intros preferences queries per_query.
  split; [apply get_recommendations_eq|].
  split; [|split].
  - intros Hall. rewrite get_recommendations_eq.
    fold preferences queries per_query.
    rewrite (no_contribution _ _ _ _ Hall).
    change (PersonalizedSearchEngine.remove_duplicates []) with (@nil VideoRecord).
    now rewrite (slice_to_nil max_results).
  - apply try_except_returns.
  - intros Hall.
    destruct (Hall "trending today") as [e He]; [now left|].
    apply (trending_stops_at_a_failing_query env max_results st "trending today" e);
      [now left | exact He].
Qed.

(** On a source that fails on every query. *)
Lemma aggregates_on_a_source_that_always_fails :
  fst (PersonalizedSearchEngine.get_recommendations
         (Example.env_with Example.always_fails) 8 initial_state) = Ok [] /\
  fst (PersonalizedSearchEngine.get_trending_personalized
         (Example.env_with Example.always_fails) 8 initial_state) = Ok [].
Proof.
  split.
  - apply (proj1 (proj2 (aggregates_and_failing_queries
                           (Example.env_with Example.always_fails) 8 initial_state))).
    intros q _. eexists. reflexivity.
  - apply (proj2 (proj2 (proj2 (aggregates_and_failing_queries
                                  (Example.env_with Example.always_fails) 8
                                  initial_state)))).
    intros q _. eexists. reflexivity.
Defined.

(** *** Trending with fewer than four results asked for *)



Lemma requests_log_search (env : Env) (query : string) (n : Z) (st : State) :
  requests (log_search env query n st) = requests st.
Proof. unfold log_search. now destruct (db_error st). Qed.





(* ================================================================= *)
(** ** The preference learner *)

(** *** The preference set of the specification

    A mapping in which every recognised key is present. *)
Record PreferenceSet : Type := mkPreferenceSet {
  channels_of : list string;
  categories_of : list string;
  min_duration_of : Z;
  max_duration_of : Z;
  languages_of : list string;
  excluded_of : list string;
  min_views_of : Z;
  max_age_days_of : Z;
  keywords_of : list string;
  disliked_of : list string
}.

Definition to_dict (s : PreferenceSet) : Preferences :=
  {| preferred_channels := Some (channels_of s);
     preferred_categories := Some (categories_of s);
     min_duration := Some (min_duration_of s);
     max_duration := Some (max_duration_of s);
     preferred_languages := Some (languages_of s);
     exclude_channels := Some (excluded_of s);
     min_views := Some (min_views_of s);
     max_age_days := Some (max_age_days_of s);
     preferred_keywords := Some (keywords_of s);
     disliked_keywords := Some (disliked_of s) |}.

Definition defaults : PreferenceSet :=
  mkPreferenceSet [] [] 0 7200 ["en"] [] 0 365 [] [].

(** *** What one learn call makes of each preference *)

Module Learner.

Definition channels_after (channel action : string) (l : list string) : list string :=
  if (Py.truthy channel && Py.mem action ["clicked"; "liked"; "watched"])%bool then
    if negb (Py.mem channel l) then
      let l' := l ++ [channel] in
      if 50 <? Z.of_nat (List.length l') then Py.last_n 50 l' else l'
    else l
  else l.

Definition categories_after (category action : string) (l : list string) : list string :=
  if (Py.truthy category && Py.mem action ["clicked"; "liked"])%bool then
    if negb (Py.mem category l) then l ++ [category] else l
  else l.

Definition min_duration_after (duration : Z) (action : string) (current_min : Z) : Z :=
  if ((0 <? duration) && Py.mem action ["watched"; "liked"])%bool then
    if duration <? current_min then Z.max 0 (current_min - 60) else current_min
  else current_min.

Definition max_duration_after (duration : Z) (action : string) (current_max : Z) : Z :=
  if ((0 <? duration) && Py.mem action ["watched"; "liked"])%bool then
    if current_max <? duration then Z.min 14400 (current_max + 300) else current_max
  else current_max.

(** The words the learner reads in a title already in lower case. *)
Definition title_words (title : string) : list string :=
  map (Py.strip ".,!?()[]") (filter (fun word => 3 <? Py.len word) (Py.split title)).

Definition keywords_loop (words l : list string) : list string :=
  fold_left
    (fun l word =>
       if Py.mem word UserPreferenceEngine.common_words then l
       else if (negb (Py.mem word l) && (Z.of_nat (List.length l) <? 100))%bool
            then l ++ [word]
            else l)
    words l.

Definition keywords_after (title action : string) (l : list string) : list string :=
  if (Py.truthy title && Py.mem action ["clicked"; "liked"])%bool
  then keywords_loop (title_words title) l
  else l.

Definition learned (video : VideoRecord) (action : string) (s : PreferenceSet)
  : PreferenceSet :=
  let duration :=
    UserPreferenceEngine._parse_duration (get_default (duration video) "PT0M0S") in
  {| channels_of := channels_after (get_default (channel video) "") action (channels_of s);
     categories_of :=
       categories_after (get_default (category_id video) "") action (categories_of s);
     min_duration_of := min_duration_after duration action (min_duration_of s);
     max_duration_of := max_duration_after duration action (max_duration_of s);
     languages_of := languages_of s;
     excluded_of := excluded_of s;
     min_views_of := min_views_of s;
     max_age_days_of := max_age_days_of s;
     keywords_of :=
       keywords_after (Py.lower (get_default (title video) "")) action (keywords_of s);
     disliked_of := disliked_of s |}.

End Learner.

(** *** The learner as a state transformer *)

(** Case analysis on every test of the goal. *)
Ltac case_ifs :=
  repeat match goal with |- context [if ?b then _ else _] => destruct b end.

(** The list object of the preferred channels after the learner appended
    to it, before the truncation (which binds a new list). *)
Definition channels_object (channel action : string) (l : list string) : list string :=
  if (Py.truthy channel && Py.mem action ["clicked"; "liked"; "watched"])%bool then
    if negb (Py.mem channel l) then l ++ [channel] else l
  else l.

(** What the appends in place leave in the default preferences: the list
    [l] under the key [k] when the list object is shared. *)
Definition written_through (shared : ListKey -> bool) (k : ListKey) (l : list string)
    (d : Preferences) : Preferences :=
  if shared k then set_list k l d else d.

Definition with_defaults (f : Preferences -> Preferences) (st : State) : State :=
  set_default_preferences (f (default_preferences st)) st.

Lemma set_list_same (k : ListKey) (l : list string) (p : Preferences) :
  get_list k p = Some l -> set_list k l p = p.
Proof. destruct p, k; cbn; now intros ->. Qed.

Lemma get_set_list (k : ListKey) (l : list string) (p : Preferences) :
  get_list k (set_list k l p) = Some l.
Proof. now destruct k. Qed.

Lemma with_defaults_same (f : Preferences -> Preferences) (st : State) :
  f (default_preferences st) = default_preferences st -> with_defaults f st = st.
Proof. unfold with_defaults. intros ->. now destruct st. Qed.

Lemma written_through_same (shared : ListKey -> bool) (k : ListKey) (l : list string)
    (d : Preferences) :
  (shared k = true -> get_list k d = Some l) -> written_through shared k l d = d.
Proof.
  unfold written_through. destruct (shared k); [|reflexivity].
  intros H. now apply set_list_same, H.
Qed.

Lemma written_through_twice (shared : ListKey -> bool) (k : ListKey)
    (l1 l2 : list string) (d : Preferences) :
  written_through shared k l2 (written_through shared k l1 d)
  = written_through shared k l2 d.
Proof. unfold written_through. destruct (shared k); [now destruct k | reflexivity]. Qed.

Lemma get_list_written_through (shared : ListKey -> bool) (k k' : ListKey)
    (l : list string) (d : Preferences) :
  k <> k' -> get_list k' (written_through shared k l d) = get_list k' d.
Proof.
  intros H. unfold written_through. destruct (shared k); [|reflexivity].
  destruct k, k'; try reflexivity; now elim H.
Qed.

(** [append] on a mapping that has the key. *)
Lemma append_eq (shared : ListKey -> bool) (k : ListKey) (x : string)
    (p : Preferences) (l : list string) (st : State) :
  get_list k p = Some l ->
  UserPreferenceEngine.append shared k x p st
  = (Ok (set_list k (l ++ [x]) p), with_defaults (written_through shared k (l ++ [x])) st).
Proof.
  intros H.
  unfold UserPreferenceEngine.append, UserPreferenceEngine.getitem, bind, ret, modify,
    with_defaults, written_through.
  rewrite H. destruct (shared k); [reflexivity|]. now destruct st.
Qed.

(** The loop over the words of the title. *)
Lemma keywords_loop_eq (shared : ListKey -> bool) (words : list string) :
  forall (p : Preferences) (l : list string) (st : State),
  preferred_keywords p = Some l ->
  (shared K_preferred_keywords = true ->
   preferred_keywords (default_preferences st) = Some l) ->
  for_each words p
    (fun preferences word =>
       if Py.mem word UserPreferenceEngine.common_words then ret preferences
       else
         l <- UserPreferenceEngine.getitem K_preferred_keywords preferences ;;
         if (negb (Py.mem word l) && (Z.of_nat (List.length l) <? 100))%bool
         then UserPreferenceEngine.append shared K_preferred_keywords word preferences
         else ret preferences) st
  = (Ok (set_preferred_keywords (Learner.keywords_loop words l) p),
     with_defaults
       (written_through shared K_preferred_keywords (Learner.keywords_loop words l)) st).
Proof.
  induction words as [|w words IH]; intros p l st Hp Hd.
  - cbn [for_each]. unfold ret.
    change (Learner.keywords_loop [] l) with l.
    change (set_preferred_keywords l p) with (set_list K_preferred_keywords l p).
    rewrite (set_list_same K_preferred_keywords l p Hp).
    rewrite with_defaults_same; [reflexivity|].
    now apply written_through_same.
  - cbn [for_each]. unfold Learner.keywords_loop. cbn [fold_left].
    fold (Learner.keywords_loop words).
    unfold bind at 1.
    destruct (Py.mem w UserPreferenceEngine.common_words).
    + unfold ret at 1. apply (IH p l st Hp Hd).
    + unfold bind at 1, UserPreferenceEngine.getitem at 1.
      cbn [get_list]. rewrite Hp. unfold ret at 1.
      destruct (negb (Py.mem w l) && (Z.of_nat (List.length l) <? 100))%bool.
      * rewrite (append_eq shared K_preferred_keywords w p l st Hp).
        rewrite (IH (set_list K_preferred_keywords (l ++ [w]) p) (l ++ [w]) _ eq_refl).
        -- unfold with_defaults.
           cbn [default_preferences set_default_preferences].
           now rewrite written_through_twice.
        -- intros Hs. unfold with_defaults, written_through.
           cbn [default_preferences set_default_preferences]. now rewrite Hs.
      * unfold ret at 1. apply (IH p l st Hp Hd).
Qed.

Lemma channels_part_eq (shared : ListKey -> bool) (channel action : string)
    (p : Preferences) (l : list string) (st : State) :
  preferred_channels p = Some l ->
  (shared K_preferred_channels = true ->
   preferred_channels (default_preferences st) = Some l) ->
  (if (Py.truthy channel && Py.mem action ["clicked"; "liked"; "watched"])%bool then
     l <- UserPreferenceEngine.getitem K_preferred_channels p ;;
     if negb (Py.mem channel l) then
       preferences <- UserPreferenceEngine.append shared K_preferred_channels channel p ;;
       l <- UserPreferenceEngine.getitem K_preferred_channels preferences ;;
       if 50 <? Z.of_nat (List.length l)
       then ret (set_preferred_channels (Py.last_n 50 l) preferences)
       else ret preferences
     else ret p
   else ret p) st
  = (Ok (set_preferred_channels (Learner.channels_after channel action l) p),
     with_defaults
       (written_through shared K_preferred_channels (channels_object channel action l)) st).
Proof.
  intros Hp Hd. unfold Learner.channels_after, channels_object.
  assert (Hsame : set_preferred_channels l p = p)
    by apply (set_list_same K_preferred_channels l p Hp).
  assert (Hst : with_defaults (written_through shared K_preferred_channels l) st = st)
    by now apply with_defaults_same, written_through_same.
  destruct (Py.truthy channel && Py.mem action ["clicked"; "liked"; "watched"])%bool.
  - unfold bind at 1, UserPreferenceEngine.getitem at 1. cbn [get_list].
    rewrite Hp. unfold ret at 1.
    destruct (negb (Py.mem channel l)).
    + unfold bind at 1.
      rewrite (append_eq shared K_preferred_channels channel p l st Hp).
      unfold bind, UserPreferenceEngine.getitem.
      rewrite get_set_list. unfold ret at 1. cbn zeta.
      now destruct (50 <? Z.of_nat (List.length (l ++ [channel]))).
    + unfold ret. now rewrite Hsame, Hst.
  - unfold ret. now rewrite Hsame, Hst.
Qed.

Lemma categories_part_eq (shared : ListKey -> bool) (category action : string)
    (p : Preferences) (l : list string) (st : State) :
  preferred_categories p = Some l ->
  (shared K_preferred_categories = true ->
   preferred_categories (default_preferences st) = Some l) ->
  (if (Py.truthy category && Py.mem action ["clicked"; "liked"])%bool then
     l <- UserPreferenceEngine.getitem K_preferred_categories p ;;
     if negb (Py.mem category l)
     then UserPreferenceEngine.append shared K_preferred_categories category p
     else ret p
   else ret p) st
  = (Ok (set_preferred_categories (Learner.categories_after category action l) p),
     with_defaults
       (written_through shared K_preferred_categories
          (Learner.categories_after category action l)) st).
Proof.
  intros Hp Hd. unfold Learner.categories_after.
  assert (Hsame : set_preferred_categories l p = p)
    by apply (set_list_same K_preferred_categories l p Hp).
  assert (Hst : with_defaults (written_through shared K_preferred_categories l) st = st)
    by now apply with_defaults_same, written_through_same.
  destruct (Py.truthy category && Py.mem action ["clicked"; "liked"])%bool.
  - unfold bind at 1, UserPreferenceEngine.getitem at 1. cbn [get_list].
    rewrite Hp. unfold ret at 1.
    destruct (negb (Py.mem category l)).
    + apply (append_eq shared K_preferred_categories category p l st Hp).
    + unfold ret. now rewrite Hsame, Hst.
  - unfold ret. now rewrite Hsame, Hst.
Qed.

Lemma keywords_part_eq (shared : ListKey -> bool) (title action : string)
    (p : Preferences) (l : list string) (st : State) :
  preferred_keywords p = Some l ->
  (shared K_preferred_keywords = true ->
   preferred_keywords (default_preferences st) = Some l) ->
  (if (Py.truthy title && Py.mem action ["clicked"; "liked"])%bool then
     for_each
       (map (Py.strip ".,!?()[]")
          (filter (fun word => 3 <? Py.len word) (Py.split title)))
       p
       (fun preferences word =>
          if Py.mem word UserPreferenceEngine.common_words then ret preferences
          else
            l <- UserPreferenceEngine.getitem K_preferred_keywords preferences ;;
            if (negb (Py.mem word l) && (Z.of_nat (List.length l) <? 100))%bool
            then UserPreferenceEngine.append shared K_preferred_keywords word preferences
            else ret preferences)
   else ret p) st
  = (Ok (set_preferred_keywords (Learner.keywords_after title action l) p),
     with_defaults
       (written_through shared K_preferred_keywords
          (Learner.keywords_after title action l)) st).
Proof.
  intros Hp Hd. unfold Learner.keywords_after.
  destruct (Py.truthy title && Py.mem action ["clicked"; "liked"])%bool.
  - apply (keywords_loop_eq shared _ p l st Hp Hd).
  - unfold ret.
    change (set_preferred_keywords l p) with (set_list K_preferred_keywords l p).
    rewrite (set_list_same K_preferred_keywords l p Hp).
    rewrite with_defaults_same; [reflexivity|].
    now apply written_through_same.
Qed.

Lemma update_preferences_eq (p : Preferences) (st : State) :
  db_error st = None ->
  UserPreferenceEngine.update_preferences p st
  = (Ok tt, set_user_preferences (overlay p (user_preferences st)) st).
Proof.
  intros H.
  unfold UserPreferenceEngine.update_preferences, try_except, bind,
    UserPreferenceEngine.connect, modify.
  now rewrite H.
Qed.

(** The lists of the default preferences after a learn call on a
    database that works: the lists without a stored row have received the
    appends. *)
Definition defaults_after (video : VideoRecord) (action : string) (s : PreferenceSet)
    (rows d : Preferences) : Preferences :=
  let shared := fun k => UserPreferenceEngine.is_none (get_list k rows) in
  written_through shared K_preferred_keywords
    (Learner.keywords_after (Py.lower (get_default (title video) "")) action
       (keywords_of s))
    (written_through shared K_preferred_categories
       (Learner.categories_after (get_default (category_id video) "") action
          (categories_of s))
       (written_through shared K_preferred_channels
          (channels_object (get_default (channel video) "") action (channels_of s))
          d)).

Lemma shared_list_is_default (k : ListKey) (rows d : Preferences) :
  UserPreferenceEngine.is_none (get_list k rows) = true ->
  get_list k (overlay rows d) = get_list k d.
Proof. destruct k; cbn; now destruct (_ rows). Qed.

(** The learner on a working database whose preferences have every key:
    the rows written are the learned preference set. *)
Lemma learn_from_interaction_eq (video : VideoRecord) (action : string)
    (s : PreferenceSet) (st : State) :
  db_error st = None ->
  effective_preferences st = to_dict s ->
  UserPreferenceEngine._learn_from_interaction video action st
  = (Ok tt,
     set_user_preferences (to_dict (Learner.learned video action s))
       (with_defaults
          (defaults_after video action s (user_preferences st)) st)).
Proof.
  intros Hdb Heff.
  assert (Hover : overlay (user_preferences st) (default_preferences st) = to_dict s).
  { unfold effective_preferences in Heff. now rewrite Hdb in Heff. }
  unfold UserPreferenceEngine._learn_from_interaction.
  unfold try_except at 1. unfold bind at 1.
  rewrite get_preferences_shared_eq, Heff, Hdb.
  unfold defaults_after.
  set (shared := fun k => UserPreferenceEngine.is_none (get_list k (user_preferences st))).
  assert (Hshared : forall k, shared k = true ->
            get_list k (default_preferences st) = get_list k (to_dict s)).
  { intros k Hk. rewrite <- Hover. symmetry. now apply shared_list_is_default. }
  unfold bind at 1.
  rewrite (channels_part_eq shared (get_default (channel video) "") action
             (to_dict s) (channels_of s) st eq_refl (Hshared K_preferred_channels)).
  unfold bind at 1.
  match goal with |- context [set_preferred_channels ?l (to_dict s)] =>
    set (p1 := set_preferred_channels l (to_dict s)) end.
  match goal with |- context [with_defaults ?f st] => set (st1 := with_defaults f st) end.
  rewrite (categories_part_eq shared (get_default (category_id video) "") action
             p1 (categories_of s) st1 eq_refl).
  2:{ intros Hk. unfold st1, with_defaults.
      cbn [default_preferences set_default_preferences].
      change (preferred_categories ?x) with (get_list K_preferred_categories x).
      rewrite get_list_written_through by discriminate.
      apply (Hshared K_preferred_categories Hk). }
  match goal with |- context [set_preferred_categories ?l p1] =>
    set (p2 := set_preferred_categories l p1) end.
  match goal with |- context [with_defaults ?f st1] => set (st2 := with_defaults f st1) end.
  unfold bind at 1.
  match goal with |- context [for_each _ ?pd _] => set (pD := pd) end.
  assert (HpD : preferred_keywords pD = Some (keywords_of s)).
  { unfold pD.
    case_ifs; reflexivity. }
  rewrite (keywords_part_eq shared (Py.lower (get_default (title video) "")) action
             pD (keywords_of s) st2 HpD).
  2:{ intros Hk. unfold st2, st1, with_defaults.
      cbn [default_preferences set_default_preferences].
      change (preferred_keywords ?x) with (get_list K_preferred_keywords x).
      rewrite !get_list_written_through by discriminate.
      apply (Hshared K_preferred_keywords Hk). }
  rewrite update_preferences_eq by exact Hdb.
  f_equal. unfold st2, st1, with_defaults.
  cbn [default_preferences set_default_preferences set_user_preferences
         user_preferences user_interactions search_history db_error requests].
  f_equal.
  unfold pD, p2, p1, Learner.learned, Learner.min_duration_after,
    Learner.max_duration_after.
  cbn [to_dict max_duration min_duration set_preferred_categories
         set_preferred_channels get_default].
  case_ifs; reflexivity.
Qed.


(** *** Learn calls *)

Definition learnable (action : string) : bool :=
  Py.mem action ["clicked"; "liked"; "watched"].

(** What a call of [record_interaction] makes of the preference set. *)
Definition after_interaction (video : VideoRecord) (action : string) (s : PreferenceSet)
  : PreferenceSet :=
  if learnable action then Learner.learned video action s else s.

Definition Event : Type := VideoRecord * string * option string.

Definition learn_call (env : Env) (st : State) (ev : Event) : State :=
  let '(video, action, query) := ev in
  snd (UserPreferenceEngine.record_interaction env video action query st).

(** A sequence of learn calls, first to last. *)
Definition learn_calls (env : Env) (events : list Event) (st : State) : State :=
  fold_left (learn_call env) events st.

Definition after_interactions (events : list Event) (s : PreferenceSet) : PreferenceSet :=
  fold_left (fun s '(video, action, _) => after_interaction video action s) events s.

Lemma effective_of_rows (st : State) (s : PreferenceSet) :
  db_error st = None ->
  user_preferences st = to_dict s ->
  effective_preferences st = to_dict s.
Proof.
  intros Hdb Hrows. unfold effective_preferences. now rewrite Hdb, Hrows.
Qed.

(** The row [record_interaction] inserts. *)
Definition interaction_of (env : Env) (video : VideoRecord) (action : string)
    (query : option string) : Interaction :=
  {| i_video_id := get_default (video_id video) "";
     i_action := action;
     i_query := query;
     i_channel := get_default (channel video) "";
     i_category := get_default (category_id video) "";
     i_duration :=
       UserPreferenceEngine._parse_duration (get_default (duration video) "PT0M0S");
     i_view_count := get_default (view_count video) 0;
     i_created_at := now env |}.

(** [record_interaction] on a database that works. *)
Lemma record_interaction_eq (env : Env) (video : VideoRecord) (action : string)
    (query : option string) (s : PreferenceSet) (st : State) :
  db_error st = None ->
  effective_preferences st = to_dict s ->
  UserPreferenceEngine.record_interaction env video action query st
  = (Ok tt,
     if learnable action
     then set_user_preferences (to_dict (Learner.learned video action s))
            (with_defaults (defaults_after video action s (user_preferences st))
               (add_interaction (interaction_of env video action query) st))
     else add_interaction (interaction_of env video action query) st).
Proof.
  intros Hdb Heff.
  unfold learnable, UserPreferenceEngine.record_interaction.
  unfold try_except at 1, bind at 1, UserPreferenceEngine.connect at 1.
  rewrite Hdb. unfold bind at 1, modify at 1.
  fold (interaction_of env video action query).
  destruct (Py.mem action ["clicked"; "liked"; "watched"]); [|reflexivity].
  now rewrite (learn_from_interaction_eq video action s
                 (add_interaction (interaction_of env video action query) st) Hdb Heff).
Qed.

Lemma record_interaction_learns (env : Env) (video : VideoRecord) (action : string)
    (query : option string) (s : PreferenceSet) (st : State) :
  db_error st = None ->
  effective_preferences st = to_dict s ->
  fst (UserPreferenceEngine.record_interaction env video action query st) = Ok tt /\
  db_error (learn_call env st (video, action, query)) = None /\
  effective_preferences (learn_call env st (video, action, query))
  = to_dict (after_interaction video action s).
Proof.
  intros Hdb Heff.
  split; [apply try_except_unit|].
  unfold learn_call, after_interaction.
  rewrite (record_interaction_eq env video action query s st Hdb Heff). cbn [snd].
  destruct (learnable action).
  - split; [exact Hdb|]. now apply effective_of_rows.
  - split; [exact Hdb | exact Heff].
Qed.

Lemma learn_call_failing_store (env : Env) (st : State) (ev : Event) (e : Exception) :
  db_error st = Some e -> learn_call env st ev = st.
Proof.
  destruct ev as [[video action] query]. intros H. unfold learn_call.
  now rewrite (record_interaction_failing_store env video action query st e H).
Qed.

Lemma learn_calls_learn (env : Env) (events : list Event) :
  forall (s : PreferenceSet) (st : State),
  db_error st = None ->
  effective_preferences st = to_dict s ->
  db_error (learn_calls env events st) = None /\
  effective_preferences (learn_calls env events st) = to_dict (after_interactions events s).
Proof.
  induction events as [|[[video action] query] events IH]; intros s st Hdb Heff.
  - now split.
  - cbn [learn_calls after_interactions fold_left].
    destruct (record_interaction_learns env video action query s st Hdb Heff)
      as (_ & Hdb' & Heff').
    apply (IH _ _ Hdb' Heff').
Qed.

(** The list objects of the default preferences are shared with the
    mapping the learner works on as long as no row is stored: the first
    learn call writes into them. *)
Lemma first_learn_call_changes_the_defaults :
  default_preferences
    (learn_call (Example.env_with Example.two_videos) initial_state
       (Example.video "a1" "Learning Rocq" "Alpha", "liked", None))
  = to_dict (mkPreferenceSet ["Alpha"] ["27"] 0 7200 ["en"] [] 0 365
               ["learning"; "rocq"] []).
Proof. reflexivity. Qed.

(* ================================================================= *)
(** ** The cap on the preferred channels *)

Section ChannelCap.

Local Abbreviation size := (@List.length string).

Lemma last_n_short {A : Type} (n : nat) (l : list A) :
  (List.length l <= n)%nat -> Py.last_n n l = l.
Proof.
  intros H. unfold Py.last_n.
  now replace (List.length l - n)%nat with 0%nat by lia.
Qed.

Lemma last_n_length {A : Type} (n : nat) (l : list A) :
  List.length (Py.last_n n l) = Nat.min n (List.length l).
Proof. unfold Py.last_n. rewrite length_skipn. lia. Qed.

Lemma last_n_incl {A : Type} (n : nat) (l : list A) (x : A) :
  In x (Py.last_n n l) -> In x l.
Proof.
  unfold Py.last_n. intros H.
  rewrite <- (firstn_skipn (List.length l - n) l). apply in_or_app. now right.
Qed.


(** The truncation of the learner, in one piece. *)
Lemma channels_after_eq (channel action : string) (l : list string) :
  Learner.channels_after channel action l =
  if (Py.truthy channel && learnable action && negb (Py.mem channel l))%bool
  then Py.last_n 50 (l ++ [channel])
  else l.
Proof.
  unfold Learner.channels_after, learnable.
  destruct (Py.truthy channel && Py.mem action ["clicked"; "liked"; "watched"])%bool;
    [|reflexivity].
  destruct (negb (Py.mem channel l)); [|reflexivity].
  cbn [andb]. cbv zeta.
  destruct (50 <? Z.of_nat (size (l ++ [channel]))) eqn:H; [reflexivity|].
  apply Z.ltb_ge in H. symmetry. apply last_n_short. lia.
Qed.

Lemma channels_after_length (channel action : string) (l : list string) :
  (size l <= 50)%nat -> (size (Learner.channels_after channel action l) <= 50)%nat.
Proof.
  intros H. rewrite channels_after_eq.
  destruct (_ && _)%bool; [|exact H].
  rewrite last_n_length. lia.
Qed.

(** The channel a video is filed under; the empty string is no channel. *)
Definition channel_name (video : VideoRecord) : string :=
  get_default (channel video) "".

Lemma channels_of_after_interaction (video : VideoRecord) (action : string)
    (s : PreferenceSet) :
  channels_of (after_interaction video action s)
  = Learner.channels_after (channel_name video) action (channels_of s).
Proof.
  unfold after_interaction. destruct (learnable action) eqn:H; [reflexivity|].
  rewrite channels_after_eq, H. now rewrite andb_false_r.
Qed.

Definition clicked (video : VideoRecord) : Event := (video, "clicked", None).




End ChannelCap.

(* ================================================================= *)
(** ** The drift of the duration bounds *)

(** The duration the learner reads in a video. *)
Definition observed_duration (video : VideoRecord) : Z :=
  UserPreferenceEngine._parse_duration (get_default (duration video) "PT0M0S").

(** The events that move the bounds. *)
Definition drifts (video : VideoRecord) (action : string) : bool :=
  ((0 <? observed_duration video) && Py.mem action ["watched"; "liked"])%bool.

Lemma drifts_learnable (video : VideoRecord) (action : string) :
  drifts video action = true -> learnable action = true.
Proof.
  unfold drifts, learnable, Py.mem. cbn [existsb].
  intros H. apply andb_true_iff in H as [_ H].
  destruct (String.eqb action "watched"), (String.eqb action "liked");
    cbn in *; try discriminate; now rewrite ?orb_true_r.
Qed.

Lemma durations_of_after_interaction (video : VideoRecord) (action : string)
    (s : PreferenceSet) :
  min_duration_of (after_interaction video action s)
  = (if (drifts video action && (observed_duration video <? min_duration_of s))%bool
     then Z.max 0 (min_duration_of s - 60) else min_duration_of s) /\
  max_duration_of (after_interaction video action s)
  = (if (drifts video action && (max_duration_of s <? observed_duration video))%bool
     then Z.min 14400 (max_duration_of s + 300) else max_duration_of s).
Proof.
  unfold after_interaction.
  destruct (learnable action) eqn:Hl.
  - cbn [Learner.learned min_duration_of max_duration_of].
    unfold Learner.min_duration_after, Learner.max_duration_after.
    fold (observed_duration video). fold (drifts video action).
    now destruct (drifts video action).
  - destruct (drifts video action) eqn:Hd; [|now split].
    apply drifts_learnable in Hd. congruence.
Qed.

(* ================================================================= *)
(** ** Learn calls on a database that may fail *)

(** A learn call, with the state of the database during the call. *)
Definition Call : Type := option Exception * Event.

Definition learn_call_under (env : Env) (st : State) (call : Call) : State :=
  learn_call env (set_db_error (fst call) st) (snd call).

Definition learn_calls_under (env : Env) (calls : list Call) (st : State) : State :=
  fold_left (learn_call_under env) calls st.

Definition within_bounds (s : PreferenceSet) : Prop :=
  (List.length (channels_of s) <= 50)%nat /\
  0 <= min_duration_of s /\ max_duration_of s <= 14400.

(** What the learn calls keep true of a state: the preferences read from
    the database and the default preferences, which are read when the
    database fails, have every key and are within bounds; and the list of
    channels of the defaults, which the first learn call may write into,
    is empty as long as no row stores the preferred channels. *)
Definition well_kept (st : State) : Prop :=
  exists s d : PreferenceSet,
    overlay (user_preferences st) (default_preferences st) = to_dict s /\
    default_preferences st = to_dict d /\
    within_bounds s /\ within_bounds d /\
    (preferred_channels (user_preferences st) = None -> channels_of d = []).

Lemma initial_state_well_kept : well_kept initial_state.
Proof.
  exists defaults, defaults. repeat split; cbn; lia.
Qed.

Lemma within_bounds_after_interaction (video : VideoRecord) (action : string)
    (s : PreferenceSet) :
  within_bounds s -> within_bounds (after_interaction video action s).
Proof.
  intros (Hc & Hmin & Hmax).
  destruct (durations_of_after_interaction video action s) as [Emin Emax].
  split; [|split].
  - rewrite channels_of_after_interaction. now apply channels_after_length.
  - rewrite Emin.
    destruct (drifts video action && (observed_duration video <? min_duration_of s))%bool;
      lia.
  - rewrite Emax.
    destruct (drifts video action && (max_duration_of s <? observed_duration video))%bool;
      lia.
Qed.

(** The default preferences after a learn call, as a preference set. *)
Lemma defaults_after_to_dict (video : VideoRecord) (action : string)
    (s d : PreferenceSet) (rows : Preferences) :
  exists d' : PreferenceSet,
    defaults_after video action s rows (to_dict d) = to_dict d' /\
    min_duration_of d' = min_duration_of d /\
    max_duration_of d' = max_duration_of d /\
    channels_of d'
    = if UserPreferenceEngine.is_none (preferred_channels rows)
      then channels_object (get_default (channel video) "") action (channels_of s)
      else channels_of d.
Proof.
  unfold defaults_after, written_through. cbn [get_list].
  destruct (UserPreferenceEngine.is_none (preferred_channels rows)),
    (UserPreferenceEngine.is_none (preferred_categories rows)),
    (UserPreferenceEngine.is_none (preferred_keywords rows));
    cbv beta iota delta
      [set_list set_preferred_channels set_preferred_categories
         set_preferred_keywords to_dict preferred_channels preferred_categories
         min_duration max_duration preferred_languages exclude_channels min_views
         max_age_days preferred_keywords disliked_keywords];
    match goal with
    | |- exists d', mkPrefs (Some ?a) (Some ?b) (Some ?c) (Some ?e) (Some ?f)
                      (Some ?g) (Some ?h) (Some ?i) (Some ?j) (Some ?k) = _ /\ _ =>
        exists (mkPreferenceSet a b c e f g h i j k)
    end; repeat split.
Qed.

Lemma channels_object_first (channel action : string) :
  (List.length (channels_object channel action []) <= 50)%nat.
Proof.
  unfold channels_object.
  destruct (_ && _)%bool; cbn; lia.
Qed.

Lemma learn_call_well_kept (env : Env) (st : State) (ev : Event) :
  well_kept st -> well_kept (learn_call env st ev).
Proof.
  intros Hst.
  destruct (db_error st) as [e|] eqn:Hdb;
    [now rewrite (learn_call_failing_store env st ev e Hdb)|].
  destruct Hst as (s & d & Hover & Hd & Hs & Hbd & Hempty).
  destruct ev as [[video action] query].
  assert (Heff : effective_preferences st = to_dict s)
    by (unfold effective_preferences; now rewrite Hdb).
  unfold learn_call.
  rewrite (record_interaction_eq env video action query s st Hdb Heff). cbn [snd].
  destruct (learnable action) eqn:Hl.
  - destruct (defaults_after_to_dict video action s d (user_preferences st))
      as (d' & Hd' & Hmin & Hmax & Hch).
    exists (Learner.learned video action s), d'.
    cbn [user_preferences default_preferences set_user_preferences with_defaults
           set_default_preferences add_interaction].
    rewrite Hd, Hd'.
    split; [reflexivity|]. split; [reflexivity|].
    split.
    { pose proof (within_bounds_after_interaction video action s Hs) as H.
      unfold after_interaction in H. now rewrite Hl in H. }
    split; [|discriminate].
    destruct Hbd as (Hc & Hlo & Hhi).
    split; [|split; [now rewrite Hmin | now rewrite Hmax]].
    rewrite Hch.
    destruct (preferred_channels (user_preferences st)) as [l|] eqn:Hrows;
      cbn [UserPreferenceEngine.is_none]; [exact Hc|].
    assert (Hsd : channels_of s = channels_of d).
    { apply (f_equal preferred_channels) in Hover.
      cbn in Hover. rewrite Hrows, Hd in Hover. cbn in Hover. congruence. }
    rewrite Hsd, (Hempty eq_refl). apply channels_object_first.
  - exists s, d. repeat split; try assumption; apply Hs || apply Hbd.
Qed.

Lemma learn_calls_under_well_kept (env : Env) (calls : list Call) :
  forall st : State, well_kept st -> well_kept (learn_calls_under env calls st).
Proof.
  induction calls as [|call calls IH]; intros st Hst; [exact Hst|].
  cbn [learn_calls_under fold_left]. apply IH.
  unfold learn_call_under. apply learn_call_well_kept.
  destruct Hst as (s & d & H). now exists s, d.
Qed.

(** Whatever the database does when the preferences are read, they are
    within bounds. *)
Lemma well_kept_read (st : State) (at_read : option Exception) :
  well_kept st ->
  exists s : PreferenceSet,
    fst (UserPreferenceEngine.get_preferences (set_db_error at_read st))
    = Ok (to_dict s) /\
    within_bounds s.
Proof.
  intros (s & d & Hover & Hd & Hs & Hbd & _).
  rewrite get_preferences_eq. unfold effective_preferences.
  cbn [fst db_error set_db_error user_preferences default_preferences].
  destruct at_read; [exists d | exists s]; split; assumption || congruence.
Qed.

(* ================================================================= *)
(** ** The cap and the bounds on the states of the process *)

Fixpoint all_different (l : list string) : bool :=
  match l with
  | [] => true
  | x :: l' => (negb (Py.mem x l') && all_different l')%bool
  end.

Lemma all_different_NoDup (l : list string) : all_different l = true -> NoDup l.
Proof.
  induction l as [|x l IH]; cbn; intros H; constructor;
    apply andb_true_iff in H as [Hx Hl].
  - apply mem_false_iff. now apply negb_true_iff.
  - now apply IH.
Qed.

(** Sixty videos of sixty channels named by one character each. *)
Definition sixty_videos : list VideoRecord :=
  map (fun n => Example.video "id" "Title" (String (ascii_of_nat (65 + n)) EmptyString))
      (seq 0 60).



(** The model run on the same sixty clicks. *)
Lemma sixty_clicks_computed :
  preferred_channels
    (effective_preferences
       (learn_calls (Example.env_with Example.two_videos)
          (map clicked sixty_videos) initial_state))
  = Some (skipn 10 (map channel_name sixty_videos)).
Proof. vm_compute. reflexivity. Qed.

(** C7.  A learn call moves each bound by at most one step.  On a working
    database the minimum goes down by 60, not below 0, exactly when the
    event is a watched or liked one with a positive duration below the
    minimum, and the maximum goes up by 300, not above 14400, exactly
    when the duration of such an event is above the maximum; otherwise,
    and always when the database fails, the bound stays.  A minimum that
    is not negative stays so, a maximum of at most 14400 stays so, and
    after any sequence of learn calls from the defaults the minimum is at
    least 0 and the maximum at most 14400, whether the database works or
    fails during each call and when the preferences are read. *)
Theorem duration_bounds_drift_by_steps (env : Env) :
  (forall (st : State) (s : PreferenceSet) (video : VideoRecord) (action : string)
          (query : option string),
      effective_preferences st = to_dict s ->
      exists s',
        fst (UserPreferenceEngine.get_preferences
               (learn_call env st (video, action, query)))
        = Ok (to_dict s') /\
        (db_error st = None ->
         min_duration_of s'
         = (if (drifts video action && (observed_duration video <? min_duration_of s))%bool
            then Z.max 0 (min_duration_of s - 60) else min_duration_of s) /\
         max_duration_of s'
         = (if (drifts video action && (max_duration_of s <? observed_duration video))%bool
            then Z.min 14400 (max_duration_of s + 300) else max_duration_of s)) /\
        (min_duration_of s' = min_duration_of s \/
         drifts video action = true /\ observed_duration video < min_duration_of s /\
         min_duration_of s' = Z.max 0 (min_duration_of s - 60)) /\
        (max_duration_of s' = max_duration_of s \/
         drifts video action = true /\ max_duration_of s < observed_duration video /\
         max_duration_of s' = Z.min 14400 (max_duration_of s + 300)) /\
        (0 <= min_duration_of s -> 0 <= min_duration_of s') /\
        (max_duration_of s <= 14400 -> max_duration_of s' <= 14400)) /\
  (forall (calls : list Call) (at_read : option Exception),
      exists p lo hi,
        fst (UserPreferenceEngine.get_preferences
               (set_db_error at_read (learn_calls_under env calls initial_state)))
        = Ok p /\
        min_duration p = Some lo /\ max_duration p = Some hi /\
        0 <= lo /\ hi <= 14400).
Proof.
  split.
  - intros st s video action query Heff.
    destruct (db_error st) as [e|] eqn:Hdb.
    { rewrite (learn_call_failing_store env st _ e Hdb), get_preferences_eq, Heff.
      exists s. split; [reflexivity|]. split; [discriminate|]. auto. }
    destruct (record_interaction_learns env video action query s st Hdb Heff)
      as (_ & _ & Heff').
    rewrite get_preferences_eq, Heff'. cbn [fst].
    destruct (durations_of_after_interaction video action s) as [Emin Emax].
    eexists. split; [reflexivity|].
    split; [intros _; split; [exact Emin | exact Emax]|].
    rewrite Emin, Emax.
    destruct (drifts video action); cbn [andb]; [|repeat split; auto].
    destruct (observed_duration video <? min_duration_of s) eqn:Hlo,
      (max_duration_of s <? observed_duration video) eqn:Hhi;
      rewrite ?Z.ltb_lt in *;
      (split; [auto | split; [auto | split; lia]]).
  - intros calls at_read.
    destruct (well_kept_read _ at_read
                (learn_calls_under_well_kept env calls _ initial_state_well_kept))
      as (s & -> & _ & Hlo & Hhi).
    eexists _, _, _. split; [reflexivity|]. split; [reflexivity|].
    split; [reflexivity|]. now split.
Qed.

(** The theorem on a liked video of three hours, from the defaults: the
    maximum goes from 7200 to 7500. *)
Lemma duration_bounds_drift_by_steps_witness :
  exists s',
    fst (UserPreferenceEngine.get_preferences
           (learn_call (Example.env_with Example.two_videos) initial_state
              (mkVideo (Some "v") (Some "Long talk") (Some "Alpha") None None
                 (Some "PT3H") None None None, "liked", None)))
    = Ok (to_dict s') /\
    min_duration_of s' = 0 /\ max_duration_of s' = 7500.
Proof.
  destruct (proj1 (duration_bounds_drift_by_steps (Example.env_with Example.two_videos))
              initial_state defaults
              (mkVideo (Some "v") (Some "Long talk") (Some "Alpha") None None
                 (Some "PT3H") None None None)
              "liked" None eq_refl)
    as (s' & Hs' & Hstep & _).
  destruct (Hstep eq_refl) as [Hmin Hmax].
  exists s'. split; [exact Hs'|]. split; [exact Hmin | exact Hmax].
Defined.

(* ================================================================= *)
(** ** A channel that is already preferred *)

Lemma known_channel_unchanged (channel action : string) (l : list string) :
  In channel l -> Learner.channels_after channel action l = l.
Proof.
  intros H. rewrite channels_after_eq.
  apply mem_iff in H. rewrite H. now rewrite andb_false_r.
Qed.

Lemma new_channel_evicts_the_oldest (channel action oldest : string) (l : list string) :
  List.length (oldest :: l) = 50%nat ->
  channel <> "" -> learnable action = true -> ~ In channel (oldest :: l) ->
  Learner.channels_after channel action (oldest :: l) = l ++ [channel].
Proof.
  intros Hlen Hne Hact Hnew. rewrite channels_after_eq.
  apply truthy_iff in Hne. apply mem_false_iff in Hnew.
  rewrite Hne, Hact, Hnew. cbn [andb negb].
  unfold Py.last_n. rewrite length_app, Hlen. reflexivity.
Qed.

(** C9.  A learn call on a video whose channel is already preferred
    leaves the list of preferred channels as it is, whatever the action
    and whether the database works or not: the channel keeps its place.
    So when the list is full and the channel is its oldest entry, the next
    new channel evicts it, although it was the last one interacted
    with. *)
Theorem preferred_channel_keeps_its_place (env : Env) :
  (forall (st : State) (s : PreferenceSet) (video : VideoRecord) (action : string)
          (query : option string),
      effective_preferences st = to_dict s ->
      In (channel_name video) (channels_of s) ->
      exists s',
        fst (UserPreferenceEngine.get_preferences
               (learn_call env st (video, action, query)))
        = Ok (to_dict s') /\
        channels_of s' = channels_of s) /\
  (forall (st : State) (s : PreferenceSet) (oldest : string) (others : list string)
          (again new : VideoRecord) (action1 action2 : string)
          (query1 query2 : option string),
      db_error st = None ->
      effective_preferences st = to_dict s ->
      channels_of s = oldest :: others ->
      List.length (oldest :: others) = 50%nat ->
      NoDup (oldest :: others) ->
      channel_name again = oldest ->
      channel_name new <> "" ->
      ~ In (channel_name new) (oldest :: others) ->
      learnable action2 = true ->
      exists s',
        fst (UserPreferenceEngine.get_preferences
               (learn_calls env [(again, action1, query1); (new, action2, query2)] st))
        = Ok (to_dict s') /\
        channels_of s' = others ++ [channel_name new] /\
        ~ In oldest (channels_of s')).
Proof.
  split.
  - intros st s video action query Heff Hin.
    destruct (db_error st) as [e|] eqn:Hdb.
    + unfold learn_call.
      rewrite (record_interaction_failing_store env video action query st e Hdb).
      cbn [snd]. rewrite get_preferences_eq, Heff. now exists s.
    + destruct (record_interaction_learns env video action query s st Hdb Heff)
        as (_ & _ & Heff').
      rewrite get_preferences_eq, Heff'. cbn [fst].
      eexists. split; [reflexivity|].
      rewrite channels_of_after_interaction. now apply known_channel_unchanged.
  - intros st s oldest others again new action1 action2 query1 query2
           Hdb Heff Hs Hlen Hnd Hagain Hne Hnew Hact.
    destruct (learn_calls_learn env [(again, action1, query1); (new, action2, query2)]
                s st Hdb Heff) as [_ Heff'].
    rewrite get_preferences_eq, Heff'. cbn [fst].
    eexists. split; [reflexivity|].
    cbn [after_interactions fold_left].
    rewrite !channels_of_after_interaction, Hs.
    rewrite (known_channel_unchanged (channel_name again))
      by (rewrite Hagain; now left).
    rewrite (new_channel_evicts_the_oldest _ _ _ _ Hlen Hne Hact Hnew).
    split; [reflexivity|].
    intros Hin. apply in_app_or in Hin as [Hin | [Hin | []]].
    + now inversion Hnd.
    + apply Hnew. left. now symmetry.
Qed.

(** The theorem on the state reached by clicking on the first fifty of
    the sixty videos: the oldest channel is liked again, then a new one
    is clicked. *)
Lemma preferred_channel_keeps_its_place_witness :
  exists s',
    fst (UserPreferenceEngine.get_preferences
           (learn_calls (Example.env_with Example.two_videos)
              [(Example.video "again" "Title" "A", "liked", None);
               (Example.video "new" "Title" "new channel", "clicked", None)]
              (learn_calls (Example.env_with Example.two_videos)
                 (map clicked (firstn 50 sixty_videos)) initial_state)))
    = Ok (to_dict s') /\
    channels_of s'
    = map channel_name (skipn 1 (firstn 50 sixty_videos)) ++ ["new channel"] /\
    ~ In "A" (channels_of s').
Proof.
  apply (proj2 (preferred_channel_keeps_its_place (Example.env_with Example.two_videos))
           (learn_calls (Example.env_with Example.two_videos)
              (map clicked (firstn 50 sixty_videos)) initial_state)
           (after_interactions (map clicked (firstn 50 sixty_videos)) defaults)
           "A" (map channel_name (skipn 1 (firstn 50 sixty_videos)))
           (Example.video "again" "Title" "A")
           (Example.video "new" "Title" "new channel")
           "liked" "clicked" None None).
  - vm_compute. reflexivity.
  - vm_compute. reflexivity.
  - vm_compute. reflexivity.
  - reflexivity.
  - apply all_different_NoDup. vm_compute. reflexivity.
  - reflexivity.
  - discriminate.
  - apply mem_false_iff. vm_compute. reflexivity.
  - reflexivity.
Defined.

(* ================================================================= *)
(** ** Keywords learned from titles *)

(** The words of a list in the order of their first occurrence, without
    those already [seen]. *)
Fixpoint first_occurrences (seen words : list string) : list string :=
  match words with
  | [] => []
  | w :: words' =>
      if Py.mem w seen then first_occurrences seen words'
      else w :: first_occurrences (w :: seen) words'
  end.

Definition uncommon (word : string) : bool :=
  negb (Py.mem word UserPreferenceEngine.common_words).



(** Appending new words, first come first served, up to 100 entries. *)
Definition extended_to_100 (l candidates : list string) : list string :=
  l ++ firstn (100 - List.length l) (first_occurrences l candidates).

Lemma first_occurrences_ext (words : list string) :
  forall seen seen' : list string,
  (forall x, Py.mem x seen = Py.mem x seen') ->
  first_occurrences seen words = first_occurrences seen' words.
Proof.
  induction words as [|w words IH]; intros seen seen' H; [reflexivity|].
  cbn [first_occurrences]. rewrite <- (H w).
  destruct (Py.mem w seen); [now apply IH|].
  f_equal. apply IH. intros x. unfold Py.mem. cbn [existsb]. f_equal. apply H.
Qed.

Lemma mem_snoc (x w : string) (l : list string) :
  Py.mem x (l ++ [w]) = Py.mem x (w :: l).
Proof.
  unfold Py.mem. rewrite existsb_app. cbn [existsb].
  rewrite orb_false_r. apply orb_comm.
Qed.

(** The loop of the learner in closed form. *)
Lemma keywords_loop_closed_form (words : list string) :
  forall l : list string,
  Learner.keywords_loop words l = extended_to_100 l (filter uncommon words).
Proof.
  unfold extended_to_100.
  induction words as [|w words IH]; intros l.
  - cbn. now rewrite firstn_nil, app_nil_r.
  - unfold Learner.keywords_loop. cbn [fold_left filter].
    fold (Learner.keywords_loop words). unfold uncommon at 1.
    destruct (Py.mem w UserPreferenceEngine.common_words); cbn [negb];
      [apply IH|].
    cbn [first_occurrences].
    destruct (Py.mem w l) eqn:Hmem; cbn [negb andb]; [apply IH|].
    destruct (Z.of_nat (List.length l) <? 100) eqn:Hlen.
    + apply Z.ltb_lt in Hlen. rewrite IH, length_app. cbn [List.length].
      replace (100 - List.length l)%nat with (S (100 - (List.length l + 1)))%nat by lia.
      cbn [firstn]. rewrite <- app_assoc. cbn [app].
      now rewrite (first_occurrences_ext _ (l ++ [w]) (w :: l) (fun x => mem_snoc x w l)).
    + apply Z.ltb_ge in Hlen. rewrite IH.
      now replace (100 - List.length l)%nat with 0%nat by lia.
Qed.


Lemma first_occurrences_new (words : list string) :
  forall (seen : list string) (w : string),
  In w (first_occurrences seen words) -> ~ In w seen /\ In w words.
Proof.
  induction words as [|x words IH]; intros seen w H; [easy|].
  cbn [first_occurrences] in H. destruct (Py.mem x seen) eqn:Hx.
  - destruct (IH _ _ H). split; [assumption | now right].
  - destruct H as [->|H].
    + split; [now apply mem_false_iff | now left].
    + destruct (IH _ _ H) as [Hseen Hw].
      split; [|now right]. intros Hin. apply Hseen. now right.
Qed.

Lemma first_occurrences_NoDup (words : list string) :
  forall seen : list string, NoDup (first_occurrences seen words).
Proof.
  induction words as [|x words IH]; intros seen; [constructor|].
  cbn [first_occurrences]. destruct (Py.mem x seen); [apply IH|].
  constructor; [|apply IH].
  intros H. apply first_occurrences_new in H as [H _]. apply H. now left.
Qed.


Lemma firstn_incl {A : Type} (n : nat) (l : list A) (x : A) :
  In x (firstn n l) -> In x l.
Proof.
  intros H. rewrite <- (firstn_skipn n l). apply in_or_app. now left.
Qed.

Lemma firstn_NoDup {A : Type} (n : nat) (l : list A) :
  NoDup l -> NoDup (firstn n l).
Proof.
  intros H. rewrite <- (firstn_skipn n l) in H. now apply NoDup_app_remove_r in H.
Qed.





(* ################################################################# *)
(** * Further properties of the two engines *)

(* ================================================================= *)
(** ** The filter under a change of preferences *)

Lemma filter_twice {A : Type} (f : A -> bool) (l : list A) :
  filter f (filter f l) = filter f l.
Proof.
  induction l as [|x l IH]; [reflexivity|].
  cbn [filter]. destruct (f x) eqn:Hx; [|exact IH].
  cbn [filter]. now rewrite Hx, IH.
Qed.

Lemma filter_refines {A : Type} (f g : A -> bool) (l : list A) :
  (forall x, f x = true -> g x = true) ->
  filter f l = filter f (filter g l).
Proof.
  intros H. induction l as [|x l IH]; [reflexivity|].
  cbn [filter]. destruct (g x) eqn:Hg.
  - cbn [filter]. now rewrite IH.
  - destruct (f x) eqn:Hf; [|exact IH].
    apply H in Hf. congruence.
Qed.

(** X1.  Each video is judged on its own: the filter of a concatenation
    is the concatenation of the filters, so that the filter may be run on
    the pages of a result one by one; and filtering a second time with
    the same preferences removes nothing more. *)
Theorem filter_judges_each_video_on_its_own (env : Env)
    (videos more : list VideoRecord) (preferences : Preferences) :
  PersonalizedSearchEngine._apply_preference_filters env (videos ++ more) preferences
  = PersonalizedSearchEngine._apply_preference_filters env videos preferences
    ++ PersonalizedSearchEngine._apply_preference_filters env more preferences /\
  PersonalizedSearchEngine._apply_preference_filters env
    (PersonalizedSearchEngine._apply_preference_filters env videos preferences)
    preferences
  = PersonalizedSearchEngine._apply_preference_filters env videos preferences.
Proof.
  rewrite !apply_preference_filters_is_filter. split.
  - apply filter_app.
  - apply filter_twice.
Qed.

(** [tighter] preferences [p'] exclude and dislike at least what [p]
    does, and bound the duration, the views and the age at least as
    much. *)
Definition tighter (p' p : Preferences) : Prop :=
  incl (get_default (exclude_channels p) []) (get_default (exclude_channels p') []) /\
  get_default (min_duration p) 0 <= get_default (min_duration p') 0 /\
  get_default (max_duration p') 7200 <= get_default (max_duration p) 7200 /\
  get_default (min_views p) 0 <= get_default (min_views p') 0 /\
  get_default (max_age_days p') 365 <= get_default (max_age_days p) 365 /\
  incl (get_default (disliked_keywords p) []) (get_default (disliked_keywords p') []).

Lemma mem_incl (x : string) (l l' : list string) :
  incl l l' -> Py.mem x l = true -> Py.mem x l' = true.
Proof. rewrite !mem_iff. intros H Hin. now apply H. Qed.

Lemma too_old_for_a_longer_time (env : Env) (published_at : string) (n n' : Z) :
  n' <= n ->
  PersonalizedSearchEngine._is_video_too_old env published_at n = true ->
  PersonalizedSearchEngine._is_video_too_old env published_at n' = true.
Proof.
  intros Hle. unfold PersonalizedSearchEngine._is_video_too_old.
  destruct (negb (Py.truthy published_at)); [easy|].
  destruct (fromisoformat env _) as [published|]; [|easy].
  cbn [Py.try_except]. rewrite !Z.ltb_lt.
  unfold microseconds_per_day. lia.
Qed.

Lemma passes_tighter (env : Env) (p' p : Preferences) (video : VideoRecord) :
  tighter p' p -> passes env p' video = true -> passes env p video = true.
Proof.
  intros (Hex & Hmin & Hmax & Hviews & Hage & Hdis).
  unfold passes. rewrite !negb_true_iff, !orb_false_iff.
  intros ((((Hc & Hlo & Hhi) & Hv) & Ho) & Hk).
  repeat split.
  - apply not_true_iff_false. intros H.
    apply (mem_incl _ _ _ Hex) in H. congruence.
  - apply Z.ltb_ge. apply Z.ltb_ge in Hlo. lia.
  - apply Z.ltb_ge. apply Z.ltb_ge in Hhi. lia.
  - apply Z.ltb_ge. apply Z.ltb_ge in Hv. lia.
  - apply not_true_iff_false. intros H.
    apply (too_old_for_a_longer_time env _ _ _ Hage) in H. congruence.
  - apply not_true_iff_false. intros H.
    apply existsb_exists in H as (k & Hin & H).
    assert (E : existsb
                  (fun keyword =>
                     (Py.contains (Py.lower keyword)
                        (Py.lower (get_default (title video) ""))
                      || Py.contains (Py.lower keyword)
                           (Py.lower (get_default (description video) "")))%bool)
                  (get_default (disliked_keywords p') []) = true).
    { apply existsb_exists. exists k. split; [now apply Hdis | exact H]. }
    congruence.
Qed.



(* ================================================================= *)
(** ** The age of a video *)



(* ================================================================= *)
(** ** Ranking a list that is already ranked *)

Section RankingTwice.

Variable F : FloatOps.
Variable A : Type.

Lemma sort_descending_sorted_input (l : list (float F * A)) :
  StronglySorted (fun a b => not_below F (fst a) (fst b)) l ->
  PersonalizedSearchEngine.sort_descending F l = l.
Proof.
  induction 1 as [|x l Hl IH Hx]; [reflexivity|].
  cbn [PersonalizedSearchEngine.sort_descending fold_right].
  fold (PersonalizedSearchEngine.sort_descending F l). rewrite IH.
  destruct l as [|y l']; [reflexivity|].
  cbn [PersonalizedSearchEngine.insert_descending].
  inversion Hx as [|? ? Hxy _]; subst.
  unfold not_below in Hxy. now rewrite Hxy.
Qed.

Lemma sorted_keys (key : A -> float F) (l : list A) :
  StronglySorted (fun a b => not_below F (key a) (key b)) l ->
  StronglySorted (fun a b : float F * A => not_below F (fst a) (fst b))
    (map (fun a => (key a, a)) l).
Proof.
  induction 1 as [|x l Hl IH Hx]; [constructor|].
  cbn [map]. constructor; [exact IH|].
  apply Forall_map. exact Hx.
Qed.

End RankingTwice.

(** Ranking is: pair each video with its score, sort, forget the
    scores. *)
Lemma rank_by_preferences_eq (env : Env) (videos : list VideoRecord)
    (preferences : Preferences) (query : string) :
  PersonalizedSearchEngine._rank_by_preferences env videos preferences query
  = map snd
      (PersonalizedSearchEngine.sort_descending (flops env)
         (map (fun v =>
                 (PersonalizedSearchEngine._calculate_preference_score env v
                    preferences query, v))
            videos)).
Proof.
  unfold PersonalizedSearchEngine._rank_by_preferences.
  now rewrite (append_loop_is_map
                 (fun v => (PersonalizedSearchEngine._calculate_preference_score env v
                              preferences query, v))).
Qed.


Lemma rank_sorted_input (env : Env) (videos : list VideoRecord)
    (preferences : Preferences) (query : string) :
  StronglySorted
    (fun a b =>
       not_below (flops env)
         (PersonalizedSearchEngine._calculate_preference_score env a preferences query)
         (PersonalizedSearchEngine._calculate_preference_score env b preferences query))
    videos ->
  PersonalizedSearchEngine._rank_by_preferences env videos preferences query = videos.
Proof.
  intros H. rewrite rank_by_preferences_eq.
  rewrite sort_descending_sorted_input by now apply sorted_keys.
  rewrite map_map. cbn [snd]. apply map_id.
Qed.

(** X4.  Ranking leaves alone a list in which no video is followed by
    one of greater score; and, when the comparison of scores is a strict
    weak order, ranking the result of a ranking again, with the same
    preferences and query, changes nothing. *)
Theorem ranking_a_ranked_list_changes_nothing (env : Env) (videos : list VideoRecord)
    (preferences : Preferences) (query : string)
    (fltb_asymmetric :
       forall x y, fltb (flops env) x y = true -> fltb (flops env) y x = false)
    (fltb_negatively_transitive :
       forall x y z, fltb (flops env) x z = true ->
                     fltb (flops env) x y = true \/ fltb (flops env) y z = true) :
  let score v :=
    PersonalizedSearchEngine._calculate_preference_score env v preferences query in
  let rank l := PersonalizedSearchEngine._rank_by_preferences env l preferences query in
  (StronglySorted (fun a b => not_below (flops env) (score a) (score b)) videos ->
   rank videos = videos) /\
  rank (rank videos) = rank videos.
Proof.
  intros score rank. split; [apply rank_sorted_input|].
  apply rank_sorted_input. unfold rank at 1. rewrite rank_by_preferences_eq.
  apply (keyed_sorted_values (flops env) _ score).
  - unfold keyed. rewrite sort_permutation. apply keyed_map.
  - now apply sort_sorted.
Qed.

(** The theorem in the example environment, on three videos of which the
    first has the least score. *)
Lemma ranking_a_ranked_list_changes_nothing_witness :
  let env := Example.env_with Example.two_videos in
  let a := Example.video "a" "Cooking pasta" "Alpha" in
  let b := Example.video "b" "Learning Rocq" "Beta" in
  let c := Example.video "c" "Learning Rocq" "Gamma" in
  let rank l :=
    PersonalizedSearchEngine._rank_by_preferences env l initial_default_preferences
      "rocq" in
  rank [a; b; c] = [b; c; a] /\ rank (rank [a; b; c]) = rank [a; b; c].
Proof.
  split; [reflexivity|].
  apply (proj2 (ranking_a_ranked_list_changes_nothing
                  (Example.env_with Example.two_videos)
                  [Example.video "a" "Cooking pasta" "Alpha";
                   Example.video "b" "Learning Rocq" "Beta";
                   Example.video "c" "Learning Rocq" "Gamma"]
                  initial_default_preferences "rocq"
                  Qltb_asymmetric Qltb_negatively_transitive)).
Defined.

(* ================================================================= *)
(** ** What a search returns and what it leaves behind *)

Lemma slice_to_nonnegative {A : Type} (l : list A) (n : Z) :
  0 <= n -> Py.slice_to l n = firstn (Z.to_nat n) l.
Proof.
  intros H. unfold Py.slice_to.
  destruct (n <? 0) eqn:Hn; [apply Z.ltb_lt in Hn; lia | reflexivity].
Qed.

(** A slice is the beginning of the list, whatever the bound. *)
Lemma slice_to_is_a_prefix {A : Type} (l : list A) (n : Z) :
  exists k : nat, Py.slice_to l n = firstn k l.
Proof. unfold Py.slice_to. destruct (n <? 0); eauto. Qed.



Lemma personalize_length (env : Env) (preferences : Preferences) (query : string)
    (max_results : Z) (raw_results : list VideoRecord) :
  0 <= max_results ->
  Z.of_nat (List.length (personalize env preferences query max_results raw_results))
  <= max_results.
Proof.
  intros H. unfold personalize. rewrite slice_to_nonnegative by exact H.
  pose proof (firstn_le_length (Z.to_nat max_results)
                (PersonalizedSearchEngine._rank_by_preferences env
                   (PersonalizedSearchEngine._apply_preference_filters env raw_results
                      preferences) preferences query)).
  lia.
Qed.



(** X6.  Whatever happens, a search sends exactly one request to the
    source, for twice the number of videos asked for and never more than
    50, in order of relevance; it changes neither the stored preferences,
    nor the default preferences, nor the log of interactions.  When it
    returns and the database works, it adds one entry to the search log:
    the query with the number of videos returned; when the source raises
    or the database fails, the search log stays as it is. *)
Theorem search_leaves_one_request_and_one_log_entry (env : Env) (query : string)
    (max_results : Z) (st : State) :
  let outcome := fst (PersonalizedSearchEngine.search env query max_results st) in
  let st' := snd (PersonalizedSearchEngine.search env query max_results st) in
  (exists asked,
      requests st' = requests st ++ [(query, asked, "relevance")] /\
      asked = Z.min (max_results * 2) 50 /\ asked <= 50) /\
  default_preferences st' = default_preferences st /\
  user_preferences st' = user_preferences st /\
  user_interactions st' = user_interactions st /\
  (forall results,
      outcome = Ok results -> db_error st = None ->
      search_history st'
      = search_history st
        ++ [mkSearchLogEntry query (Z.of_nat (List.length results)) None (now env)]) /\
  (forall e, outcome = Raise e \/ db_error st = Some e ->
             search_history st' = search_history st).
Proof.
  intros outcome st'. subst outcome st'.
  rewrite search_eq. unfold request_of, log_search.
  destruct (search_videos env query _ _) as [raw|e]; cbn [fst snd].
  - cbn [db_error add_request].
    split; [eexists; split; [|split; [reflexivity | lia]]|].
    { now destruct (db_error st). }
    destruct (db_error st) as [e|] eqn:Hdb; cbn; repeat split;
      try congruence; intros e' [H|H]; try discriminate; reflexivity.
  - split; [eexists; split; [reflexivity | split; [reflexivity | lia]]|].
    cbn. repeat split; try congruence.
Qed.

(** X7.  A search by channel never raises: it is the search for the
    query [channel:] followed by the name, with the empty list in the
    place of an exception of the source; the request has been sent in
    both cases. *)
Theorem search_by_channel_never_raises (env : Env) (channel_name : string)
    (max_results : Z) (st : State) :
  let query := String.append "channel:" channel_name in
  let outcome := fst (PersonalizedSearchEngine.search_by_channel env channel_name
                        max_results st) in
  let st' := snd (PersonalizedSearchEngine.search_by_channel env channel_name
                    max_results st) in
  (exists results, outcome = Ok results) /\
  (forall e,
      search_videos env query (Z.min (max_results * 2) 50) "relevance" = Raise e ->
      outcome = Ok []) /\
  (forall results,
      fst (PersonalizedSearchEngine.search env query max_results st) = Ok results ->
      outcome = Ok results) /\
  st' = snd (PersonalizedSearchEngine.search env query max_results st) /\
  requests st' = requests st ++ [request_of query max_results].
Proof.
  intros query outcome st'. subst outcome st'.
  unfold PersonalizedSearchEngine.search_by_channel. fold query.
  split; [apply try_except_returns|].
  unfold try_except. rewrite search_eq.
  destruct (search_videos env query _ _) as [raw|e]; cbn [fst snd].
  - split; [discriminate|]. split; [auto|]. split; [reflexivity|].
    now rewrite requests_log_search.
  - split; [reflexivity|]. split; [discriminate|]. split; reflexivity.
Qed.

(* ================================================================= *)
(** ** Merging the results of several searches *)

(** The identifier a video is known by when duplicates are removed; a
    video without identifier counts as having the empty one. *)
Definition id_of (video : VideoRecord) : string :=
  get_default (video_id video) "".

(** The videos of a list whose identifier is neither [seen] nor carried
    by an earlier video of the list. *)
Fixpoint first_by_id (seen : list string) (videos : list VideoRecord)
  : list VideoRecord :=
  match videos with
  | [] => []
  | v :: videos' =>
      if Py.mem (id_of v) seen then first_by_id seen videos'
      else v :: first_by_id (id_of v :: seen) videos'
  end.

Lemma remove_duplicates_eq (videos : list VideoRecord) :
  PersonalizedSearchEngine.remove_duplicates videos = first_by_id [] videos.
Proof.
  unfold PersonalizedSearchEngine.remove_duplicates.
  match goal with |- snd (fold_left ?f _ _) = _ => set (step := f) end.
  assert (G : forall seen unique,
             snd (fold_left step videos (seen, unique))
             = unique ++ first_by_id seen videos).
  { induction videos as [|v videos IH]; intros seen unique.
    - cbn. now rewrite app_nil_r.
    - cbn [fold_left first_by_id]. unfold step at 2. fold (id_of v).
      destruct (Py.mem (id_of v) seen); cbn [negb]; rewrite IH; [reflexivity|].
      now rewrite <- app_assoc. }
  apply (G [] []).
Qed.

Lemma ids_of_first_by_id (videos : list VideoRecord) :
  forall seen : list string,
  map id_of (first_by_id seen videos) = first_occurrences seen (map id_of videos).
Proof.
  induction videos as [|v videos IH]; intros seen; [reflexivity|].
  cbn [first_by_id map first_occurrences].
  destruct (Py.mem (id_of v) seen); [apply IH|].
  cbn [map]. now rewrite IH.
Qed.

Lemma first_by_id_incl (videos : list VideoRecord) :
  forall (seen : list string) (v : VideoRecord),
  In v (first_by_id seen videos) -> In v videos.
Proof.
  induction videos as [|x videos IH]; intros seen v H; [easy|].
  cbn [first_by_id] in H. destruct (Py.mem (id_of x) seen).
  - right. now apply (IH seen).
  - destruct H as [->|H]; [now left | right; now apply (IH _ _ H)].
Qed.

Lemma first_by_id_first (videos : list VideoRecord) :
  forall (seen : list string) (before after : list VideoRecord) (v : VideoRecord),
  videos = before ++ v :: after ->
  ~ In (id_of v) seen -> ~ In (id_of v) (map id_of before) ->
  In v (first_by_id seen videos).
Proof.
  induction videos as [|x videos IH]; intros seen before after v E Hseen Hbefore.
  - now destruct before.
  - destruct before as [|b before]; cbn [app] in E; injection E as -> ->.
    + cbn [first_by_id]. apply mem_false_iff in Hseen. rewrite Hseen. now left.
    + cbn [first_by_id map] in *.
      assert (Hne : id_of v <> id_of b) by (intros H; apply Hbefore; now left).
      assert (Hrest : ~ In (id_of v) (map id_of before))
        by (intros H; apply Hbefore; now right).
      destruct (Py.mem (id_of b) seen).
      * now apply (IH seen before after).
      * right. apply (IH _ before after); [reflexivity| |exact Hrest].
        intros [H|H]; [now apply Hne | now apply Hseen].
Qed.

Lemma first_by_id_all_different (videos : list VideoRecord) :
  forall seen : list string,
  NoDup (map id_of videos) ->
  (forall v, In v videos -> ~ In (id_of v) seen) ->
  first_by_id seen videos = videos.
Proof.
  induction videos as [|x videos IH]; intros seen Hnd Hseen; [reflexivity|].
  cbn [first_by_id]. cbn [map] in Hnd. inversion Hnd as [|? ? Hx Hrest]; subst.
  assert (Hm : Py.mem (id_of x) seen = false)
    by (apply mem_false_iff, Hseen; now left).
  rewrite Hm. f_equal. apply IH; [exact Hrest|].
  intros v Hin [H|H].
  - apply Hx. rewrite H. now apply in_map.
  - apply (Hseen v); [now right | exact H].
Qed.

Lemma remove_duplicates_NoDup (videos : list VideoRecord) :
  NoDup (map id_of (PersonalizedSearchEngine.remove_duplicates videos)).
Proof.
  rewrite remove_duplicates_eq, ids_of_first_by_id. apply first_occurrences_NoDup.
Qed.

(** X8.  Removing the duplicates keeps, for each identifier, the first
    video of the list that carries it, in the order of the list: the
    identifiers of the result are those of the list in the order of
    their first occurrence, without repetition.  Nothing is added, a list
    without repeated identifier is returned as it is, and removing the
    duplicates a second time changes nothing. *)
Theorem remove_duplicates_keeps_the_first_of_each_id (videos : list VideoRecord) :
  let unique := PersonalizedSearchEngine.remove_duplicates videos in
  map id_of unique = first_occurrences [] (map id_of videos) /\
  NoDup (map id_of unique) /\
  incl unique videos /\
  (forall before v after,
      videos = before ++ v :: after -> ~ In (id_of v) (map id_of before) ->
      In v unique) /\
  (forall before v after,
      videos = before ++ v :: after -> In (id_of v) (map id_of before) ->
      List.length unique < List.length videos)%nat /\
  (NoDup (map id_of videos) -> unique = videos) /\
  PersonalizedSearchEngine.remove_duplicates unique = unique.
Proof.
  intros unique. subst unique.
  pose proof (remove_duplicates_NoDup videos) as Hnd.
  rewrite remove_duplicates_eq in *.
  split; [apply ids_of_first_by_id|]. split; [exact Hnd|].
  split; [intros v; apply first_by_id_incl|].
  split; [|split; [|split]].
  - intros before v after E Hnew.
    now apply (first_by_id_first videos [] before after).
  - intros before v after E Hold.
    rewrite <- (length_map id_of (first_by_id [] videos)).
    rewrite <- (length_map id_of videos).
    apply Nat.le_neq. split.
    + apply NoDup_incl_length; [exact Hnd|].
      intros x Hx. apply in_map_iff in Hx as (w & <- & Hw).
      apply in_map. now apply first_by_id_incl in Hw.
    + intros Hlen.
      assert (Hall : NoDup (map id_of videos)).
      { apply (NoDup_incl_NoDup Hnd); [lia|].
        intros x Hx. apply in_map_iff in Hx as (w & <- & Hw).
        apply in_map. now apply first_by_id_incl in Hw. }
      rewrite E, map_app in Hall. cbn [map] in Hall.
      apply NoDup_remove_2 in Hall. apply Hall. apply in_or_app. now left.
  - intros Hall. apply first_by_id_all_different; [exact Hall | auto].
  - rewrite remove_duplicates_eq.
    apply first_by_id_all_different; [exact Hnd | auto].
Qed.

(** The theorem on three videos of which the third repeats the
    identifier of the first. *)
Lemma remove_duplicates_keeps_the_first_of_each_id_witness :
  let a := Example.video "a1" "Learning Rocq" "Alpha" in
  let b := Example.video "b2" "Cooking pasta" "Beta" in
  let a' := Example.video "a1" "Learning Rocq again" "Gamma" in
  In a (PersonalizedSearchEngine.remove_duplicates [a; b; a']) /\
  (List.length (PersonalizedSearchEngine.remove_duplicates [a; b; a']) < 3)%nat.
Proof.
  cbv zeta.
  destruct (remove_duplicates_keeps_the_first_of_each_id
              [Example.video "a1" "Learning Rocq" "Alpha";
               Example.video "b2" "Cooking pasta" "Beta";
               Example.video "a1" "Learning Rocq again" "Gamma"])
    as (_ & _ & _ & Hfirst & Hshorter & _).
  split.
  - apply (Hfirst [] _ [Example.video "b2" "Cooking pasta" "Beta";
                        Example.video "a1" "Learning Rocq again" "Gamma"]).
    + reflexivity.
    + simpl. tauto.
  - apply (Hshorter [Example.video "a1" "Learning Rocq" "Alpha";
                     Example.video "b2" "Cooking pasta" "Beta"]
             (Example.video "a1" "Learning Rocq again" "Gamma") []).
    + reflexivity.
    + simpl. tauto.
Defined.

(** *** The recommendations *)

Lemma requests_after_search (env : Env) (query : string) (max_results : Z) (st : State) :
  requests (snd (PersonalizedSearchEngine.search env query max_results st))
  = requests st ++ [request_of query max_results].
Proof.
  rewrite search_eq. destruct (search_videos env query _ _); cbn [snd];
    [now rewrite requests_log_search | reflexivity].
Qed.

Lemma recommendations_loop_requests (env : Env) (per_query : Z) (queries : list string) :
  forall (acc : list VideoRecord) (st : State),
  requests
    (snd (for_each queries acc
            (fun all_results query =>
               try_except
                 (results <- PersonalizedSearchEngine.search env query per_query ;;
                  ret (all_results ++ results))
                 (fun _ => ret all_results)) st))
  = requests st ++ map (fun q => request_of q per_query) queries.
Proof.
  induction queries as [|q queries IH]; intros acc st.
  - cbn. now rewrite app_nil_r.
  - cbn [for_each map]. unfold bind at 1, try_except at 1, bind at 1.
    pose proof (requests_after_search env q per_query st) as Hreq.
    destruct (PersonalizedSearchEngine.search env q per_query st) as [[results|e] st1];
      cbn [snd] in Hreq; unfold ret at 1; rewrite IH, Hreq, <- app_assoc; reflexivity.
Qed.

Lemma recommendation_queries_count (preferences : Preferences) :
  (1 <= List.length (recommendation_queries preferences) <= 15)%nat.
Proof.
  unfold recommendation_queries.
  set (keywords := firstn 10 (get_default (preferred_keywords preferences) [])).
  set (channels := firstn 5 (get_default (preferred_channels preferences) [])).
  assert (Hk : (List.length keywords <= 10)%nat) by apply firstn_le_length.
  assert (Hc : (List.length channels <= 5)%nat) by apply firstn_le_length.
  clearbody keywords channels.
  destruct (keywords ++ map (String.append "channel:") channels) as [|q queries] eqn:E.
  - cbn. lia.
  - rewrite <- E, length_app, length_map. split; [|lia].
    apply (f_equal (@List.length string)) in E.
    rewrite length_app, length_map in E. cbn [List.length] in E. lia.
Qed.


Lemma slice_to_NoDup {A : Type} (l : list A) (n : Z) : NoDup l -> NoDup (Py.slice_to l n).
Proof.
  intros H. destruct (slice_to_is_a_prefix l n) as [k ->]. now apply firstn_NoDup.
Qed.

Lemma map_slice_to {A B : Type} (f : A -> B) (l : list A) (n : Z) :
  map f (Py.slice_to l n) = Py.slice_to (map f l) n.
Proof.
  unfold Py.slice_to. rewrite length_map.
  destruct (n <? 0); symmetry; apply firstn_map.
Qed.




(** X10.  The recommendations send one request for each of their
    queries, in order, whether the source answers or raises: between 1
    and 15 queries, each for at least one video, also when no video is
    asked for.  The preferences are read and left as they are. *)
Theorem recommendations_send_every_query (env : Env) (max_results : Z) (st : State) :
  let queries := recommendation_queries (effective_preferences st) in
  let per_query := Z.max 1 (max_results / Z.of_nat (List.length queries)) in
  let st' := snd (PersonalizedSearchEngine.get_recommendations env max_results st) in
  requests st' = requests st ++ map (fun q => request_of q per_query) queries /\
  (1 <= List.length queries <= 15)%nat /\
  1 <= per_query /\
  same_store st st'.
Proof.
  intros queries per_query st'. subst st'.
  split; [|split; [apply recommendation_queries_count | split; [lia|]]].
  - unfold PersonalizedSearchEngine.get_recommendations.
    unfold try_except at 1, bind at 1. rewrite get_preferences_eq. cbn [app].
    match goal with |- context [for_each ?qs [] _] => change qs with queries end.
    fold per_query. unfold bind at 1.
    pose proof (recommendations_loop_requests env per_query queries [] st) as Hreq.
    destruct (recommendations_loop env per_query queries [] st) as (st' & E & _).
    rewrite E in *. exact Hreq.
  - unfold PersonalizedSearchEngine.get_recommendations.
    unfold try_except at 1, bind at 1. rewrite get_preferences_eq. cbn [app].
    match goal with |- context [for_each ?qs [] _] => change qs with queries end.
    fold per_query. unfold bind at 1.
    destruct (recommendations_loop env per_query queries [] st) as (st' & -> & Hsame).
    exact Hsame.
Qed.

(** *** The trending videos *)

Lemma trending_loop_answers (env : Env) (per_query : Z) (queries : list string) :
  forall (acc : list VideoRecord) (st : State),
  (forall q, In q queries ->
     exists raw_results,
       search_videos env q (Z.min (per_query * 2) 50) "relevance" = Ok raw_results) ->
  exists st',
    for_each queries acc
      (fun all_results query =>
         results <- PersonalizedSearchEngine.search env query per_query ;;
         ret (all_results ++ results)) st
    = (Ok (acc ++ flat_map (contribution env (effective_preferences st) per_query) queries),
       st')
    /\ same_store st st'
    /\ requests st' = requests st ++ map (fun q => request_of q per_query) queries.
Proof.
  induction queries as [|q queries IH]; intros acc st Hall.
  - exists st. cbn. rewrite !app_nil_r. repeat split.
  - cbn [for_each flat_map map]. unfold bind at 1, bind at 1.
    pose proof (search_same_store env q per_query st) as Hsame.
    pose proof (requests_after_search env q per_query st) as Hreq.
    rewrite search_eq in *. unfold contribution at 1.
    destruct (Hall q (or_introl eq_refl)) as [raw Hraw]. rewrite Hraw in *.
    cbn [snd] in Hsame, Hreq. cbn zeta. unfold ret at 1.
    match goal with |- context [for_each queries ?a _ ?s] =>
      destruct (IH a s) as (st' & -> & Hsame' & Hreq');
        [intros; apply Hall; now right|] end.
    exists st'. rewrite (same_store_effective _ _ Hsame), <- app_assoc.
    split; [reflexivity|]. split.
    + destruct Hsame as (? & ? & ?), Hsame' as (? & ? & ?).
      repeat split; congruence.
    + now rewrite Hreq', Hreq, <- app_assoc.
Qed.

(** X11.  When the source answers the four trending queries, the
    trending operation returns the results of the four searches, each for
    a quarter of [max_results] rounded down, one after the other in the
    order of the queries, without the videos whose identifier came
    earlier, cut to [max_results]; no two of them have the same
    identifier, and the four requests have been sent in order. *)
Theorem trending_merges_the_four_searches (env : Env) (max_results : Z) (st : State) :
  (forall q, In q PersonalizedSearchEngine.trending_queries ->
     exists raw_results,
       search_videos env q (Z.min (max_results / 4 * 2) 50) "relevance"
       = Ok raw_results) ->
  let preferences := effective_preferences st in
  let merged :=
    flat_map (contribution env preferences (max_results / 4))
      PersonalizedSearchEngine.trending_queries in
  exists results,
    fst (PersonalizedSearchEngine.get_trending_personalized env max_results st)
    = Ok results /\
    results = Py.slice_to (PersonalizedSearchEngine.remove_duplicates merged) max_results /\
    NoDup (map id_of results) /\
    requests (snd (PersonalizedSearchEngine.get_trending_personalized env max_results st))
    = requests st
      ++ map (fun q => request_of q (max_results / 4))
           PersonalizedSearchEngine.trending_queries.
Proof.
  intros Hall preferences merged.
  destruct (trending_loop_answers env (max_results / 4)
              PersonalizedSearchEngine.trending_queries [] st Hall)
    as (st' & Hloop & _ & Hreq).
  assert (E : PersonalizedSearchEngine.get_trending_personalized env max_results st
              = (Ok (Py.slice_to (PersonalizedSearchEngine.remove_duplicates merged)
                       max_results), st')).
  { unfold PersonalizedSearchEngine.get_trending_personalized.
    rewrite trending_count. unfold try_except, bind at 1. now rewrite Hloop. }
  rewrite E. cbn [fst snd]. eexists. split; [reflexivity|].
  split; [reflexivity|]. split; [|exact Hreq].
  rewrite map_slice_to. apply slice_to_NoDup, remove_duplicates_NoDup.
Qed.

(** The theorem on a source that answers each query with two videos
    named after it: eight videos asked for, eight returned. *)
Lemma trending_merges_the_four_searches_witness :
  exists results,
    fst (PersonalizedSearchEngine.get_trending_personalized
           (Example.env_with Example.two_per_query) 8 initial_state) = Ok results /\
    NoDup (map id_of results) /\
    List.length results = 8%nat.
Proof.
  destruct (trending_merges_the_four_searches
              (Example.env_with Example.two_per_query) 8 initial_state)
    as (results & Hresults & Heq & Hnd & _).
  - intros q _. eexists. reflexivity.
  - exists results. split; [exact Hresults|]. split; [exact Hnd|].
    rewrite Heq. vm_compute. reflexivity.
Defined.

(* ================================================================= *)
(** ** Writing and reading the preferences *)

Lemma or_else_assoc {A : Type} (a b c : option A) :
  or_else (or_else a b) c = or_else a (or_else b c).
Proof. now destruct a. Qed.

Lemma overlay_assoc (p q r : Preferences) :
  overlay (overlay p q) r = overlay p (overlay q r).
Proof. unfold overlay. cbn. now rewrite !or_else_assoc. Qed.

Lemma get_list_overlay (k : ListKey) (p q : Preferences) :
  get_list k (overlay p q) = or_else (get_list k p) (get_list k q).
Proof. now destruct k. Qed.

(** X12.  On a database that works, [update_preferences] stores the keys
    it is given and nothing else: the preferences read afterwards are the
    ones read before with the given keys replaced, a key that is not
    given reads as before, and two updates in a row store what one update
    with the second mapping laid over the first stores.  The default
    preferences and the two logs are not touched.  On a database that
    fails the exception is raised again and nothing changes. *)
Theorem update_preferences_is_read_back (p p2 : Preferences) (st : State) :
  (db_error st = None ->
   let st' := snd (UserPreferenceEngine.update_preferences p st) in
   fst (UserPreferenceEngine.update_preferences p st) = Ok tt /\
   fst (UserPreferenceEngine.get_preferences st')
   = Ok (overlay p (effective_preferences st)) /\
   (forall k l, get_list k p = Some l ->
                get_list k (effective_preferences st') = Some l) /\
   (forall k, get_list k p = None ->
              get_list k (effective_preferences st')
              = get_list k (effective_preferences st)) /\
   snd (UserPreferenceEngine.update_preferences p2 st')
   = snd (UserPreferenceEngine.update_preferences (overlay p2 p) st) /\
   default_preferences st' = default_preferences st /\
   user_interactions st' = user_interactions st /\
   search_history st' = search_history st) /\
  (forall e, db_error st = Some e ->
             UserPreferenceEngine.update_preferences p st = (Raise e, st)).
Proof.
  split.
  - intros Hdb st'. subst st'.
    rewrite (update_preferences_eq p st Hdb). cbn [fst snd].
    assert (Hread : effective_preferences
                      (set_user_preferences (overlay p (user_preferences st)) st)
                    = overlay p (effective_preferences st)).
    { unfold effective_preferences. cbn. rewrite Hdb. apply overlay_assoc. }
    split; [reflexivity|].
    split; [now rewrite get_preferences_eq, Hread|].
    rewrite Hread.
    split; [intros k l H; now rewrite get_list_overlay, H|].
    split; [intros k H; now rewrite get_list_overlay, H|].
    split; [|now repeat split].
    rewrite !update_preferences_eq by assumption. cbn [snd].
    unfold set_user_preferences. cbn. now rewrite overlay_assoc.
  - intros e He.
    unfold UserPreferenceEngine.update_preferences, try_except, bind,
      UserPreferenceEngine.connect, raise.
    now rewrite He.
Qed.

(** The theorem on a minimum of views stored from the initial state. *)
Lemma update_preferences_is_read_back_witness :
  let p := mkPrefs None None None None None None (Some 100) None None None in
  fst (UserPreferenceEngine.get_preferences
         (snd (UserPreferenceEngine.update_preferences p initial_state)))
  = Ok (overlay p initial_default_preferences) /\
  UserPreferenceEngine.update_preferences p
    (set_db_error (Some Example.locked) initial_state)
  = (Raise Example.locked, set_db_error (Some Example.locked) initial_state).
Proof.
  cbv zeta. split.
  - apply (proj1 (update_preferences_is_read_back
                    (mkPrefs None None None None None None (Some 100) None None None)
                    no_preferences initial_state)).
    reflexivity.
  - apply (proj2 (update_preferences_is_read_back
                    (mkPrefs None None None None None None (Some 100) None None None)
                    no_preferences (set_db_error (Some Example.locked) initial_state))).
    reflexivity.
Defined.

(* ================================================================= *)
(** ** What a learn call reads, writes and leaves alone *)

(** The preferences in force after a learn call. *)
Lemma learn_call_reads (env : Env) (st : State) (s : PreferenceSet)
    (video : VideoRecord) (action : string) (query : option string) :
  effective_preferences st = to_dict s ->
  effective_preferences (learn_call env st (video, action, query))
  = to_dict (match db_error st with
             | None => after_interaction video action s
             | Some _ => s
             end).
Proof.
  intros Heff. destruct (db_error st) as [e|] eqn:Hdb.
  - now rewrite (learn_call_failing_store env st _ e Hdb).
  - now destruct (record_interaction_learns env video action query s st Hdb Heff)
      as (_ & _ & ->).
Qed.

Lemma not_learnable (action : string) :
  learnable action = false ->
  Py.mem action ["clicked"; "liked"] = false /\
  Py.mem action ["watched"; "liked"] = false.
Proof.
  unfold learnable, Py.mem. cbn [existsb].
  destruct (String.eqb action "clicked"), (String.eqb action "liked"),
    (String.eqb action "watched"); cbn; intros H; split; congruence.
Qed.

(** X13.  On a database that works, a call of [record_interaction] adds
    one row to the log of interactions whatever the action, with the
    fields of the video ([""], [0] and a duration of 0 seconds for the
    keys the video lacks); it touches neither the search log nor the
    requests.  An action other than clicked, liked and watched does
    nothing else: the stored preferences and the default preferences stay
    as they are. *)
Theorem record_interaction_logs_every_action (env : Env) (st : State)
    (s : PreferenceSet) (video : VideoRecord) (action : string)
    (query : option string) :
  db_error st = None ->
  effective_preferences st = to_dict s ->
  let st' := learn_call env st (video, action, query) in
  user_interactions st'
  = user_interactions st
    ++ [mkInteraction (id_of video) action query (channel_name video)
          (get_default (category_id video) "") (observed_duration video)
          (get_default (view_count video) 0) (now env)] /\
  search_history st' = search_history st /\
  requests st' = requests st /\
  db_error st' = None /\
  (learnable action = false ->
   user_preferences st' = user_preferences st /\
   default_preferences st' = default_preferences st).
Proof.
  intros Hdb Heff st'. subst st'. unfold learn_call.
  rewrite (record_interaction_eq env video action query s st Hdb Heff). cbn [snd].
  destruct (learnable action); cbn; repeat split; try assumption; discriminate.
Qed.

(** The theorem on an action that teaches nothing. *)
Lemma record_interaction_logs_every_action_witness :
  let st' :=
    learn_call (Example.env_with Example.two_videos) initial_state
      (Example.video "a1" "Learning Rocq" "Alpha", "disliked", Some "rocq") in
  user_interactions st'
  = [mkInteraction "a1" "disliked" (Some "rocq") "Alpha" "27" 330 1000 Example.clock] /\
  user_preferences st' = no_preferences.
Proof.
  destruct (record_interaction_logs_every_action
              (Example.env_with Example.two_videos) initial_state defaults
              (Example.video "a1" "Learning Rocq" "Alpha") "disliked" (Some "rocq")
              eq_refl eq_refl)
    as (Hlog & _ & _ & _ & Hsame).
  split; [exact Hlog | apply Hsame; reflexivity].
Defined.

(** X14.  A learn call changes at most five preferences: the preferred
    channels, categories and keywords and the two bounds on the duration.
    The languages, the excluded channels, the minimum of views, the
    maximum age and the disliked keywords are never changed.  A watched
    video changes neither the categories nor the keywords, a clicked one
    changes neither bound, and any other action than clicked, liked and
    watched changes nothing. *)
Theorem learning_leaves_the_other_preferences (env : Env) (st : State)
    (s : PreferenceSet) (video : VideoRecord) (action : string)
    (query : option string) :
  effective_preferences st = to_dict s ->
  exists s',
    fst (UserPreferenceEngine.get_preferences (learn_call env st (video, action, query)))
    = Ok (to_dict s') /\
    languages_of s' = languages_of s /\
    excluded_of s' = excluded_of s /\
    min_views_of s' = min_views_of s /\
    max_age_days_of s' = max_age_days_of s /\
    disliked_of s' = disliked_of s /\
    (action = "watched" ->
     categories_of s' = categories_of s /\ keywords_of s' = keywords_of s) /\
    (action = "clicked" ->
     min_duration_of s' = min_duration_of s /\ max_duration_of s' = max_duration_of s) /\
    (learnable action = false -> s' = s).
Proof.
  intros Heff.
  rewrite get_preferences_eq, (learn_call_reads env st s video action query Heff).
  cbn [fst]. eexists. split; [reflexivity|].
  destruct (db_error st); [now repeat split|].
  unfold after_interaction.
  destruct (learnable action) eqn:Hl; [|now repeat split].
  cbn [Learner.learned languages_of excluded_of min_views_of max_age_days_of
         disliked_of categories_of keywords_of min_duration_of max_duration_of].
  repeat split; try congruence; subst action.
  - unfold Learner.categories_after.
    change (Py.mem "watched" ["clicked"; "liked"]) with false.
    now rewrite andb_false_r.
  - unfold Learner.keywords_after.
    change (Py.mem "watched" ["clicked"; "liked"]) with false.
    now rewrite andb_false_r.
  - unfold Learner.min_duration_after.
    change (Py.mem "clicked" ["watched"; "liked"]) with false.
    now rewrite andb_false_r.
  - unfold Learner.max_duration_after.
    change (Py.mem "clicked" ["watched"; "liked"]) with false.
    now rewrite andb_false_r.
Qed.

(** The theorem on a liked video, from the defaults. *)
Lemma learning_leaves_the_other_preferences_witness :
  exists s',
    fst (UserPreferenceEngine.get_preferences
           (learn_call (Example.env_with Example.two_videos) initial_state
              (Example.video "a1" "Learning Rocq" "Alpha", "liked", None)))
    = Ok (to_dict s') /\
    languages_of s' = ["en"] /\ excluded_of s' = [] /\ disliked_of s' = [].
Proof.
  destruct (learning_leaves_the_other_preferences
              (Example.env_with Example.two_videos) initial_state defaults
              (Example.video "a1" "Learning Rocq" "Alpha") "liked" None eq_refl)
    as (s' & Hs' & Hl & He & _ & _ & Hd & _).
  exists s'. split; [exact Hs'|]. split; [exact Hl|]. split; [exact He | exact Hd].
Defined.

(* ================================================================= *)
(** ** The preferred categories *)

(** The category a video is filed under; the empty string is no
    category. *)
Definition category_name (video : VideoRecord) : string :=
  get_default (category_id video) "".

Lemma categories_of_after_interaction (video : VideoRecord) (action : string)
    (s : PreferenceSet) :
  categories_of (after_interaction video action s)
  = Learner.categories_after (category_name video) action (categories_of s).
Proof.
  unfold after_interaction. destruct (learnable action) eqn:H; [reflexivity|].
  unfold Learner.categories_after.
  rewrite (proj1 (not_learnable action H)). now rewrite andb_false_r.
Qed.

Lemma clicks_keep_every_category (videos : list VideoRecord) :
  forall s : PreferenceSet,
  NoDup (categories_of s ++ map category_name videos) ->
  ~ In "" (map category_name videos) ->
  categories_of (after_interactions (map clicked videos) s)
  = categories_of s ++ map category_name videos.
Proof.
  induction videos as [|v videos IH]; intros s Hnd Hne.
  - cbn. now rewrite app_nil_r.
  - cbn [map after_interactions fold_left clicked].
    change (fold_left _ (map clicked videos) ?x)
      with (after_interactions (map clicked videos) x).
    cbn [map] in Hnd, Hne.
    assert (Hstep : categories_of (after_interaction v "clicked" s)
                    = categories_of s ++ [category_name v]).
    { rewrite categories_of_after_interaction. unfold Learner.categories_after.
      assert (Ht : Py.truthy (category_name v) = true)
        by (apply truthy_iff; intros H; apply Hne; now left).
      assert (Hnew : Py.mem (category_name v) (categories_of s) = false).
      { apply mem_false_iff. intros Hin.
        apply NoDup_remove_2 in Hnd. apply Hnd, in_or_app. now left. }
      now rewrite Ht, Hnew. }
    rewrite IH.
    + now rewrite Hstep, <- app_assoc.
    + now rewrite Hstep, <- app_assoc.
    + intros H. apply Hne. now right.
Qed.

(** X15.  The preferred categories only grow, and without bound.  A learn
    call appends the category of the video when it is not empty, not yet
    in the list, and the action is clicked or liked on a database that
    works; in every other case the list stays as it is.  Nothing is ever
    removed or moved: clicking, from the defaults, on any number of videos
    whose categories are all different and not empty leaves all these
    categories, in the order of the clicks. *)
Theorem preferred_categories_only_grow (env : Env) :
  (forall (st : State) (s : PreferenceSet) (video : VideoRecord) (action : string)
          (query : option string),
      effective_preferences st = to_dict s ->
      exists s',
        fst (UserPreferenceEngine.get_preferences
               (learn_call env st (video, action, query)))
        = Ok (to_dict s') /\
        categories_of s'
        = if (UserPreferenceEngine.is_none (db_error st)
              && Py.truthy (category_name video)
              && Py.mem action ["clicked"; "liked"]
              && negb (Py.mem (category_name video) (categories_of s)))%bool
          then categories_of s ++ [category_name video]
          else categories_of s) /\
  (forall videos : list VideoRecord,
      NoDup (map category_name videos) ->
      ~ In "" (map category_name videos) ->
      exists p,
        fst (UserPreferenceEngine.get_preferences
               (learn_calls env (map clicked videos) initial_state))
        = Ok p /\
        preferred_categories p = Some (map category_name videos)).
Proof.
  split.
  - intros st s video action query Heff.
    rewrite get_preferences_eq, (learn_call_reads env st s video action query Heff).
    cbn [fst]. eexists. split; [reflexivity|].
    destruct (db_error st); [reflexivity|].
    rewrite categories_of_after_interaction. unfold Learner.categories_after.
    cbn [UserPreferenceEngine.is_none andb].
    destruct (Py.truthy (category_name video) && Py.mem action ["clicked"; "liked"])%bool;
      reflexivity.
  - intros videos Hnd Hne.
    destruct (learn_calls_learn env (map clicked videos) defaults initial_state
                eq_refl eq_refl) as [_ Heff].
    rewrite get_preferences_eq, Heff. cbn [fst].
    eexists. split; [reflexivity|]. cbn [to_dict preferred_categories].
    f_equal. now apply (clicks_keep_every_category videos defaults).
Qed.

(** The theorem on sixty videos of sixty categories: all sixty are
    kept. *)
Lemma preferred_categories_only_grow_witness :
  let videos :=
    map (fun n =>
           mkVideo (Some "id") (Some "Title") (Some "Alpha") None None None None None
             (Some (String (ascii_of_nat (65 + n)) EmptyString)))
        (seq 0 60) in
  exists p,
    fst (UserPreferenceEngine.get_preferences
           (learn_calls (Example.env_with Example.two_videos) (map clicked videos)
              initial_state))
    = Ok p /\
    preferred_categories p = Some (map category_name videos).
Proof.
  apply (proj2 (preferred_categories_only_grow (Example.env_with Example.two_videos))).
  - apply all_different_NoDup. vm_compute. reflexivity.
  - apply mem_false_iff. vm_compute. reflexivity.
Defined.

(* ================================================================= *)
(** ** The learned lists as ordered sets *)

(** The three learned lists hold no entry twice, the channels and the
    categories never the empty name, and the keywords are at most 100. *)
Definition tidy (s : PreferenceSet) : Prop :=
  NoDup (channels_of s) /\ ~ In "" (channels_of s) /\
  NoDup (categories_of s) /\ ~ In "" (categories_of s) /\
  NoDup (keywords_of s) /\ (List.length (keywords_of s) <= 100)%nat.

Lemma NoDup_snoc (x : string) (l : list string) :
  NoDup l -> Py.mem x l = false -> NoDup (l ++ [x]).
Proof.
  intros Hl Hx. apply NoDup_app; [exact Hl | repeat constructor; easy |].
  intros a Ha [<-|[]]. apply mem_false_iff in Hx. now apply Hx.
Qed.

Lemma NoDup_skipn {A : Type} (n : nat) (l : list A) : NoDup l -> NoDup (skipn n l).
Proof.
  intros H. rewrite <- (firstn_skipn n l) in H. now apply NoDup_app_remove_l in H.
Qed.

Lemma channels_object_tidy (channel action : string) (l : list string) :
  NoDup l -> ~ In "" l ->
  NoDup (channels_object channel action l) /\ ~ In "" (channels_object channel action l).
Proof.
  intros Hnd Hne. unfold channels_object.
  destruct (Py.truthy channel) eqn:Ht; cbn [andb]; [|now split].
  destruct (Py.mem action _); [|now split].
  destruct (Py.mem channel l) eqn:Hm; cbn [negb]; [now split|].
  split; [now apply NoDup_snoc|].
  intros Hin. apply in_app_or in Hin as [Hin | [-> | []]]; [now apply Hne | discriminate].
Qed.

Lemma channels_after_object (channel action : string) (l : list string) :
  Learner.channels_after channel action l
  = Py.last_n 50 (channels_object channel action l) \/
  Learner.channels_after channel action l = channels_object channel action l.
Proof.
  unfold Learner.channels_after, channels_object.
  destruct (_ && _)%bool; [|now right].
  destruct (negb _); [|now right].
  cbv zeta. destruct (50 <? _); [now left | now right].
Qed.

Lemma channels_after_tidy (channel action : string) (l : list string) :
  NoDup l -> ~ In "" l ->
  NoDup (Learner.channels_after channel action l) /\
  ~ In "" (Learner.channels_after channel action l).
Proof.
  intros Hnd Hne.
  destruct (channels_object_tidy channel action l Hnd Hne) as [Hnd' Hne'].
  destruct (channels_after_object channel action l) as [-> | ->]; [|now split].
  split; [now apply NoDup_skipn|].
  intros Hin. now apply last_n_incl in Hin.
Qed.

Lemma categories_after_tidy (category action : string) (l : list string) :
  NoDup l -> ~ In "" l ->
  NoDup (Learner.categories_after category action l) /\
  ~ In "" (Learner.categories_after category action l).
Proof.
  intros Hnd Hne. unfold Learner.categories_after.
  destruct (Py.truthy category) eqn:Ht; cbn [andb]; [|now split].
  destruct (Py.mem action _); [|now split].
  destruct (Py.mem category l) eqn:Hm; cbn [negb]; [now split|].
  split; [now apply NoDup_snoc|].
  intros Hin. apply in_app_or in Hin as [Hin | [-> | []]]; [now apply Hne | discriminate].
Qed.

Lemma extended_to_100_tidy (l candidates : list string) :
  NoDup l -> (List.length l <= 100)%nat ->
  NoDup (extended_to_100 l candidates) /\
  (List.length (extended_to_100 l candidates) <= 100)%nat.
Proof.
  intros Hnd Hlen. unfold extended_to_100. split.
  - apply NoDup_app; [exact Hnd | apply firstn_NoDup, first_occurrences_NoDup |].
    intros a Ha Hin. now apply firstn_incl, first_occurrences_new in Hin as [Hnew _].
  - rewrite length_app, length_firstn. lia.
Qed.

Lemma keywords_after_tidy (title action : string) (l : list string) :
  NoDup l -> (List.length l <= 100)%nat ->
  NoDup (Learner.keywords_after title action l) /\
  (List.length (Learner.keywords_after title action l) <= 100)%nat.
Proof.
  intros Hnd Hlen. unfold Learner.keywords_after.
  destruct (_ && _)%bool; [|now split].
  rewrite keywords_loop_closed_form. now apply extended_to_100_tidy.
Qed.

Lemma tidy_learned (video : VideoRecord) (action : string) (s : PreferenceSet) :
  tidy s -> tidy (Learner.learned video action s).
Proof.
  intros (Hc & Hce & Hg & Hge & Hk & Hkl).
  unfold tidy. cbn [Learner.learned channels_of categories_of keywords_of].
  destruct (channels_after_tidy (get_default (channel video) "") action _ Hc Hce).
  destruct (categories_after_tidy (get_default (category_id video) "") action _ Hg Hge).
  destruct (keywords_after_tidy (Py.lower (get_default (title video) "")) action _ Hk Hkl).
  tauto.
Qed.

Lemma tidy_after_interaction (video : VideoRecord) (action : string) (s : PreferenceSet) :
  tidy s -> tidy (after_interaction video action s).
Proof.
  intros H. unfold after_interaction.
  destruct (learnable action); [now apply tidy_learned | exact H].
Qed.

(** The three lists of the default preferences after a learn call. *)
Lemma defaults_after_lists (video : VideoRecord) (action : string)
    (s d : PreferenceSet) (rows : Preferences) :
  exists d' : PreferenceSet,
    defaults_after video action s rows (to_dict d) = to_dict d' /\
    channels_of d'
    = (if UserPreferenceEngine.is_none (preferred_channels rows)
       then channels_object (get_default (channel video) "") action (channels_of s)
       else channels_of d) /\
    categories_of d'
    = (if UserPreferenceEngine.is_none (preferred_categories rows)
       then Learner.categories_after (get_default (category_id video) "") action
              (categories_of s)
       else categories_of d) /\
    keywords_of d'
    = (if UserPreferenceEngine.is_none (preferred_keywords rows)
       then Learner.keywords_after (Py.lower (get_default (title video) "")) action
              (keywords_of s)
       else keywords_of d).
Proof.
  unfold defaults_after, written_through. cbn [get_list].
  destruct (UserPreferenceEngine.is_none (preferred_channels rows)),
    (UserPreferenceEngine.is_none (preferred_categories rows)),
    (UserPreferenceEngine.is_none (preferred_keywords rows));
    cbv beta iota delta
      [set_list set_preferred_channels set_preferred_categories
         set_preferred_keywords to_dict preferred_channels preferred_categories
         min_duration max_duration preferred_languages exclude_channels min_views
         max_age_days preferred_keywords disliked_keywords];
    match goal with
    | |- exists d', mkPrefs (Some ?a) (Some ?b) (Some ?c) (Some ?e) (Some ?f)
                      (Some ?g) (Some ?h) (Some ?i) (Some ?j) (Some ?k) = _ /\ _ =>
        exists (mkPreferenceSet a b c e f g h i j k)
    end; repeat split.
Qed.

(** What the learn calls keep true of a state: the preferences read from
    the database, and the default preferences read when it fails, have
    every key and are tidy. *)
Definition kept_tidy (st : State) : Prop :=
  exists s d : PreferenceSet,
    overlay (user_preferences st) (default_preferences st) = to_dict s /\
    default_preferences st = to_dict d /\
    tidy s /\ tidy d.

Lemma initial_state_kept_tidy : kept_tidy initial_state.
Proof.
  exists defaults, defaults. unfold tidy. cbn.
  repeat split; try constructor; try lia; auto.
Qed.

Lemma learn_call_kept_tidy (env : Env) (st : State) (ev : Event) :
  kept_tidy st -> kept_tidy (learn_call env st ev).
Proof.
  intros Hst.
  destruct (db_error st) as [e|] eqn:Hdb;
    [now rewrite (learn_call_failing_store env st ev e Hdb)|].
  destruct Hst as (s & d & Hover & Hd & Hs & Hdt).
  destruct ev as [[video action] query].
  assert (Heff : effective_preferences st = to_dict s)
    by (unfold effective_preferences; now rewrite Hdb).
  unfold learn_call.
  rewrite (record_interaction_eq env video action query s st Hdb Heff). cbn [snd].
  destruct (learnable action) eqn:Hl; [|now exists s, d].
  destruct (defaults_after_lists video action s d (user_preferences st))
    as (d' & Hd' & Hch & Hcat & Hkw).
  exists (Learner.learned video action s), d'.
  cbn [user_preferences default_preferences set_user_preferences with_defaults
         set_default_preferences add_interaction].
  rewrite Hd, Hd'.
  split; [reflexivity|]. split; [reflexivity|].
  split; [now apply tidy_learned|].
  destruct Hs as (Hc & Hce & Hg & Hge & Hk & Hkl).
  destruct Hdt as (Hc' & Hce' & Hg' & Hge' & Hk' & Hkl').
  unfold tidy. rewrite Hch, Hcat, Hkw.
  destruct (channels_object_tidy (get_default (channel video) "") action _ Hc Hce).
  destruct (categories_after_tidy (get_default (category_id video) "") action _ Hg Hge).
  destruct (keywords_after_tidy (Py.lower (get_default (title video) "")) action _ Hk Hkl).
  destruct (UserPreferenceEngine.is_none (preferred_channels _)),
    (UserPreferenceEngine.is_none (preferred_categories _)),
    (UserPreferenceEngine.is_none (preferred_keywords _)); tauto.
Qed.

Lemma learn_calls_under_kept_tidy (env : Env) (calls : list Call) :
  forall st : State, kept_tidy st -> kept_tidy (learn_calls_under env calls st).
Proof.
  induction calls as [|call calls IH]; intros st Hst; [exact Hst|].
  cbn [learn_calls_under fold_left]. apply IH.
  unfold learn_call_under. apply learn_call_kept_tidy.
  destruct Hst as (s & d & H). now exists s, d.
Qed.

Lemma kept_tidy_read (st : State) (at_read : option Exception) :
  kept_tidy st ->
  exists s : PreferenceSet,
    fst (UserPreferenceEngine.get_preferences (set_db_error at_read st))
    = Ok (to_dict s) /\
    tidy s.
Proof.
  intros (s & d & Hover & Hd & Hs & Hdt).
  rewrite get_preferences_eq. unfold effective_preferences.
  cbn [fst db_error set_db_error user_preferences default_preferences].
  destruct at_read; [exists d | exists s]; split; assumption || congruence.
Qed.

(** X16.  The preferred channels, categories and keywords are ordered
    sets: a learn call never puts an entry in a list that holds it
    already, and never puts the empty name among the channels or the
    categories.  So after any sequence of learn calls that starts from the
    defaults, whether the database works or fails during each call and
    when the preferences are read, no list holds an entry twice, and the
    channels and categories hold no empty name. *)
Theorem learned_lists_hold_no_entry_twice (env : Env) :
  (forall (st : State) (s : PreferenceSet) (ev : Event),
      effective_preferences st = to_dict s ->
      NoDup (channels_of s) /\ ~ In "" (channels_of s) ->
      NoDup (categories_of s) /\ ~ In "" (categories_of s) ->
      NoDup (keywords_of s) ->
      exists s',
        fst (UserPreferenceEngine.get_preferences (learn_call env st ev))
        = Ok (to_dict s') /\
        (NoDup (channels_of s') /\ ~ In "" (channels_of s')) /\
        (NoDup (categories_of s') /\ ~ In "" (categories_of s')) /\
        NoDup (keywords_of s')) /\
  (forall (calls : list Call) (at_read : option Exception),
      exists p channels categories keywords,
        fst (UserPreferenceEngine.get_preferences
               (set_db_error at_read (learn_calls_under env calls initial_state)))
        = Ok p /\
        preferred_channels p = Some channels /\
        preferred_categories p = Some categories /\
        preferred_keywords p = Some keywords /\
        NoDup channels /\ ~ In "" channels /\
        NoDup categories /\ ~ In "" categories /\
        NoDup keywords).
Proof.
  split.
  - intros st s [[video action] query] Heff [Hc Hce] [Hg Hge] Hk.
    rewrite get_preferences_eq, (learn_call_reads env st s video action query Heff).
    cbn [fst]. eexists. split; [reflexivity|].
    destruct (db_error st); [now repeat split|].
    unfold after_interaction. destruct (learnable action); [|now repeat split].
    cbn [Learner.learned channels_of categories_of keywords_of].
    split; [now apply channels_after_tidy|].
    split; [now apply categories_after_tidy|].
    unfold Learner.keywords_after. destruct (_ && _)%bool; [|exact Hk].
    rewrite keywords_loop_closed_form. unfold extended_to_100.
    apply NoDup_app; [exact Hk | apply firstn_NoDup, first_occurrences_NoDup |].
    intros a Ha Hin. now apply firstn_incl, first_occurrences_new in Hin as [Hnew _].
  - intros calls at_read.
    destruct (kept_tidy_read _ at_read
                (learn_calls_under_kept_tidy env calls _ initial_state_kept_tidy))
      as (s & -> & Hc & Hce & Hg & Hge & Hk & _).
    eexists _, _, _, _. split; [reflexivity|].
    cbn [to_dict preferred_channels preferred_categories preferred_keywords].
    repeat split; assumption.
Qed.

(** The theorem on the same video liked twice, from the defaults. *)
Lemma learned_lists_hold_no_entry_twice_witness :
  exists s',
    fst (UserPreferenceEngine.get_preferences
           (learn_call (Example.env_with Example.two_videos)
              (learn_call (Example.env_with Example.two_videos) initial_state
                 (Example.video "a1" "Learning Rocq" "Alpha", "liked", None))
              (Example.video "a1" "Learning Rocq" "Alpha", "liked", None)))
    = Ok (to_dict s') /\
    NoDup (channels_of s') /\ NoDup (keywords_of s').
Proof.
  destruct (proj1 (learned_lists_hold_no_entry_twice
                     (Example.env_with Example.two_videos))
              (learn_call (Example.env_with Example.two_videos) initial_state
                 (Example.video "a1" "Learning Rocq" "Alpha", "liked", None))
              (mkPreferenceSet ["Alpha"] ["27"] 0 7200 ["en"] [] 0 365
                 ["learning"; "rocq"] [])
              (Example.video "a1" "Learning Rocq" "Alpha", "liked", None))
    as (s' & Hs' & [Hc _] & _ & Hk).
  - reflexivity.
  - split; [apply all_different_NoDup; reflexivity | apply mem_false_iff; reflexivity].
  - split; [apply all_different_NoDup; reflexivity | apply mem_false_iff; reflexivity].
  - apply all_different_NoDup. reflexivity.
  - exists s'. split; [exact Hs'|]. split; [exact Hc | exact Hk].
Defined.

(** X17.  After any sequence of learn calls that starts from the defaults
    the preferred keywords are at most 100, whether the database works or
    fails during each call and when the preferences are read. *)
Theorem preferred_keywords_stay_capped (env : Env) (calls : list Call)
    (at_read : option Exception) :
  exists p keywords,
    fst (UserPreferenceEngine.get_preferences
           (set_db_error at_read (learn_calls_under env calls initial_state)))
    = Ok p /\
    preferred_keywords p = Some keywords /\
    (List.length keywords <= 100)%nat.
Proof.
  destruct (kept_tidy_read _ at_read
              (learn_calls_under_kept_tidy env calls _ initial_state_kept_tidy))
    as (s & -> & _ & _ & _ & _ & _ & Hk).
  eexists _, _. split; [reflexivity|]. split; [reflexivity | exact Hk].
Qed.

(* ================================================================= *)
(** ** Learning and the filter *)

Lemma tighter_before_learning (video : VideoRecord) (action : string)
    (s : PreferenceSet) :
  max_duration_of s <= 14400 ->
  tighter (to_dict s) (to_dict (after_interaction video action s)).
Proof.
  intros Hmax.
  destruct (durations_of_after_interaction video action s) as [Emin Emax].
  assert (Hsame : excluded_of (after_interaction video action s) = excluded_of s /\
                  min_views_of (after_interaction video action s) = min_views_of s /\
                  max_age_days_of (after_interaction video action s) = max_age_days_of s /\
                  disliked_of (after_interaction video action s) = disliked_of s).
  { unfold after_interaction. destruct (learnable action); now repeat split. }
  destruct Hsame as (He & Hv & Ha & Hd).
  unfold tighter.
  cbn [to_dict exclude_channels min_duration max_duration min_views max_age_days
         disliked_keywords get_default].
  rewrite He, Hv, Ha, Hd, Emin, Emax.
  split; [apply incl_refl|]. split; [|split; [|split; [|split]]];
    try apply incl_refl; try lia.
  - destruct (drifts video action && (observed_duration video <? min_duration_of s))%bool
      eqn:Hc; [|lia].
    apply andb_true_iff in Hc as [Hdr Hlt]. unfold drifts in Hdr.
    apply andb_true_iff in Hdr as [Hpos _]. rewrite Z.ltb_lt in *. lia.
  - destruct (drifts video action && (max_duration_of s <? observed_duration video))%bool;
      lia.
Qed.

(** X18.  Learning never narrows the filter.  When the maximum duration
    in force is at most 14400, as it is from the defaults, every video the
    filter kept before a learn call it keeps after it, and the filter with
    the preferences of before, run on the result of after, gives the
    result of before. *)
Theorem learning_never_narrows_the_filter (env : Env) (st : State) (s : PreferenceSet)
    (ev : Event) (videos : list VideoRecord) :
  effective_preferences st = to_dict s ->
  max_duration_of s <= 14400 ->
  let before :=
    PersonalizedSearchEngine._apply_preference_filters env videos
      (effective_preferences st) in
  let after :=
    PersonalizedSearchEngine._apply_preference_filters env videos
      (effective_preferences (learn_call env st ev)) in
  incl before after /\
  (List.length before <= List.length after)%nat /\
  before
  = PersonalizedSearchEngine._apply_preference_filters env after
      (effective_preferences st).
Proof.
  intros Heff Hmax before after. subst before after.
  destruct ev as [[video action] query].
  rewrite (learn_call_reads env st s video action query Heff), Heff.
  rewrite !apply_preference_filters_is_filter.
  set (s' := match db_error st with
             | Some _ => s
             | None => after_interaction video action s
             end).
  assert (Ht : tighter (to_dict s) (to_dict s')).
  { unfold s'. destruct (db_error st).
    - unfold tighter. repeat split; try apply incl_refl; lia.
    - now apply tighter_before_learning. }
  assert (E : filter (passes env (to_dict s)) videos
              = filter (passes env (to_dict s)) (filter (passes env (to_dict s')) videos))
    by (apply filter_refines; intros v; now apply passes_tighter).
  split; [|split; [|exact E]].
  - rewrite E. apply incl_filter.
  - rewrite E. apply filter_length_le.
Qed.

(** The theorem on a liked video of three hours: after it a video of two
    hours and five minutes passes the filter, which it did not before. *)
Lemma learning_never_narrows_the_filter_witness :
  let env := Example.env_with Example.two_videos in
  let long := mkVideo (Some "v") (Some "Long talk") (Some "Alpha") None None
                (Some "PT3H") None None None in
  let longer := mkVideo (Some "w") (Some "Lecture") (Some "Beta") None None
                  (Some "PT2H5M") None None None in
  let short := Example.video "a1" "Learning Rocq" "Alpha" in
  PersonalizedSearchEngine._apply_preference_filters env [short; longer]
    (effective_preferences initial_state) = [short] /\
  PersonalizedSearchEngine._apply_preference_filters env [short; longer]
    (effective_preferences (learn_call env initial_state (long, "liked", None)))
  = [short; longer] /\
  incl
    (PersonalizedSearchEngine._apply_preference_filters env [short; longer]
       (effective_preferences initial_state))
    (PersonalizedSearchEngine._apply_preference_filters env [short; longer]
       (effective_preferences (learn_call env initial_state (long, "liked", None)))).
Proof.
  split; [reflexivity|]. split; [reflexivity|].
  apply (learning_never_narrows_the_filter (Example.env_with Example.two_videos)
           initial_state defaults
           (mkVideo (Some "v") (Some "Long talk") (Some "Alpha") None None
              (Some "PT3H") None None None, "liked", None)
           [Example.video "a1" "Learning Rocq" "Alpha";
            mkVideo (Some "w") (Some "Lecture") (Some "Beta") None None
              (Some "PT2H5M") None None None]).
  - reflexivity.
  - simpl. lia.
Defined.

(* ================================================================= *)
(** ** The sign of a duration and components out of order *)

Section DurationSign.

Local Notation "a +++ b" := (String.append a b) (at level 60, right associativity).

Lemma char_in_append (c : ascii) (a b : string) :
  Py.char_in c (a +++ b) = (Py.char_in c a || Py.char_in c b)%bool.
Proof.
  induction a as [|d a IH]; [reflexivity|].
  cbn [String.append Py.char_in]. now rewrite IH, orb_assoc.
Qed.

Lemma lstrip_by_suffix (p : ascii -> bool) (s : string) :
  exists blanks, s = blanks +++ Py.lstrip_by p s /\
                 forall c, Py.char_in c blanks = true -> p c = true.
Proof.
  induction s as [|d s IH].
  - exists "". now split.
  - cbn [Py.lstrip_by]. destruct (p d) eqn:Hd.
    + destruct IH as (blanks & E & Hb). exists (String d blanks). split.
      * cbn [String.append]. now rewrite <- E.
      * intros c. cbn [Py.char_in]. intros H.
        apply orb_true_iff in H as [H|H]; [|now apply Hb].
        apply Ascii.eqb_eq in H. now subst.
    + exists "". now split.
Qed.

Lemma rstrip_by_prefix (p : ascii -> bool) (s : string) :
  exists blanks, s = Py.rstrip_by p s +++ blanks /\
                 forall c, Py.char_in c blanks = true -> p c = true.
Proof.
  induction s as [|d s IH].
  - exists "". now split.
  - destruct IH as (blanks & E & Hb). cbn [Py.rstrip_by].
    destruct (Py.rstrip_by p s) as [|r0 r] eqn:Hr.
    + cbn [String.append] in E. subst blanks.
      destruct (p d) eqn:Hd.
      * exists (String d s). split; [reflexivity|].
        intros c. cbn [Py.char_in]. intros H.
        apply orb_true_iff in H as [H|H]; [|now apply Hb].
        apply Ascii.eqb_eq in H. now subst.
      * exists s. now split.
    + exists blanks. split; [|exact Hb].
      cbn [String.append] in *. now rewrite <- E.
Qed.

(** What [int] reads once the blanks around the numeral are removed. *)
Lemma numeral_of (s : string) :
  exists before after,
    s = before +++ Py.rstrip_by Py.is_int_space (Py.lstrip_by Py.is_int_space s)
          +++ after /\
    (forall c, Py.char_in c before = true -> Py.is_int_space c = true) /\
    (forall c, Py.char_in c after = true -> Py.is_int_space c = true).
Proof.
  destruct (lstrip_by_suffix Py.is_int_space s) as (before & E1 & H1).
  destruct (rstrip_by_prefix Py.is_int_space (Py.lstrip_by Py.is_int_space s))
    as (after & E2 & H2).
  exists before, after. split; [|now split].
  now rewrite <- E2.
Qed.

Lemma int_signed_cases (c : ascii) (s : string) :
  Py.int_signed (String c s)
  = if Ascii.eqb c "+" then Py.int_digits s 0 false
    else if Ascii.eqb c "-" then option_map Z.opp (Py.int_digits s 0 false)
         else Py.int_digits (String c s) 0 false.
Proof.
  destruct c as [[] [] [] [] [] [] [] []]; reflexivity.
Qed.

Lemma digit_value_nonnegative (c : ascii) : Py.is_digit c = true -> 0 <= Py.digit_value c.
Proof.
  unfold Py.is_digit, Py.between, Py.digit_value. intros H.
  apply andb_true_iff in H as [H _]. apply N.leb_le in H. lia.
Qed.

Lemma int_digits_nonnegative (s : string) :
  forall (acc : Z) (after_digit : bool) (n : Z),
  0 <= acc -> Py.int_digits s acc after_digit = Some n -> 0 <= n.
Proof.
  induction s as [|c s IH]; intros acc after_digit n Hacc; cbn [Py.int_digits].
  - destruct after_digit; [|discriminate]. now intros [= <-].
  - destruct (Py.is_digit c) eqn:Hc.
    + apply IH. pose proof (digit_value_nonnegative c Hc). lia.
    + destruct (Ascii.eqb c "_"); [|discriminate].
      destruct after_digit; [|discriminate]. now apply IH.
Qed.

Lemma int_digits_rejects (c : ascii) (s : string) :
  Py.is_digit c = false -> c <> "_"%char -> Py.char_in c s = true ->
  forall (acc : Z) (after_digit : bool), Py.int_digits s acc after_digit = None.
Proof.
  intros Hd Hu. induction s as [|d s IH]; [discriminate|].
  cbn [Py.char_in Py.int_digits]. intros Hin acc after_digit.
  destruct (Ascii.eqb c d) eqn:Hcd.
  - apply Ascii.eqb_eq in Hcd. subst d. rewrite Hd.
    apply Ascii.eqb_neq in Hu. now rewrite Hu.
  - cbn [orb] in Hin. destruct (Py.is_digit d); [now apply IH|].
    destruct (Ascii.eqb d "_"); [|reflexivity].
    destruct after_digit; [now apply IH | reflexivity].
Qed.

Lemma int_nonnegative (s : string) (n : Z) :
  Py.char_in "-" s = false -> Py.int s = Ok n -> 0 <= n.
Proof.
  intros Hs. unfold Py.int.
  destruct (numeral_of s) as (before & after & E & _ & _).
  set (numeral := Py.rstrip_by Py.is_int_space (Py.lstrip_by Py.is_int_space s)) in *.
  assert (Hnum : Py.char_in "-" numeral = false).
  { rewrite E, !char_in_append in Hs.
    apply orb_false_iff in Hs as [_ Hs]. now apply orb_false_iff in Hs as [Hs _]. }
  destruct (Py.int_signed numeral) as [m|] eqn:Hm; [|discriminate].
  intros [= <-]. destruct numeral as [|c numeral']; [discriminate|].
  rewrite int_signed_cases in Hm. cbn [Py.char_in] in Hnum.
  apply orb_false_iff in Hnum as [Hc _].
  rewrite (Ascii.eqb_sym "-"%char c) in Hc. rewrite Hc in Hm.
  destruct (Ascii.eqb c "+"); now apply int_digits_nonnegative in Hm.
Qed.

(** A character that is neither a digit, nor an underscore, nor a blank,
    nor a sign makes [int] raise wherever it stands. *)
Lemma int_rejects (c : ascii) (s : string) :
  Py.is_digit c = false -> c <> "_"%char -> Py.is_int_space c = false ->
  c <> "+"%char -> c <> "-"%char ->
  Py.char_in c s = true ->
  exists e, Py.int s = Raise e.
Proof.
  intros Hd Hu Hsp Hplus Hminus Hin. unfold Py.int.
  destruct (numeral_of s) as (before & after & E & Hb & Ha).
  set (numeral := Py.rstrip_by Py.is_int_space (Py.lstrip_by Py.is_int_space s)) in *.
  assert (Hnum : Py.char_in c numeral = true).
  { rewrite E, !char_in_append in Hin.
    apply orb_true_iff in Hin as [Hin|Hin]; [apply Hb in Hin; congruence|].
    apply orb_true_iff in Hin as [Hin|Hin]; [exact Hin | apply Ha in Hin; congruence]. }
  assert (Hnone : Py.int_signed numeral = None); [|rewrite Hnone; eauto].
  destruct numeral as [|d numeral']; [discriminate|].
  rewrite int_signed_cases.
  destruct (Ascii.eqb d "+") eqn:Hdp; [|destruct (Ascii.eqb d "-") eqn:Hdm].
  - apply Ascii.eqb_eq in Hdp. subst d. cbn [Py.char_in] in Hnum.
    apply Ascii.eqb_neq in Hplus. rewrite Hplus in Hnum.
    now apply (int_digits_rejects c).
  - apply Ascii.eqb_eq in Hdm. subst d. cbn [Py.char_in] in Hnum.
    apply Ascii.eqb_neq in Hminus. rewrite Hminus in Hnum.
    now rewrite (int_digits_rejects c numeral' Hd Hu Hnum).
  - now apply (int_digits_rejects c).
Qed.

Lemma split_once_parts (sep : ascii) (s : string) :
  forall before after : string,
  Py.split_once sep s = Some (before, after) ->
  s = before +++ String sep after /\ Py.char_in sep before = false.
Proof.
  induction s as [|c s IH]; intros before after; cbn [Py.split_once]; [discriminate|].
  destruct (Ascii.eqb c sep) eqn:Hc.
  - intros [= <- <-]. apply Ascii.eqb_eq in Hc. now subst.
  - destruct (Py.split_once sep s) as [[b a]|]; [|discriminate].
    intros [= <- <-]. destruct (IH b a eq_refl) as [-> Hb].
    split; [reflexivity|]. cbn [Py.char_in].
    rewrite Ascii.eqb_sym, Hc. exact Hb.
Qed.

Lemma before_first_part (sep : ascii) (s : string) :
  exists rest, s = Py.before_first sep s +++ rest.
Proof.
  induction s as [|c s IH]; [now exists ""|].
  cbn [Py.before_first]. destruct (Ascii.eqb c sep).
  - now exists (String c s).
  - destruct IH as [rest E]. exists rest. cbn [String.append]. now rewrite <- E.
Qed.

Lemma drop_part (n : nat) (s : string) : exists start, s = start +++ Py.drop n s.
Proof.
  revert s. induction n as [|n IH]; intros s; [now exists ""|].
  destruct s as [|c s]; [now exists ""|].
  destruct (IH s) as [start E]. exists (String c start).
  cbn [Py.drop String.append]. now rewrite <- E.
Qed.

Lemma component_is_not_negative (sep : ascii) (factor : Z) (text : string) (total : Z)
    (r : Z * string) :
  0 <= factor -> 0 <= total -> Py.char_in "-" text = false ->
  (if Py.contains (String sep EmptyString) text then
     match Py.split_once sep text with
     | Some (numeral, rest) =>
         Py.bind (Py.int numeral) (fun n => Ok (total + n * factor, rest))
     | None => Raise (ValueError "not enough values to unpack")
     end
   else Ok (total, text)) = Ok r ->
  0 <= fst r /\ Py.char_in "-" (snd r) = false.
Proof.
  intros Hfactor Htotal Htext.
  destruct (Py.contains _ text); [|now intros [= <-]].
  destruct (Py.split_once sep text) as [[numeral rest]|] eqn:Hsplit; [|discriminate].
  apply split_once_parts in Hsplit as [-> _].
  rewrite char_in_append in Htext. cbn [Py.char_in] in Htext.
  apply orb_false_iff in Htext as [Hnum Hrest].
  apply orb_false_iff in Hrest as [_ Hrest].
  destruct (Py.int numeral) as [n|] eqn:Hn; [|discriminate].
  intros [= <-]. apply int_nonnegative in Hn; [|exact Hnum].
  split; [cbn [fst]; nia | exact Hrest].
Qed.

(** X19.  The duration of a string without a minus sign is never
    negative, for both copies of the parser. *)
Theorem duration_without_minus_sign_is_not_negative (s : string) :
  Py.char_in "-" s = false ->
  0 <= PersonalizedSearchEngine._parse_duration s /\
  0 <= UserPreferenceEngine._parse_duration s.
Proof.
  intros Hs.
  assert (H : 0 <= PersonalizedSearchEngine._parse_duration s);
    [|split; [exact H | rewrite parse_duration_shared; exact H]].
  unfold PersonalizedSearchEngine._parse_duration,
    PersonalizedSearchEngine._parse_duration_try.
  destruct (negb (Py.startswith s "PT")); [cbn; lia|].
  destruct (drop_part 2 s) as [start E].
  assert (Hbody : Py.char_in "-" (Py.drop 2 s) = false)
    by (rewrite E, char_in_append in Hs; now apply orb_false_iff in Hs).
  clear E Hs. set (body := Py.drop 2 s) in *. clearbody body. cbv zeta.
  match goal with
  | |- 0 <= Py.try_except (Py.bind ?m _) _ =>
      destruct m as [[total1 text1]|] eqn:H1; [|cbn; lia]
  end.
  apply component_is_not_negative in H1 as [Htotal1 Htext1]; [|lia|lia|exact Hbody].
  cbn [fst snd] in Htotal1, Htext1. cbn beta iota delta [Py.bind].
  match goal with
  | |- 0 <= Py.try_except (Py.bind ?m _) _ =>
      destruct m as [[total2 text2]|] eqn:H2; [|cbn; lia]
  end.
  apply component_is_not_negative in H2 as [Htotal2 Htext2]; [|lia|lia|exact Htext1].
  cbn [fst snd] in Htotal2, Htext2. cbn beta iota delta [Py.bind].
  destruct (Py.contains "S" text2); [|cbn; lia].
  destruct (before_first_part "S" text2) as [tail E].
  assert (Hsec : Py.char_in "-" (Py.before_first "S" text2) = false)
    by (rewrite E, char_in_append in Htext2; now apply orb_false_iff in Htext2).
  destruct (Py.int (Py.before_first "S" text2)) as [sec|] eqn:Hsecs; [|cbn; lia].
  apply int_nonnegative in Hsecs; [|exact Hsec]. cbn. lia.
Qed.

(** The theorem on a duration of ninety minutes. *)
Lemma duration_without_minus_sign_is_not_negative_witness :
  0 <= PersonalizedSearchEngine._parse_duration "PT1H30M" /\
  0 <= UserPreferenceEngine._parse_duration "PT1H30M".
Proof.
  apply (duration_without_minus_sign_is_not_negative "PT1H30M"). reflexivity.
Defined.

(** A component of a duration: a numeral closed by its marker, or
    nothing. *)
Definition component (numeral : option string) (marker : ascii) (rest : string)
  : string :=
  match numeral with
  | Some x => x +++ String marker rest
  | None => rest
  end.

(** The text in which the marker of a component is looked for first: the
    numeral when there is one, all that follows otherwise. *)
Definition marker_free (numeral : option string) (marker : ascii) (rest : string)
  : Prop :=
  Py.char_in marker (get_default numeral rest) = false.

Definition component_value (numeral : option string) : result Z :=
  match numeral with
  | Some x => Py.int x
  | None => Ok 0
  end.

Lemma component_read (numeral : option string) (marker : ascii) (factor total : Z)
    (rest : string) :
  marker_free numeral marker rest ->
  (if Py.contains (String marker EmptyString) (component numeral marker rest) then
     match Py.split_once marker (component numeral marker rest) with
     | Some (text, rest') =>
         Py.bind (Py.int text) (fun n => Ok (total + n * factor, rest'))
     | None => Raise (ValueError "not enough values to unpack")
     end
   else Ok (total, component numeral marker rest))
  = Py.bind (component_value numeral) (fun n => Ok (total + n * factor, rest)).
Proof.
  unfold marker_free. destruct numeral as [x|]; cbn [component get_default]; intros H.
  - now rewrite contains_char_append, (split_once_append _ _ _ H).
  - rewrite contains_char_iff, H. cbn. now rewrite Z.add_0_r.
Qed.

(** X20.  A duration made of any of the three components, in the order
    hours, minutes, seconds, is the sum of those present, and 0 when one
    of their numerals does not convert; what follows the marker [S] is
    not read, and neither is what follows the last component when there
    are no seconds. *)
Theorem duration_of_any_components (h m sec : option string) (tail : string) :
  let after_minutes := component sec "S" tail in
  let after_hours := component m "M" after_minutes in
  marker_free h "H" after_hours ->
  marker_free m "M" after_minutes ->
  marker_free sec "S" tail ->
  PersonalizedSearchEngine._parse_duration ("PT" +++ component h "H" after_hours)
  = match component_value h, component_value m, component_value sec with
    | Ok a, Ok b, Ok c => a * 3600 + b * 60 + c
    | _, _, _ => 0
    end.
Proof.
  intros after_minutes after_hours Hh Hm Hs.
  unfold PersonalizedSearchEngine._parse_duration,
    PersonalizedSearchEngine._parse_duration_try.
  change ("PT" +++ component h "H" after_hours)
    with (String "P" (String "T" (component h "H" after_hours))).
  replace (Py.startswith (String "P" (String "T" _)) "PT") with true
    by (unfold Py.startswith; cbn; now destruct (component h "H" after_hours)).
  cbn [negb Py.drop]. cbv zeta.
  rewrite (component_read h "H" 3600 0 after_hours Hh).
  destruct (component_value h) as [a|e]; cbn [Py.bind Py.try_except];
    [|now destruct (component_value m), (component_value sec)].
  unfold after_hours.
  rewrite (component_read m "M" 60 (0 + a * 3600) after_minutes Hm).
  destruct (component_value m) as [b|e]; cbn [Py.bind Py.try_except];
    [|now destruct (component_value sec)].
  unfold after_minutes, marker_free in *.
  destruct sec as [x|]; cbn [component component_value get_default] in *.
  - change "S" with (String "S" EmptyString) at 1.
    rewrite contains_char_append, (before_first_append _ _ _ Hs).
    destruct (Py.int x); cbn [Py.bind Py.try_except]; lia.
  - change "S" with (String "S" EmptyString) at 1.
    rewrite contains_char_iff, Hs. cbn [Py.bind Py.try_except]. lia.
Qed.

(** The theorem on a duration of hours and seconds without minutes. *)
Lemma duration_of_any_components_witness :
  PersonalizedSearchEngine._parse_duration "PT2H15S" = 7215.
Proof.
  apply (duration_of_any_components (Some "2") None (Some "15") ""); reflexivity.
Defined.

(** X21.  A component out of order makes the duration 0: when the text
    before the first [H] holds a minutes or seconds marker, or when there
    is no [H] and the text before the first [M] holds a seconds marker,
    the numeral does not convert and the whole duration is 0, whatever
    the other components are. *)
Theorem duration_with_components_out_of_order (text rest : string) :
  (Py.char_in "H" text = false ->
   Py.char_in "M" text = true \/ Py.char_in "S" text = true ->
   PersonalizedSearchEngine._parse_duration ("PT" +++ text +++ String "H" rest) = 0) /\
  (Py.char_in "H" (text +++ String "M" rest) = false ->
   Py.char_in "M" text = false ->
   Py.char_in "S" text = true ->
   PersonalizedSearchEngine._parse_duration ("PT" +++ text +++ String "M" rest) = 0).
Proof.
  assert (Hprefix : forall body,
             PersonalizedSearchEngine._parse_duration ("PT" +++ body)
             = Py.try_except
                 (PersonalizedSearchEngine._parse_duration_try
                    (String "P" (String "T" body))) (fun _ => 0))
    by reflexivity.
  assert (Hstart : forall body, Py.startswith (String "P" (String "T" body)) "PT" = true)
    by (intros body; unfold Py.startswith; cbn; now destruct body).
  split.
  - intros Hh Hin.
    assert (Hraise : exists e, Py.int text = Raise e)
      by (destruct Hin as [Hin|Hin];
          [apply (int_rejects "M") | apply (int_rejects "S")];
          (reflexivity || discriminate || exact Hin)).
    destruct Hraise as [e Hraise].
    rewrite Hprefix. unfold PersonalizedSearchEngine._parse_duration_try.
    rewrite Hstart. cbn [negb Py.drop]. cbv zeta.
    change "H" with (String "H" EmptyString) at 1.
    rewrite contains_char_append, (split_once_append _ _ _ Hh), Hraise.
    reflexivity.
  - intros Hh Hm Hin.
    destruct (int_rejects "S" text) as [e Hraise];
      try reflexivity; try discriminate; [exact Hin|].
    rewrite Hprefix. unfold PersonalizedSearchEngine._parse_duration_try.
    rewrite Hstart. cbn [negb Py.drop]. cbv zeta.
    change "H" with (String "H" EmptyString) at 1.
    rewrite contains_char_iff, Hh. cbn [Py.bind].
    change "M" with (String "M" EmptyString) at 1.
    rewrite contains_char_append, (split_once_append _ _ _ Hm), Hraise.
    reflexivity.
Qed.

(** The theorem on minutes written before hours. *)
Lemma duration_with_components_out_of_order_witness :
  PersonalizedSearchEngine._parse_duration "PT30M1H" = 0.
Proof.
  apply (proj1 (duration_with_components_out_of_order "30M1" "")).
  - reflexivity.
  - left. reflexivity.
Defined.

End DurationSign.

(* ################################################################# *)
(** * The client of the video source *)

Section Client.

Local Notation "a +++ b" := (String.append a b) (at level 60, right associativity).
Local Abbreviation Done := YouTubeSearchClient.Done.
Local Abbreviation Stopped := YouTubeSearchClient.Stopped.
Local Abbreviation and_then := YouTubeSearchClient.and_then.
Local Abbreviation video_data_of := YouTubeSearchClient.video_data_of.
Local Abbreviation fields := YouTubeSearchClient.fields.

(** The loop of [search_videos] over all the items: the pairs of an
    identifier and a video, or the first exception. *)
Fixpoint read_all (items : list YouTubeSearchClient.SearchResult)
  : YouTubeSearchClient.attempt (list (string * YouTubeSearchClient.VideoData)) :=
  match items with
  | [] => Done []
  | item :: rest =>
      and_then (video_data_of item) (fun p =>
      and_then (read_all rest) (fun l => Done (p :: l)))
  end.

(** The exception [search_videos] raises in the place of [r]. *)
Definition wrapped (r : YouTubeSearchClient.Raised) : Exception :=
  match r with
  | YouTubeSearchClient.FromApi (YouTubeSearchClient.HttpError text) =>
      ApiError ("YouTube API error: " +++ text)
  | _ => ApiError ("Search error: " +++ YouTubeSearchClient.str r)
  end.

(** The videos of a successful search, before and after the statistics
    are asked for. *)
Definition with_statistics (api : YouTubeSearchClient.Api)
    (l : list (string * YouTubeSearchClient.VideoData))
  : list YouTubeSearchClient.VideoData :=
  match map fst l with
  | [] => map snd l
  | _ :: _ => YouTubeSearchClient._add_video_statistics api (map snd l) (map fst l)
  end.

Lemma collect_loop (items : list YouTubeSearchClient.SearchResult) :
  forall (videos : list YouTubeSearchClient.VideoData) (video_ids : list string),
  fold_left
    (fun state search_result =>
       and_then state (fun '(videos, video_ids) =>
       and_then (video_data_of search_result) (fun '(video_id, video_data) =>
       Done (videos ++ [video_data], video_ids ++ [video_id]))))
    items (Done (videos, video_ids))
  = and_then (read_all items) (fun l =>
    Done (videos ++ map snd l, video_ids ++ map fst l)).
Proof.
  induction items as [|item items IH]; intros videos video_ids.
  - cbn. now rewrite !app_nil_r.
  - cbn [fold_left read_all].
    destruct (video_data_of item) as [[video_id video_data]|r] eqn:Hitem.
    + cbn [YouTubeSearchClient.and_then]. rewrite IH.
      destruct (read_all items) as [l|r]; [|reflexivity].
      cbn [YouTubeSearchClient.and_then map fst snd].
      now rewrite <- !app_assoc.
    + cbn [YouTubeSearchClient.and_then].
      clear IH. induction items as [|x items IH]; [reflexivity | exact IH].
Qed.

Lemma search_videos_eq (api : YouTubeSearchClient.Api) (query : string)
    (max_results : Z) (order : string) :
  YouTubeSearchClient.search_videos api query max_results order
  = match YouTubeSearchClient.search_list api query max_results order with
    | YouTubeSearchClient.Fails f => Raise (wrapped (YouTubeSearchClient.FromApi f))
    | YouTubeSearchClient.Answer search_response =>
        match read_all (get_default search_response []) with
        | YouTubeSearchClient.Stopped r => Raise (wrapped r)
        | YouTubeSearchClient.Done l => Ok (with_statistics api l)
        end
    end.
Proof.
  unfold YouTubeSearchClient.search_videos.
  destruct (YouTubeSearchClient.search_list api query max_results order)
    as [search_response|f]; cbn [YouTubeSearchClient.and_then].
  - rewrite (collect_loop _ [] []).
    destruct (read_all _) as [l|r]; cbn [YouTubeSearchClient.and_then app].
    + unfold with_statistics. now destruct (map fst l).
    + now destruct r as [[]|].
  - now destruct f.
Qed.

(** Reading an item fails on a missing key only. *)
Lemma video_data_of_stops (item : YouTubeSearchClient.SearchResult)
    (r : YouTubeSearchClient.Raised) :
  video_data_of item = Stopped r ->
  exists key,
    r = YouTubeSearchClient.Missing key /\
    In key ["id"; "videoId"; "snippet"; "title"; "channelTitle"; "description";
            "publishedAt"; "thumbnails"].
Proof.
  unfold YouTubeSearchClient.video_data_of.
  destruct item as [[[[id|]]|] [[[t|] [c|] [d|] [p|] [th|]]|]];
    cbn; intros [= <-]; eexists; (split; [reflexivity|]); cbn; tauto.
Qed.

Lemma read_all_stops (items : list YouTubeSearchClient.SearchResult)
    (r : YouTubeSearchClient.Raised) :
  read_all items = Stopped r ->
  exists item key,
    In item items /\ video_data_of item = Stopped (YouTubeSearchClient.Missing key) /\
    r = YouTubeSearchClient.Missing key.
Proof.
  induction items as [|item items IH]; [discriminate|].
  cbn [read_all].
  destruct (video_data_of item) as [p|r'] eqn:Hitem; cbn [YouTubeSearchClient.and_then].
  - destruct (read_all items) as [l|r'']; [discriminate|].
    cbn [YouTubeSearchClient.and_then]. intros [= ->].
    destruct (IH eq_refl) as (x & key & Hin & Hx & ->).
    exists x, key. split; [now right | now split].
  - intros [= ->].
    destruct (video_data_of_stops item r Hitem) as (key & -> & _).
    exists item, key. split; [now left | now split].
Qed.

Lemma read_all_stops_at (items : list YouTubeSearchClient.SearchResult) :
  forall item r, In item items -> video_data_of item = Stopped r ->
  exists r', read_all items = Stopped r'.
Proof.
  induction items as [|x items IH]; intros item r Hin Hitem; [easy|].
  cbn [read_all]. destruct Hin as [->|Hin].
  - rewrite Hitem. cbn. eauto.
  - destruct (video_data_of x); cbn [YouTubeSearchClient.and_then]; [|eauto].
    destruct (IH item r Hin Hitem) as [r' ->]. cbn. eauto.
Qed.

(** X22.  [search_videos] never lets an exception through as it is: it
    raises a plain exception whose message starts with [YouTube API
    error: ] when the search request fails with an [HttpError], and with
    [Search error: ] for anything else, followed by the text of the
    exception.  One search result that lacks a key the client reads makes
    the whole search fail, with the name of the key between quotes in the
    message.  Nothing else makes it fail; the request for the statistics
    in particular cannot. *)
Theorem search_videos_wraps_every_failure (api : YouTubeSearchClient.Api)
    (query : string) (max_results : Z) (order : string) :
  let outcome := YouTubeSearchClient.search_videos api query max_results order in
  let searched := YouTubeSearchClient.search_list api query max_results order in
  (forall text,
      searched = YouTubeSearchClient.Fails (YouTubeSearchClient.HttpError text) ->
      outcome = Raise (ApiError ("YouTube API error: " +++ text))) /\
  (forall text,
      searched = YouTubeSearchClient.Fails (YouTubeSearchClient.OtherError text) ->
      outcome = Raise (ApiError ("Search error: " +++ text))) /\
  (forall search_response item r,
      searched = YouTubeSearchClient.Answer search_response ->
      In item (get_default search_response []) ->
      video_data_of item = Stopped r ->
      exists key, outcome = Raise (ApiError ("Search error: '" +++ key +++ "'"))) /\
  (forall search_response,
      searched = YouTubeSearchClient.Answer search_response ->
      (forall item, In item (get_default search_response []) ->
                    exists p, video_data_of item = Done p) ->
      exists videos, outcome = Ok videos) /\
  (forall e,
      outcome = Raise e ->
      exists text,
        e = ApiError ("YouTube API error: " +++ text) \/
        e = ApiError ("Search error: " +++ text)).
Proof.
  intros outcome searched. subst outcome searched. rewrite search_videos_eq.
  split; [now intros text ->|]. split; [now intros text ->|].
  split; [|split].
  - intros search_response item r -> Hin Hitem.
    destruct (read_all_stops_at _ item r Hin Hitem) as [r' Hr'].
    rewrite Hr'. destruct (read_all_stops _ _ Hr') as (_ & key & _ & _ & ->).
    now exists key.
  - intros search_response -> Hall.
    destruct (read_all _) as [l|r] eqn:Hl; [eauto|].
    destruct (read_all_stops _ _ Hl) as (item & key & Hin & Hitem & _).
    destruct (Hall item Hin) as [p Hp]. congruence.
  - intros e.
    destruct (YouTubeSearchClient.search_list api query max_results order) as [resp|f].
    + destruct (read_all _) as [l|r] eqn:Hl; [discriminate|].
      destruct (read_all_stops _ _ Hl) as (_ & key & _ & _ & ->).
      intros [= <-]. eexists. right. reflexivity.
    + intros [= <-]. destruct f as [text|text]; exists text; [now left | now right].
Qed.

(** *** The videos of a search that succeeds *)

(** The description the client keeps: the first 200 characters and three
    dots when it is longer than that. *)
Definition shortened (description : string) : string :=
  if 200 <? Py.len description
  then YouTubeSearchClient.take 200 description +++ "..."
  else description.

Lemma take_length (n : nat) (s : string) :
  String.length (YouTubeSearchClient.take n s) = Nat.min n (String.length s).
Proof.
  revert s. induction n as [|n IH]; intros [|c s]; cbn; try reflexivity.
  now rewrite IH.
Qed.

Lemma take_prefix (n : nat) (s : string) :
  exists rest, s = YouTubeSearchClient.take n s +++ rest.
Proof.
  revert s. induction n as [|n IH]; intros s; [now exists s|].
  destruct s as [|c s]; [now exists ""|].
  destruct (IH s) as [rest E]. exists rest. cbn. now rewrite <- E.
Qed.

Lemma shortened_length (description : string) :
  (String.length (shortened description) <= 203)%nat /\
  ((String.length description <= 200)%nat -> shortened description = description) /\
  ((200 < String.length description)%nat ->
   exists start rest,
     description = start +++ rest /\ String.length start = 200%nat /\
     shortened description = start +++ "...").
Proof.
  unfold shortened, Py.len.
  destruct (200 <? Z.of_nat (String.length description)) eqn:H.
  - apply Z.ltb_lt in H. split; [|split].
    + rewrite append_length, take_length.
      change (String.length "...") with 3%nat. lia.
    + lia.
    + intros _. destruct (take_prefix 200 description) as [rest E].
      exists (YouTubeSearchClient.take 200 description), rest.
      split; [exact E|]. split; [rewrite take_length; lia | reflexivity].
  - apply Z.ltb_ge in H. split; [lia|]. split; [reflexivity | lia].
Qed.

(** What the client reads in a search result that has every key. *)
Lemma video_data_of_done (item : YouTubeSearchClient.SearchResult) (video_id : string)
    (video : YouTubeSearchClient.VideoData) :
  video_data_of item = Done (video_id, video) ->
  exists title_ channel_ description_ published media,
    item
    = YouTubeSearchClient.mkSearchResult
        (Some (YouTubeSearchClient.mkResourceId (Some video_id)))
        (Some (YouTubeSearchClient.mkSnippet (Some title_) (Some channel_)
                 (Some description_) (Some published) (Some media))) /\
    video
    = YouTubeSearchClient.mkVideoData
        (mkVideo (Some video_id) (Some title_) (Some channel_)
           (Some (shortened description_)) (Some published) None None None None)
        (get_default
           (YouTubeSearchClient.url_
              (get_default (YouTubeSearchClient.medium media)
                 (YouTubeSearchClient.mkThumbnail None))) "")
        ("https://www.youtube.com/watch?v=" +++ video_id)
        None.
Proof.
  unfold YouTubeSearchClient.video_data_of.
  destruct item as [[[[id|]]|] [[[t|] [c|] [d|] [p|] [th|]]|]]; cbn; try discriminate.
  intros [= <- <-]. now exists t, c, d, p, th.
Qed.

(** Two videos that differ at most by the four keys the statistics
    set. *)
Definition same_basic (v v' : YouTubeSearchClient.VideoData) : Prop :=
  video_id (fields v') = video_id (fields v) /\
  title (fields v') = title (fields v) /\
  channel (fields v') = channel (fields v) /\
  description (fields v') = description (fields v) /\
  published_at (fields v') = published_at (fields v) /\
  category_id (fields v') = category_id (fields v) /\
  YouTubeSearchClient.thumbnail v' = YouTubeSearchClient.thumbnail v /\
  YouTubeSearchClient.url v' = YouTubeSearchClient.url v.

Lemma same_basic_refl (v : YouTubeSearchClient.VideoData) : same_basic v v.
Proof. now repeat split. Qed.

Lemma same_basic_all (videos : list YouTubeSearchClient.VideoData) :
  Forall2 same_basic videos videos.
Proof. induction videos; constructor; auto using same_basic_refl. Qed.

Lemma update_videos_basic (stats_map : list (string * YouTubeSearchClient.VideoItem))
    (videos : list YouTubeSearchClient.VideoData) :
  Forall2 same_basic videos (YouTubeSearchClient.update_videos stats_map videos).
Proof.
  induction videos as [|video videos IH]; [constructor|].
  cbn [YouTubeSearchClient.update_videos].
  destruct (video_id (fields video)); [|apply same_basic_all].
  destruct (YouTubeSearchClient.lookup _ _);
    [|constructor; [apply same_basic_refl | exact IH]].
  destruct (YouTubeSearchClient.count _);
    [|constructor; [apply same_basic_refl | apply same_basic_all]].
  destruct (YouTubeSearchClient.count _);
    [|constructor; [now repeat split | apply same_basic_all]].
  destruct (YouTubeSearchClient.count _);
    constructor; try (now repeat split); try exact IH; apply same_basic_all.
Qed.

Lemma add_video_statistics_basic (api : YouTubeSearchClient.Api)
    (videos : list YouTubeSearchClient.VideoData) (video_ids : list string) :
  Forall2 same_basic videos
    (YouTubeSearchClient._add_video_statistics api videos video_ids).
Proof.
  unfold YouTubeSearchClient._add_video_statistics.
  destruct (YouTubeSearchClient.videos_list api _); [|apply same_basic_all].
  destruct (YouTubeSearchClient.build_stats_map _);
    [apply update_videos_basic | apply same_basic_all].
Qed.

Lemma with_statistics_basic (api : YouTubeSearchClient.Api)
    (l : list (string * YouTubeSearchClient.VideoData)) :
  Forall2 same_basic (map snd l) (with_statistics api l).
Proof.
  unfold with_statistics.
  destruct (map fst l); [apply same_basic_all | apply add_video_statistics_basic].
Qed.

Lemma Forall2_right {A B : Type} (R : A -> B -> Prop) (l : list A) (l' : list B) (b : B) :
  Forall2 R l l' -> In b l' -> exists a, In a l /\ R a b.
Proof.
  induction 1 as [|x y l l' Hxy Hl IH]; [easy|].
  intros [<-|Hin].
  - exists x. split; [now left | exact Hxy].
  - destruct (IH Hin) as (a & Ha & Hab). exists a. split; [now right | exact Hab].
Qed.

Lemma read_all_done (items : list YouTubeSearchClient.SearchResult) :
  forall l, read_all items = Done l ->
  Forall2 (fun item p => video_data_of item = Done p) items l.
Proof.
  induction items as [|item items IH]; intros l; cbn [read_all].
  - intros [= <-]. constructor.
  - destruct (video_data_of item) as [p|r] eqn:Hitem; [|discriminate].
    cbn [YouTubeSearchClient.and_then].
    destruct (read_all items) as [l'|r]; [|discriminate].
    cbn [YouTubeSearchClient.and_then]. intros [= <-].
    constructor; [exact Hitem | now apply IH].
Qed.

(** What a video returned by the client owes to a search result. *)
Definition built_from (item : YouTubeSearchClient.SearchResult)
    (video : YouTubeSearchClient.VideoData) : Prop :=
  exists video_id_ title_ channel_ description_ published media,
    item
    = YouTubeSearchClient.mkSearchResult
        (Some (YouTubeSearchClient.mkResourceId (Some video_id_)))
        (Some (YouTubeSearchClient.mkSnippet (Some title_) (Some channel_)
                 (Some description_) (Some published) (Some media))) /\
    video_id (fields video) = Some video_id_ /\
    title (fields video) = Some title_ /\
    channel (fields video) = Some channel_ /\
    description (fields video) = Some (shortened description_) /\
    published_at (fields video) = Some published /\
    category_id (fields video) = None /\
    YouTubeSearchClient.url video = "https://www.youtube.com/watch?v=" +++ video_id_.

Lemma built_from_all (items : list YouTubeSearchClient.SearchResult)
    (l : list (string * YouTubeSearchClient.VideoData))
    (videos : list YouTubeSearchClient.VideoData) :
  Forall2 (fun item p => video_data_of item = Done p) items l ->
  Forall2 same_basic (map snd l) videos ->
  Forall2 built_from items videos.
Proof.
  intros Hl. revert videos.
  induction Hl as [|item [id v0] items l Hitem Hl IH]; intros videos Hbasic;
    cbn [map snd] in Hbasic; inversion Hbasic as [|? video ? videos' Hv Hrest];
    subst; constructor; [|now apply IH].
  apply video_data_of_done in Hitem as (t & c & d & p & th & -> & ->).
  destruct Hv as (Hid & Ht & Hc & Hd & Hp & Hcat & _ & Hurl).
  exists id, t, c, d, p, th. cbn in *. repeat split; assumption.
Qed.

(** X23.  When the search request is answered and every search result
    has the keys the client reads, [search_videos] returns one video for
    each result, in the order of the results, whatever becomes of the
    request for the statistics: the video has the identifier, the title,
    the channel and the date of the result, the address of the video, no
    category, and the description of the result cut to its first 200
    characters followed by three dots when it is longer than 200, and
    left as it is otherwise. *)
Theorem search_videos_builds_one_video_per_result (api : YouTubeSearchClient.Api)
    (query : string) (max_results : Z) (order : string)
    (search_response : YouTubeSearchClient.Response YouTubeSearchClient.SearchResult) :
  YouTubeSearchClient.search_list api query max_results order
  = YouTubeSearchClient.Answer search_response ->
  (forall item, In item (get_default search_response []) ->
                exists p, video_data_of item = Done p) ->
  exists videos,
    YouTubeSearchClient.search_videos api query max_results order = Ok videos /\
    Forall2 built_from (get_default search_response []) videos /\
    List.length videos = List.length (get_default search_response []) /\
    (forall video text,
        In video videos -> description (fields video) = Some text ->
        (String.length text <= 203)%nat).
Proof.
  intros Hsearch Hall. rewrite search_videos_eq, Hsearch.
  destruct (read_all _) as [l|r] eqn:Hl.
  2:{ destruct (read_all_stops _ _ Hl) as (item & key & Hin & Hitem & _).
      destruct (Hall item Hin) as [p Hp]. congruence. }
  eexists. split; [reflexivity|].
  apply read_all_done in Hl.
  pose proof (with_statistics_basic api l) as Hbasic.
  assert (Hbuilt : Forall2 built_from (get_default search_response [])
                     (with_statistics api l))
    by (apply (built_from_all _ l); [exact Hl | exact Hbasic]).
  split; [exact Hbuilt|]. split.
  - symmetry. apply (Forall2_length Hbuilt).
  - intros video text Hin Htext.
    destruct (Forall2_right _ _ _ _ Hbuilt Hin)
      as (item & _ & (id & t & c & d & p & th & _ & _ & _ & _ & Hd & _)).
    rewrite Hd in Htext. injection Htext as <-. apply shortened_length.
Qed.

(** An answer of the API used in the examples: two search results, the
    second with a description of 250 characters, and the statistics of
    the first only. *)
Definition example_result (id title_ description_ : string)
  : YouTubeSearchClient.SearchResult :=
  YouTubeSearchClient.mkSearchResult
    (Some (YouTubeSearchClient.mkResourceId (Some id)))
    (Some (YouTubeSearchClient.mkSnippet (Some title_) (Some "Alpha")
             (Some description_) (Some "2024-02-20T00:00:00Z")
             (Some (YouTubeSearchClient.mkThumbnails None)))).

Fixpoint repeated (n : nat) (c : ascii) : string :=
  match n with
  | O => EmptyString
  | S n' => String c (repeated n' c)
  end.

Definition example_api : YouTubeSearchClient.Api :=
  {| YouTubeSearchClient.search_list := fun _ _ _ =>
       YouTubeSearchClient.Answer
         (Some [example_result "a1" "Learning Rocq" "A course";
                example_result "b2" "Cooking pasta" (repeated 250 "x")]);
     YouTubeSearchClient.videos_list := fun _ =>
       YouTubeSearchClient.Answer
         (Some [YouTubeSearchClient.mkVideoItem (Some "a1")
                  (Some (YouTubeSearchClient.mkStatistics (Some "1000") (Some "10") None))
                  (Some (YouTubeSearchClient.mkContentDetails (Some "PT5M30S")))]) |}.

(** The theorem on the example: two videos, the second with a
    description of 203 characters. *)
Lemma search_videos_builds_one_video_per_result_witness :
  exists videos,
    YouTubeSearchClient.search_videos example_api "rocq" 10 "relevance" = Ok videos /\
    List.length videos = 2%nat /\
    map (fun v => String.length (get_default (description (fields v)) "")) videos
    = [8%nat; 203%nat].
Proof.
  destruct (search_videos_builds_one_video_per_result example_api "rocq" 10 "relevance"
              (Some [example_result "a1" "Learning Rocq" "A course";
                     example_result "b2" "Cooking pasta" (repeated 250 "x")]))
    as (videos & Hvideos & _ & Hlen & _).
  - reflexivity.
  - intros item [<-|[<-|[]]]; eexists; reflexivity.
  - exists videos. split; [exact Hvideos|]. split; [exact Hlen|].
    assert (E : YouTubeSearchClient.search_videos example_api "rocq" 10 "relevance"
                = Ok videos) by exact Hvideos.
    vm_compute in E. injection E as <-. reflexivity.
Defined.

(** The failures on the example: a search request that fails for lack of
    quota, and an answer whose only result has no snippet. *)
Lemma search_videos_wraps_every_failure_witness :
  let out_of_quota :=
    YouTubeSearchClient.mkApi
      (fun _ _ _ => YouTubeSearchClient.Fails (YouTubeSearchClient.HttpError "quota"))
      (YouTubeSearchClient.videos_list example_api) in
  let incomplete :=
    YouTubeSearchClient.mkApi
      (fun _ _ _ =>
         YouTubeSearchClient.Answer
           (Some [YouTubeSearchClient.mkSearchResult
                    (Some (YouTubeSearchClient.mkResourceId (Some "a1"))) None]))
      (YouTubeSearchClient.videos_list example_api) in
  YouTubeSearchClient.search_videos out_of_quota "rocq" 10 "relevance"
  = Raise (ApiError "YouTube API error: quota") /\
  exists key,
    YouTubeSearchClient.search_videos incomplete "rocq" 10 "relevance"
    = Raise (ApiError ("Search error: '" +++ key +++ "'")).
Proof.
  cbv zeta. split.
  - apply (proj1 (search_videos_wraps_every_failure
                    (YouTubeSearchClient.mkApi
                       (fun _ _ _ =>
                          YouTubeSearchClient.Fails (YouTubeSearchClient.HttpError "quota"))
                       (YouTubeSearchClient.videos_list example_api))
                    "rocq" 10 "relevance")).
    reflexivity.
  - apply (proj1 (proj2 (proj2 (search_videos_wraps_every_failure
                    (YouTubeSearchClient.mkApi
                       (fun _ _ _ =>
                          YouTubeSearchClient.Answer
                            (Some [YouTubeSearchClient.mkSearchResult
                                     (Some (YouTubeSearchClient.mkResourceId (Some "a1")))
                                     None]))
                       (YouTubeSearchClient.videos_list example_api))
                    "rocq" 10 "relevance")))
             (Some [YouTubeSearchClient.mkSearchResult
                      (Some (YouTubeSearchClient.mkResourceId (Some "a1"))) None])
             (YouTubeSearchClient.mkSearchResult
                (Some (YouTubeSearchClient.mkResourceId (Some "a1"))) None)
             (YouTubeSearchClient.Missing "snippet")).
    + reflexivity.
    + simpl. tauto.
    + reflexivity.
Defined.

(** *** The statistics *)

(** The three counts of an item, converted in the order of the
    source. *)
Definition counts (item : YouTubeSearchClient.VideoItem) : result (Z * Z * Z) :=
  let stats :=
    get_default (YouTubeSearchClient.statistics item)
      (YouTubeSearchClient.mkStatistics None None None) in
  Py.bind (YouTubeSearchClient.count (YouTubeSearchClient.viewCount stats)) (fun views =>
  Py.bind (YouTubeSearchClient.count (YouTubeSearchClient.likeCount stats)) (fun likes =>
  Py.bind (YouTubeSearchClient.count (YouTubeSearchClient.commentCount stats))
    (fun comments => Ok (views, likes, comments)))).

(** The item the second loop finds for a video. *)
Definition item_of (stats_map : list (string * YouTubeSearchClient.VideoItem))
    (video : YouTubeSearchClient.VideoData) : option YouTubeSearchClient.VideoItem :=
  match video_id (fields video) with
  | Some id => YouTubeSearchClient.lookup id stats_map
  | None => None
  end.

(** Whether the turn of the loop on a video ends without exception. *)
Definition goes_through (stats_map : list (string * YouTubeSearchClient.VideoItem))
    (video : YouTubeSearchClient.VideoData) : bool :=
  match video_id (fields video) with
  | None => false
  | Some id =>
      match YouTubeSearchClient.lookup id stats_map with
      | None => true
      | Some item => match counts item with Ok _ => true | Raise _ => false end
      end
  end.

(** The video as its turn of the loop leaves it: with the keys set
    before the first count that does not convert. *)
Definition updated (stats_map : list (string * YouTubeSearchClient.VideoItem))
    (video : YouTubeSearchClient.VideoData) : YouTubeSearchClient.VideoData :=
  match item_of stats_map video with
  | None => video
  | Some item =>
      let stats :=
        get_default (YouTubeSearchClient.statistics item)
          (YouTubeSearchClient.mkStatistics None None None) in
      match YouTubeSearchClient.count (YouTubeSearchClient.viewCount stats) with
      | Raise _ => video
      | Ok views =>
          let video := YouTubeSearchClient.set_view_count views video in
          match YouTubeSearchClient.count (YouTubeSearchClient.likeCount stats) with
          | Raise _ => video
          | Ok likes =>
              let video := YouTubeSearchClient.set_like_count likes video in
              match YouTubeSearchClient.count (YouTubeSearchClient.commentCount stats) with
              | Raise _ => video
              | Ok comments =>
                  YouTubeSearchClient.set_duration
                    (get_default
                       (YouTubeSearchClient.duration_
                          (get_default (YouTubeSearchClient.contentDetails item)
                             (YouTubeSearchClient.mkContentDetails None)))
                       "PT0M0S")
                    (YouTubeSearchClient.set_comment_count comments video)
              end
          end
      end
  end.

Lemma update_videos_eq (stats_map : list (string * YouTubeSearchClient.VideoItem))
    (video : YouTubeSearchClient.VideoData) (rest : list YouTubeSearchClient.VideoData) :
  YouTubeSearchClient.update_videos stats_map (video :: rest)
  = updated stats_map video
    :: (if goes_through stats_map video
        then YouTubeSearchClient.update_videos stats_map rest
        else rest).
Proof.
  cbn [YouTubeSearchClient.update_videos].
  unfold updated, goes_through, item_of, counts.
  destruct (video_id (fields video)); [|reflexivity].
  destruct (YouTubeSearchClient.lookup _ _); [|reflexivity].
  cbv zeta.
  destruct (YouTubeSearchClient.count _); [|reflexivity]. cbn [Py.bind].
  destruct (YouTubeSearchClient.count _); [|reflexivity]. cbn [Py.bind].
  destruct (YouTubeSearchClient.count _); reflexivity.
Qed.

Lemma update_videos_until (stats_map : list (string * YouTubeSearchClient.VideoItem))
    (before : list YouTubeSearchClient.VideoData) :
  forall rest,
  forallb (goes_through stats_map) before = true ->
  YouTubeSearchClient.update_videos stats_map (before ++ rest)
  = map (updated stats_map) before ++ YouTubeSearchClient.update_videos stats_map rest.
Proof.
  induction before as [|video before IH]; intros rest H; [reflexivity|].
  cbn [forallb] in H. apply andb_true_iff in H as [Hv Hb].
  cbn [app map]. now rewrite update_videos_eq, Hv, IH.
Qed.

(** The entries of [stats_map] for items that all have an [id], in the
    order of the items. *)
Definition entries (items : list YouTubeSearchClient.VideoItem)
  : list (string * YouTubeSearchClient.VideoItem) :=
  map (fun item => (get_default (YouTubeSearchClient.item_id item) "", item)) items.

Lemma build_stats_map_loop (items : list YouTubeSearchClient.VideoItem) :
  forall acc : list (string * YouTubeSearchClient.VideoItem),
  fold_left
    (fun stats_map item =>
       match stats_map, YouTubeSearchClient.item_id item with
       | Some stats_map, Some id => Some ((id, item) :: stats_map)
       | _, _ => None
       end)
    items (Some acc)
  = if forallb (fun item => negb (UserPreferenceEngine.is_none
                                    (YouTubeSearchClient.item_id item))) items
    then Some (rev (entries items) ++ acc)
    else None.
Proof.
  induction items as [|item items IH]; intros acc; [reflexivity|].
  cbn [fold_left forallb entries map rev].
  destruct (YouTubeSearchClient.item_id item) as [id|]; cbn.
  - rewrite IH. fold (entries items).
    destruct (forallb _ items); [|reflexivity]. now rewrite <- app_assoc.
  - clear IH. induction items as [|x items IH]; [reflexivity | exact IH].
Qed.

Lemma lookup_last (id : string) (item : YouTubeSearchClient.VideoItem)
    (before after : list YouTubeSearchClient.VideoItem) :
  YouTubeSearchClient.item_id item = Some id ->
  (forall x, In x after -> YouTubeSearchClient.item_id x <> Some id) ->
  (forall x, In x after -> YouTubeSearchClient.item_id x <> None) ->
  YouTubeSearchClient.lookup id (rev (entries (before ++ item :: after))) = Some item.
Proof.
  intros Hid Hafter Hsome. unfold YouTubeSearchClient.lookup, entries.
  rewrite map_app, rev_app_distr. cbn [map rev]. rewrite <- app_assoc.
  assert (Hskip : forall l tail,
             (forall x, In x l -> YouTubeSearchClient.item_id x <> Some id) ->
             (forall x, In x l -> YouTubeSearchClient.item_id x <> None) ->
             find (fun entry : string * YouTubeSearchClient.VideoItem =>
                     String.eqb (fst entry) id)
               (rev (map (fun item => (get_default (YouTubeSearchClient.item_id item) "",
                                       item)) l) ++ tail)
             = find (fun entry : string * YouTubeSearchClient.VideoItem =>
                       String.eqb (fst entry) id) tail).
  { induction l as [|x l IH]; intros tail Hne Hs; [reflexivity|].
    cbn [map rev]. rewrite <- app_assoc. rewrite IH.
    - cbn [app find fst].
      destruct (YouTubeSearchClient.item_id x) as [y|] eqn:Hx;
        [|now elim (Hs x (or_introl eq_refl))].
      cbn [get_default].
      destruct (String.eqb y id) eqn:Hy; [|reflexivity].
      apply String.eqb_eq in Hy. subst y. now elim (Hne x (or_introl eq_refl)).
    - intros y Hy. apply Hne. now right.
    - intros y Hy. apply Hs. now right. }
  rewrite Hskip by assumption.
  cbn [app find fst]. rewrite Hid. cbn [get_default]. now rewrite String.eqb_refl.
Qed.

(** X24.  [_add_video_statistics] changes the videos in place and lets
    no exception out.  It adds, drops and reorders no video and touches
    only the views, the likes, the comments and the duration.  It changes
    nothing when the request fails or when an item of the answer has no
    identifier.  Otherwise each video is given the statistics of the last
    item of the answer that carries its identifier — a count that is
    absent is 0, a duration that is absent is [PT0M0S] — and a video
    without such an item is left as it is; this goes on, in the order of
    the videos, until a count does not convert: the videos after that one
    are left without statistics. *)
Theorem statistics_are_added_until_a_count_fails (api : YouTubeSearchClient.Api)
    (videos : list YouTubeSearchClient.VideoData) (video_ids : list string) :
  let result := YouTubeSearchClient._add_video_statistics api videos video_ids in
  let answer := YouTubeSearchClient.videos_list api (String.concat "," video_ids) in
  Forall2 same_basic videos result /\
  (forall f, answer = YouTubeSearchClient.Fails f -> result = videos) /\
  (forall response item,
      answer = YouTubeSearchClient.Answer response ->
      In item (get_default response []) -> YouTubeSearchClient.item_id item = None ->
      result = videos) /\
  (forall response,
      answer = YouTubeSearchClient.Answer response ->
      (forall item, In item (get_default response []) ->
                    YouTubeSearchClient.item_id item <> None) ->
      let stats_map := rev (entries (get_default response [])) in
      (forall before item after id,
          get_default response [] = before ++ item :: after ->
          YouTubeSearchClient.item_id item = Some id ->
          (forall x, In x after -> YouTubeSearchClient.item_id x <> Some id) ->
          YouTubeSearchClient.lookup id stats_map = Some item) /\
      (forall video id item views likes comments,
          video_id (fields video) = Some id ->
          YouTubeSearchClient.lookup id stats_map = Some item ->
          counts item = Ok (views, likes, comments) ->
          view_count (fields (updated stats_map video)) = Some views /\
          like_count (fields (updated stats_map video)) = Some likes /\
          YouTubeSearchClient.comment_count (updated stats_map video) = Some comments /\
          duration (fields (updated stats_map video))
          = Some (get_default
                    (YouTubeSearchClient.duration_
                       (get_default (YouTubeSearchClient.contentDetails item)
                          (YouTubeSearchClient.mkContentDetails None)))
                    "PT0M0S")) /\
      (forall video id,
          video_id (fields video) = Some id ->
          YouTubeSearchClient.lookup id stats_map = None ->
          updated stats_map video = video) /\
      (forallb (goes_through stats_map) videos = true ->
       result = map (updated stats_map) videos) /\
      (forall before video after,
          videos = before ++ video :: after ->
          forallb (goes_through stats_map) before = true ->
          goes_through stats_map video = false ->
          result = map (updated stats_map) before ++ updated stats_map video :: after)).
Proof.
  intros result answer. subst result answer.
  split; [apply add_video_statistics_basic|].
  unfold YouTubeSearchClient._add_video_statistics.
  split; [now intros f ->|]. split.
  - intros response item -> Hin Hid.
    unfold YouTubeSearchClient.build_stats_map. rewrite build_stats_map_loop.
    replace (forallb _ (get_default response [])) with false; [reflexivity|].
    symmetry. apply not_true_iff_false. intros H.
    rewrite forallb_forall in H. specialize (H item Hin). now rewrite Hid in H.
  - intros response -> Hall.
    unfold YouTubeSearchClient.build_stats_map. rewrite build_stats_map_loop.
    replace (forallb _ (get_default response [])) with true.
    2:{ symmetry. apply forallb_forall. intros item Hin.
        specialize (Hall item Hin).
        now destruct (YouTubeSearchClient.item_id item). }
    rewrite app_nil_r. cbv zeta.
    set (stats_map := rev (entries (get_default response []))).
    split; [|split; [|split; [|split]]].
    + intros before item after id E Hid Hafter. unfold stats_map. rewrite E.
      apply lookup_last; [exact Hid | exact Hafter|].
      intros x Hx. apply Hall. rewrite E. apply in_or_app. right. now right.
    + intros video id item views likes comments Hid Hitem Hcounts.
      unfold updated, item_of. rewrite Hid, Hitem.
      unfold counts in Hcounts. cbv zeta in *.
      destruct (YouTubeSearchClient.count _) as [a|]; [|discriminate].
      cbn [Py.bind] in Hcounts.
      destruct (YouTubeSearchClient.count _) as [b|]; [|discriminate].
      cbn [Py.bind] in Hcounts.
      destruct (YouTubeSearchClient.count _) as [c|]; [|discriminate].
      injection Hcounts as -> -> ->. now repeat split.
    + intros video id Hid Hnone. unfold updated, item_of. now rewrite Hid, Hnone.
    + intros H.
      rewrite <- (app_nil_r videos) at 1.
      rewrite (update_videos_until stats_map videos [] H). apply app_nil_r.
    + intros before video after -> Hbefore Hvideo.
      now rewrite (update_videos_until stats_map before _ Hbefore),
        update_videos_eq, Hvideo.
Qed.

(** The theorem on the example: the first video is given its
    statistics, with 0 for the comments the answer does not count; the
    second, which the answer does not mention, is left as it is. *)
Lemma statistics_are_added_until_a_count_fails_witness :
  let plain id :=
    YouTubeSearchClient.mkVideoData
      (mkVideo (Some id) (Some "Title") (Some "Alpha") (Some "") (Some "") None None None
         None) "" "" None in
  YouTubeSearchClient._add_video_statistics example_api [plain "a1"; plain "b2"]
    ["a1"; "b2"]
  = [YouTubeSearchClient.mkVideoData
       (mkVideo (Some "a1") (Some "Title") (Some "Alpha") (Some "") (Some "")
          (Some "PT5M30S") (Some 1000) (Some 10) None) "" "" (Some 0);
     plain "b2"].
Proof.
  cbv zeta.
  match goal with
  | |- YouTubeSearchClient._add_video_statistics ?api ?videos ?ids = _ =>
      destruct (statistics_are_added_until_a_count_fails api videos ids)
        as (_ & _ & _ & Hanswered)
  end.
  destruct (Hanswered
              (Some [YouTubeSearchClient.mkVideoItem (Some "a1")
                       (Some (YouTubeSearchClient.mkStatistics (Some "1000") (Some "10")
                                None))
                       (Some (YouTubeSearchClient.mkContentDetails (Some "PT5M30S")))]))
    as (_ & _ & _ & Hall & _).
  - reflexivity.
  - intros item [<-|[]]. discriminate.
  - rewrite Hall; reflexivity.
Defined.

(** *** The search engine on top of the client *)

(** The video source of the search engine when it is this client: the
    engine reads the videos the client returns. *)
Definition client_source (api : YouTubeSearchClient.Api)
  : string -> Z -> string -> result (list VideoRecord) :=
  fun query max_results order =>
    match YouTubeSearchClient.search_videos api query max_results order with
    | Ok videos => Ok (map fields videos)
    | Raise e => Raise e
    end.

Definition with_client (api : YouTubeSearchClient.Api) (env : Env) : Env :=
  mkEnv (flops env) (now env) (fromisoformat env) (client_source api).

Lemma read_all_without_statistics (items : list YouTubeSearchClient.SearchResult) :
  forall l, read_all items = Done l ->
  forall p, In p l ->
    view_count (fields (snd p)) = None /\ duration (fields (snd p)) = None.
Proof.
  intros l Hl p Hin. apply read_all_done in Hl.
  destruct (Forall2_right _ _ _ _ Hl Hin) as (item & _ & Hitem).
  destruct p as [id v].
  apply video_data_of_done in Hitem as (t & c & d & pu & th & _ & ->).
  now split.
Qed.

Lemma filter_nothing {A : Type} (f : A -> bool) (l : list A) :
  (forall x, In x l -> f x = false) -> filter f l = [].
Proof.
  induction l as [|x l IH]; intros H; [reflexivity|].
  cbn [filter]. rewrite (H x (or_introl eq_refl)).
  apply IH. intros y Hy. apply H. now right.
Qed.

Lemma passes_needs_statistics (env : Env) (preferences : Preferences)
    (video : VideoRecord) :
  view_count video = None -> duration video = None ->
  0 < get_default (min_views preferences) 0 \/
  0 < get_default (min_duration preferences) 0 ->
  passes env preferences video = false.
Proof.
  intros Hv Hd H. unfold passes. rewrite Hv, Hd. cbn [get_default].
  change (PersonalizedSearchEngine._parse_duration "PT0M0S") with 0.
  apply negb_false_iff.
  destruct H as [H|H]; apply Z.ltb_lt in H; rewrite H;
    now rewrite ?orb_true_r.
Qed.

(** X25.  When the request for the statistics fails, the videos the
    client returns have neither views nor duration, and the search engine
    reads them as videos of 0 views and 0 seconds: as soon as the
    preferences in force ask for a minimum of views or a minimum duration
    above 0, a search through the client returns no video at all,
    whatever the search request found. *)
Theorem search_without_statistics_finds_nothing (api : YouTubeSearchClient.Api)
    (env : Env) (query : string) (max_results : Z) (st : State) :
  (forall ids, exists f,
      YouTubeSearchClient.videos_list api ids = YouTubeSearchClient.Fails f) ->
  (forall q n order videos video,
      YouTubeSearchClient.search_videos api q n order = Ok videos ->
      In video videos ->
      view_count (fields video) = None /\ duration (fields video) = None) /\
  (0 < get_default (min_views (effective_preferences st)) 0 \/
   0 < get_default (min_duration (effective_preferences st)) 0 ->
   forall results,
     fst (PersonalizedSearchEngine.search (with_client api env) query max_results st)
     = Ok results ->
     results = []).
Proof.
  intros Hfails.
  assert (Hnone : forall q n order videos video,
             YouTubeSearchClient.search_videos api q n order = Ok videos ->
             In video videos ->
             view_count (fields video) = None /\ duration (fields video) = None).
  { intros q n order videos video. rewrite search_videos_eq.
    destruct (YouTubeSearchClient.search_list api q n order) as [response|f];
      [|discriminate].
    destruct (read_all _) as [l|r] eqn:Hl; [|discriminate].
    intros [= <-]. unfold with_statistics.
    assert (E : match map fst l with
                | [] => map snd l
                | _ :: _ =>
                    YouTubeSearchClient._add_video_statistics api (map snd l) (map fst l)
                end = map snd l).
    { destruct (map fst l) as [|id ids]; [reflexivity|].
      unfold YouTubeSearchClient._add_video_statistics.
      now destruct (Hfails (String.concat "," (id :: ids))) as [f ->]. }
    rewrite E. intros Hin. apply in_map_iff in Hin as (p & <- & Hin).
    now apply (read_all_without_statistics _ l Hl). }
  split; [exact Hnone|].
  intros Hmin results. rewrite search_eq.
  cbn [search_videos with_client]. unfold client_source.
  destruct (YouTubeSearchClient.search_videos api query _ _) as [videos|e] eqn:Hvideos;
    [|discriminate].
  cbn [fst]. intros [= <-].
  unfold personalize. rewrite apply_preference_filters_is_filter.
  rewrite filter_nothing.
  - rewrite rank_by_preferences_eq. cbn [map PersonalizedSearchEngine.sort_descending
                                           fold_right].
    apply slice_to_nil.
  - intros v Hin. apply in_map_iff in Hin as (video & <- & Hin).
    destruct (Hnone _ _ _ _ _ Hvideos Hin) as [Hv Hd].
    now apply passes_needs_statistics.
Qed.

(** The theorem on the example, with a request for the statistics that
    fails and a minimum of 100 views. *)
Lemma search_without_statistics_finds_nothing_witness :
  let api :=
    YouTubeSearchClient.mkApi (YouTubeSearchClient.search_list example_api)
      (fun _ => YouTubeSearchClient.Fails (YouTubeSearchClient.HttpError "quota")) in
  let st :=
    mkState initial_default_preferences
      (mkPrefs None None None None None None (Some 100) None None None) [] [] None [] in
  fst (PersonalizedSearchEngine.search
         (with_client api (Example.env_with Example.two_videos)) "rocq" 10 st)
  = Ok [].
Proof.
  cbv zeta.
  match goal with
  | |- fst (PersonalizedSearchEngine.search (with_client ?api ?env) ?q ?n ?st) = _ =>
      destruct (fst (PersonalizedSearchEngine.search (with_client api env) q n st))
        as [results|e] eqn:E;
      [rewrite (proj2 (search_without_statistics_finds_nothing api env q n st
                         (fun _ => ex_intro _ _ eq_refl))
                  (or_introl eq_refl) results E)
      |vm_compute in E; discriminate]
  end.
  reflexivity.
Defined.

End Client.

(* ################################################################# *)
(** * The search endpoint *)

Lemma strip_blank (s : string) :
  Main.strip s = "" <-> forall c, Py.char_in c s = true -> Py.isspace c = true.
Proof.
  unfold Main.strip.
  destruct (lstrip_by_suffix Py.isspace s) as (blanks & E & Hb).
  destruct (rstrip_by_prefix Py.isspace (Py.lstrip_by Py.isspace s)) as (tail & E' & Ht).
  split.
  - intros H. rewrite H in E'. cbn [String.append] in E'.
    intros c Hc. rewrite E, E', char_in_append in Hc.
    apply orb_true_iff in Hc as [Hc|Hc]; [now apply Hb | now apply Ht].
  - intros Hall.
    destruct (Py.rstrip_by Py.isspace (Py.lstrip_by Py.isspace s)) as [|c r] eqn:Hr;
      [reflexivity|].
    exfalso.
    assert (Hlast : forall t, Py.rstrip_by Py.isspace t <> "" ->
              exists d, Py.char_in d (Py.rstrip_by Py.isspace t) = true /\
                        Py.isspace d = false).
    { induction t as [|d t IH]; [easy|]. cbn [Py.rstrip_by].
      destruct (Py.rstrip_by Py.isspace t) as [|r0 r'] eqn:Ht'.
      - destruct (Py.isspace d) eqn:Hd; [easy|]. intros _. exists d.
        cbn [Py.char_in]. now rewrite Ascii.eqb_refl.
      - intros _. destruct IH as (x & Hx & Hsp); [easy|]. exists x.
        cbn [Py.char_in] in *. rewrite Hx. now rewrite orb_true_r. }
    destruct (Hlast (Py.lstrip_by Py.isspace s)) as (d & Hd & Hsp);
      [now rewrite Hr|].
    rewrite Hr in Hd.
    assert (Hin : Py.char_in d s = true).
    { rewrite E, E', !char_in_append, Hd. now rewrite orb_true_r. }
    apply Hall in Hin. congruence.
Qed.

(** X26.  The search endpoint never raises.  A query that is missing,
    empty or made of blanks only is answered with status 400 and reaches neither the video
    source nor the database.  Any other query is stripped of the blanks
    around it and searched for 25 videos: exactly one request goes to the
    source, for 50 videos; when the source raises the answer is status
    500, and otherwise it holds the stripped query, the videos of the
    search, at most 25, and their number. *)
Theorem api_search_answers (env : Env) (q : option string) (st : State) :
  let query := Main.strip (get_default q "") in
  let answer := fst (Main.api_search env q st) in
  let st' := snd (Main.api_search env q st) in
  (exists response, answer = Ok response) /\
  (query = "" <->
   forall c, Py.char_in c (get_default q "") = true -> Py.isspace c = true) /\
  (query = "" ->
   answer = Ok (Main.Error 400 "Search query is required") /\ st' = st) /\
  (query <> "" ->
   requests st' = requests st ++ [(query, 50, "relevance")] /\
   st' = snd (PersonalizedSearchEngine.search env query 25 st) /\
   (forall e,
       search_videos env query 50 "relevance" = Raise e ->
       answer = Ok (Main.Error 500 "Internal server error")) /\
   (forall raw_results,
       search_videos env query 50 "relevance" = Ok raw_results ->
       exists videos,
         answer = Ok (Main.SearchResults query videos (Z.of_nat (List.length videos))) /\
         fst (PersonalizedSearchEngine.search env query 25 st) = Ok videos /\
         (List.length videos <= 25)%nat)).
Proof.
  intros query answer st'. subst answer st'.
  split; [apply try_except_returns|].
  split; [apply strip_blank|].
  unfold Main.api_search. cbv zeta. fold query.
  split.
  - intros ->. now split.
  - intros Hne. apply truthy_iff in Hne. rewrite Hne. cbn [negb].
    unfold try_except, bind.
    pose proof (requests_after_search env query 25 st) as Hreq.
    rewrite search_eq in *. change (Z.min (25 * 2) 50) with 50 in *.
    destruct (search_videos env query 50 "relevance") as [raw|e]; cbn [fst snd] in *.
    + split; [exact Hreq|]. split; [reflexivity|]. split; [discriminate|].
      intros raw' [= <-]. eexists. split; [reflexivity|]. split; [reflexivity|].
      pose proof (personalize_length env (effective_preferences st) query 25 raw).
      lia.
    + split; [exact Hreq|]. split; [reflexivity|]. split; [reflexivity | discriminate].
Qed.

(** The theorem on a query of blanks and on a query with blanks around
    it. *)
Lemma api_search_answers_witness :
  fst (Main.api_search (Example.env_with Example.two_videos) (Some "   ") initial_state)
  = Ok (Main.Error 400 "Search query is required") /\
  requests (snd (Main.api_search (Example.env_with Example.two_videos)
                   (Some "  rocq ") initial_state))
  = [("rocq", 50, "relevance")].
Proof.
  split.
  - apply (proj1 (proj2 (proj2 (api_search_answers (Example.env_with Example.two_videos)
                                   (Some "   ") initial_state)))).
    reflexivity.
  - destruct (proj2 (proj2 (proj2 (api_search_answers
                                     (Example.env_with Example.two_videos)
                                     (Some "  rocq ") initial_state))))
      as [Hreq _]; [discriminate | exact Hreq].
Defined.

(* ################################################################# *)
(** * Matching ignores the case of letters *)

Lemma lower_char_twice (c : ascii) : Py.lower_char (Py.lower_char c) = Py.lower_char c.
Proof. destruct c as [[] [] [] [] [] [] [] []]; reflexivity. Qed.

Lemma lower_twice (s : string) : Py.lower (Py.lower s) = Py.lower s.
Proof.
  induction s as [|c s IH]; [reflexivity|].
  cbn [Py.lower]. now rewrite lower_char_twice, IH.
Qed.

(** A video with its title and its description in lower case. *)
Definition in_lower_case (video : VideoRecord) : VideoRecord :=
  mkVideo (video_id video)
    (Some (Py.lower (get_default (title video) "")))
    (channel video)
    (Some (Py.lower (get_default (description video) "")))
    (published_at video) (duration video) (view_count video) (like_count video)
    (category_id video).

(** X27.  The filter and the score read the title and the description of
    a video, and the score reads the query, in lower case only: a video
    and the same video with its title and description in lower case are
    filtered alike and have the same score, and so have a query and the
    query in lower case.  (The channel, in contrast, is compared as it is
    written.) *)
Theorem matching_ignores_case (env : Env) (video : VideoRecord)
    (preferences : Preferences) (query : string) :
  PersonalizedSearchEngine._apply_preference_filters env [in_lower_case video] preferences
  = map in_lower_case
      (PersonalizedSearchEngine._apply_preference_filters env [video] preferences) /\
  PersonalizedSearchEngine._calculate_preference_score env (in_lower_case video)
    preferences query
  = PersonalizedSearchEngine._calculate_preference_score env video preferences query /\
  PersonalizedSearchEngine._calculate_preference_score env video preferences
    (Py.lower query)
  = PersonalizedSearchEngine._calculate_preference_score env video preferences query.
Proof.
  split; [|split].
  - rewrite !apply_preference_filters_is_filter. cbn [filter].
    assert (E : passes env preferences (in_lower_case video)
                = passes env preferences video).
    { unfold passes, in_lower_case.
      cbn [title description channel duration view_count published_at get_default].
      now rewrite !lower_twice. }
    rewrite E. now destruct (passes env preferences video).
  - unfold PersonalizedSearchEngine._calculate_preference_score, in_lower_case.
    cbn [title description channel duration view_count like_count published_at
           category_id get_default].
    now rewrite !lower_twice.
  - unfold PersonalizedSearchEngine._calculate_preference_score.
    now rewrite !lower_twice.
Qed.

(* ################################################################# *)
(** * What the videos of a search can teach *)

Lemma search_videos_without_category (api : YouTubeSearchClient.Api) (query : string)
    (max_results : Z) (order : string) (videos : list YouTubeSearchClient.VideoData)
    (video : YouTubeSearchClient.VideoData) :
  YouTubeSearchClient.search_videos api query max_results order = Ok videos ->
  In video videos ->
  category_id (YouTubeSearchClient.fields video) = None.
Proof.
  rewrite search_videos_eq.
  destruct (YouTubeSearchClient.search_list api query max_results order)
    as [response|f]; [|discriminate].
  destruct (read_all _) as [l|r] eqn:Hl; [|discriminate].
  intros [= <-] Hin.
  destruct (Forall2_right _ _ _ _
              (built_from_all _ l _ (read_all_done _ l Hl) (with_statistics_basic api l))
              Hin)
    as (item & _ & (id & t & c & d & p & th & _ & _ & _ & _ & _ & _ & Hcat & _)).
  exact Hcat.
Qed.

(** X28.  The videos [search_videos] returns carry no category.  So a
    learn call on a video of a search, as the client returns it, never
    changes the preferred categories, whatever the action; and the row it
    adds to the log of interactions has the empty category. *)
Theorem search_results_teach_no_category (api : YouTubeSearchClient.Api) (env : Env)
    (search_query : string) (max_results : Z) (order : string)
    (videos : list YouTubeSearchClient.VideoData) (video : YouTubeSearchClient.VideoData)
    (st : State) (s : PreferenceSet) (action : string) (query : option string) :
  YouTubeSearchClient.search_videos api search_query max_results order = Ok videos ->
  In video videos ->
  effective_preferences st = to_dict s ->
  let st' := learn_call env st (YouTubeSearchClient.fields video, action, query) in
  category_id (YouTubeSearchClient.fields video) = None /\
  (exists s',
      fst (UserPreferenceEngine.get_preferences st') = Ok (to_dict s') /\
      categories_of s' = categories_of s) /\
  (db_error st = None ->
   exists row,
     user_interactions st' = user_interactions st ++ [row] /\ i_category row = "").
Proof.
  intros Hvideos Hin Heff st'. subst st'.
  pose proof (search_videos_without_category _ _ _ _ _ _ Hvideos Hin) as Hcat.
  split; [exact Hcat|]. split.
  - rewrite get_preferences_eq, (learn_call_reads env st s _ action query Heff).
    cbn [fst]. eexists. split; [reflexivity|].
    destruct (db_error st); [reflexivity|].
    rewrite categories_of_after_interaction.
    unfold Learner.categories_after, category_name. now rewrite Hcat.
  - intros Hdb. unfold learn_call.
    rewrite (record_interaction_eq env _ action query s st Hdb Heff). cbn [snd].
    exists (interaction_of env (YouTubeSearchClient.fields video) action query).
    split; [now destruct (learnable action)|].
    unfold interaction_of. cbn [i_category]. now rewrite Hcat.
Qed.

(** The theorem on the first video of the example, liked. *)
Lemma search_results_teach_no_category_witness :
  exists video rest s',
    YouTubeSearchClient.search_videos example_api "rocq" 10 "relevance"
    = Ok (video :: rest) /\
    fst (UserPreferenceEngine.get_preferences
           (learn_call (Example.env_with Example.two_videos) initial_state
              (YouTubeSearchClient.fields video, "liked", None)))
    = Ok (to_dict s') /\
    categories_of s' = [] /\
    channels_of s' = ["Alpha"].
Proof.
  destruct (YouTubeSearchClient.search_videos example_api "rocq" 10 "relevance")
    as [[|video rest]|e] eqn:E; try (vm_compute in E; discriminate).
  destruct (search_results_teach_no_category example_api
              (Example.env_with Example.two_videos) "rocq" 10 "relevance"
              (video :: rest) video initial_state defaults "liked" None E
              (or_introl eq_refl) eq_refl)
    as (_ & (s' & Hs' & Hcats) & _).
  exists video, rest, s'. split; [reflexivity|]. split; [exact Hs'|].
  split; [exact Hcats|].
  vm_compute in E. injection E as <- <-.
  vm_compute in Hs'. injection Hs' as Hs'.
  destruct s'. cbn in *. congruence.
Defined.
